(** * pyvcloud.vcd.client: a shallow embedding and its verified properties

    The development follows [pyvcloud/vcd/client.py].  Python values are
    modelled as the code uses them: [str] as [string] (a sequence of
    bytes), [int] as [Z], [None]-able values as [option], [dict] as
    stdpp's [gmap], exceptions as an explicit error type threaded
    through a small state-and-error monad, and the HTTP server, the
    wall clock and [time.sleep] as an explicit environment.  XML bodies
    are modelled after parsing, as trees of elements.  What the file
    imports from elsewhere is a parameter of the definitions that use
    it: the class hierarchy of [pyvcloud.vcd.exceptions], Python's
    [float] and [urllib.parse.quote], [quote_plus] and [unquote], the
    chunks that [requests] hands over for a streamed body, and the
    [_find_query_uri] that subclasses of [_AbstractQuery] provide.
    [str.lower] is a parameter too where names and addresses are
    lowered; where a status or an organisation is compared with a fixed
    ASCII word, it is [Py.lower].

    Part I holds the definitions, component by component, each followed
    by the vocabulary and the inputs its properties are stated with;
    Part II holds the properties of the task monitor, the upload, the
    links, the logout, the queries, the version negotiation and the
    redaction of headers; Part III holds further properties: of the
    base addresses, the ways out of the task monitor, unique results,
    the download, the list of server versions, the operations on linked
    resources, the well-known endpoints, the organisations, the map of
    typed queries, the session from a token, the links from a query and
    the user of an organisation. *)

From Stdlib Require Import ZArith String Ascii List Lia Bool DecimalString.
From stdpp Require Import gmap strings list fin_maps sorting.

Local Open Scope string_scope.
Local Open Scope Z_scope.
Local Open Scope list_scope.

(** ** Python primitives used by the client *)

Module Py.

(** [str.lower] on the ASCII range; bytes outside [A-Z] are kept.  It
    is used where the lowered text is compared with a fixed word in
    ASCII letters without [k] (the one ASCII letter that a letter from
    outside ASCII, the Kelvin sign, is lowered to): such a comparison
    it decides as [str.lower] does. *)
Definition lower_ascii (c : ascii) : ascii :=
  let n := N_of_ascii c in
  if (N.leb 65 n && N.leb n 90)%bool then ascii_of_N (n + 32)%N else c.

Fixpoint lower (s : string) : string :=
  match s with
  | EmptyString => EmptyString
  | String c s' => String (lower_ascii c) (lower s')
  end.

(** [str(n)] for an [int]. *)
Definition str_of_int (z : Z) : string := NilZero.string_of_int (Z.to_int z).

(** Truthiness of an optional string ([None] and [''] are falsy). *)
Definition truthy_str (s : option string) : bool :=
  match s with
  | None | Some EmptyString => false
  | Some _ => true
  end.

(** Truthiness of an optional integer ([None] and [0] are falsy). *)
Definition truthy_int (z : option Z) : bool :=
  match z with
  | None => false
  | Some n => negb (Z.eqb n 0)
  end.

(** [a == b] on optional strings. *)
Definition eq_ostr (a b : option string) : bool := bool_decide (a = b).

Definition is_digit (c : ascii) : bool :=
  let n := N_of_ascii c in (N.leb 48 n && N.leb n 57)%bool.

Definition digit_val (c : ascii) : Z := Z.of_N (N_of_ascii c) - 48.

(** ASCII white space as [str.strip] and [int] see it. *)
Definition is_space (c : ascii) : bool :=
  let n := N_of_ascii c in
  ((N.leb 9 n && N.leb n 13) || (N.leb 28 n && N.leb n 32))%bool.

Fixpoint lstrip (l : list ascii) : list ascii :=
  match l with
  | c :: l' => if is_space c then lstrip l' else l
  | [] => []
  end.

Definition strip (l : list ascii) : list ascii :=
  rev (lstrip (rev (lstrip l))).

(** Decimal digits, single underscores allowed between digits. *)
Fixpoint digits_val (l : list ascii) (acc : Z) (after_digit : bool)
    : option Z :=
  match l with
  | [] => if after_digit then Some acc else None
  | c :: l' =>
      if is_digit c then digits_val l' (10 * acc + digit_val c) true
      else if Ascii.eqb c "_"
      then if after_digit then digits_val l' acc false else None
      else None
  end.

(** [int(s)] for a [str] in base ten, on ASCII input: surrounding white
    space, an optional sign, digits.  [None] is [ValueError]. *)
Definition int_of_str (s : string) : option Z :=
  match strip (list_ascii_of_string s) with
  | "-"%char :: l => Z.opp <$> digits_val l 0 false
  | "+"%char :: l => digits_val l 0 false
  | l => digits_val l 0 false
  end.

(** [s.replace(old, new)] for a non-empty [old]: occurrences are
    replaced from the left and do not overlap; [skip] counts the bytes
    of an occurrence still to be dropped. *)
Fixpoint replace_from (old new : string) (skip : nat) (s : string) : string :=
  match s with
  | EmptyString => EmptyString
  | String c s' =>
      match skip with
      | S k => replace_from old new k s'
      | O =>
          if String.prefix old s
          then new +:+ replace_from old new (String.length old - 1) s'
          else String c (replace_from old new 0 s')
      end
  end.

Definition replace (s old new : string) : string := replace_from old new 0 s.

Definition backslash : ascii := ascii_of_N 92.
Definition single_quote : ascii := ascii_of_N 39.
Definition double_quote : ascii := ascii_of_N 34.

Definition hex_digit (n : N) : ascii :=
  if (n <? 10)%N then ascii_of_N (48 + n) else ascii_of_N (87 + n).

Fixpoint has_char (c : ascii) (s : string) : bool :=
  match s with
  | EmptyString => false
  | String x s' => Ascii.eqb x c || has_char c s'
  end.

(** One character of [repr(s)]: the quote in use and the backslash are
    escaped, tab, newline and carriage return are written with their
    letters and the other control characters in hexadecimal; bytes
    beyond the ASCII range are kept, as printable characters are. *)
Definition repr_char (quote c : ascii) : string :=
  let n := N_of_ascii c in
  if Ascii.eqb c quote || Ascii.eqb c backslash
  then String backslash (String c EmptyString)
  else if (n =? 9)%N then String backslash "t"
  else if (n =? 10)%N then String backslash "n"
  else if (n =? 13)%N then String backslash "r"
  else if ((n <? 32) || (n =? 127))%N
  then String backslash
         (String "x"
            (String (hex_digit (n / 16))
               (String (hex_digit (n mod 16)) EmptyString)))
  else String c EmptyString.

Fixpoint repr_chars (quote : ascii) (s : string) : string :=
  match s with
  | EmptyString => EmptyString
  | String c s' => repr_char quote c +:+ repr_chars quote s'
  end.

(** [repr(s)] for a [str]: in single quotes, or in double quotes when
    the text holds a single quote and no double quote. *)
Definition repr_str (s : string) : string :=
  let quote :=
    if has_char single_quote s && negb (has_char double_quote s)
    then double_quote else single_quote in
  String quote (repr_chars quote s +:+ String quote EmptyString).

(** [str(l)] for a list of [str], as an f-string writes it. *)
Definition repr_list (l : list string) : string :=
  "[" +:+ String.concat ", " (List.map repr_str l) +:+ "]".

End Py.

(** ** Header redaction ([Client._redact_headers]) *)

Module Headers.

Definition _HEADER_ACCEPT_NAME := "Accept".
Definition _HEADER_AUTHORIZATION_NAME := "Authorization".
Definition _HEADER_CONNECTION_NAME := "Connection".
Definition _HEADER_CONTENT_LENGTH_NAME := "Content-Length".
Definition _HEADER_CONTENT_RANGE_NAME := "Content-Range".
Definition _HEADER_CONTENT_TYPE_NAME := "Content-Type".
Definition _HEADER_REQUEST_ID_NAME := "X-VMWARE-VCLOUD-REQUEST-ID".
Definition _HEADER_X_VCLOUD_AUTH_NAME := "x-vcloud-authorization".
Definition _HEADER_X_VMWARE_CLOUD_ACCESS_TOKEN_NAME :=
  "x-vmware-vcloud-access-token".

Definition _HEADERS_TO_REDACT : list string :=
  [ _HEADER_AUTHORIZATION_NAME;
    _HEADER_X_VCLOUD_AUTH_NAME;
    _HEADER_X_VMWARE_CLOUD_ACCESS_TOKEN_NAME ].

Definition REDACTED := "[REDACTED]".

(** One iteration of the loop body over [headers.items()]. *)
Definition redact_item (key value : string)
    (redacted_headers : gmap string string) : gmap string string :=
  if bool_decide (key ∉ _HEADERS_TO_REDACT)
  then <[key := value]> redacted_headers
  else <[key := REDACTED]> redacted_headers.

Definition _redact_headers (headers : gmap string string)
    : gmap string string :=
  map_fold redact_item ∅ headers.

(** The three logging switches of the client; [_redact_headers]
    takes none of them. *)
Record LogTier := {
  _log_requests : bool;
  _log_headers : bool;
  _log_bodies : bool
}.

(** What [_log_request_sent] writes about the headers (the request
    line and the body are logged next to it). *)
Definition logged_request_headers (t : LogTier)
    (headers : gmap string string) : option (gmap string string) :=
  if negb (_log_requests t) then None
  else if _log_headers t then Some (_redact_headers headers)
  else None.

End Headers.

(** ** Relation names ([RelationType]) *)

Module RelationType.

Inductive t : Type :=
| ADD | ALTERNATE | CHECK_COMPLIANCE | CONSOLIDATE | CONTROL_ACCESS
| CONVERT_TO_ADVANCED_GATEWAY | CUSTOMIZE_AT_NEXT_POWERON | DEPLOY
| DISABLE | DISABLE_GATEWAY_DISTRIBUTED_ROUTING | DISCARD_SUSPENDED_STATE
| DISK_ATTACH | DISK_DETACH | DOWN | DOWN_EXTENSIBILITY
| DOWNLOAD_DEFAULT | DOWNLOAD_OVA_DEFAULT | EDGE_GATEWAYS | EDIT
| EJECT_MEDIA | ENABLE | ENABLE_GATEWAY_DISTRIBUTED_ROUTING
| ENTER_MAINTENANCE_MODE | EXIT_MAINTENANCE_MODE | GATEWAY_REDEPLOY
| GATEWAY_SYNC_SYSLOG_SETTINGS | GATEWAY_SYS_SERVER_SETTING_IP
| GATEWAY_UPDATE_PROPERTIES | GUEST_CUSTOMIZATION_SECTION | INSERT_MEDIA
| INSTALL_VMWARE_TOOLS | LINK_TO_TEMPLATE | METRICS | MIGRATE_VMS
| MODIFY_FORM_FACTOR | NEXT_PAGE | OPENAPI | ORG_VDC_NETWORKS | POWER_OFF
| POWER_ON | POWER_REBOOT | POWER_RESET | POWER_SHUTDOWN | POWER_SUSPEND
| PUBLISH | RECOMPOSE | RECONFIGURE_VM | RELOAD_FROM_VC | RELOCATE
| REMOVE | REPAIR | RIGHTS | RESOURCE_POOL_VM_LIST | SNAPSHOT_CREATE
| SNAPSHOT_REVERT_TO_CURRENT | SNAPSHOT_REMOVE_ALL | SYNC_SYSLOG_SETTINGS
| TASK_CANCEL | UNDEPLOY | UNLINK_FROM_TEMPLATE | UNREGISTER | UP
| UPDATE_RESOURCE_POOLS | UPGRADE
| VDC_ROUTED_CONVERT_TO_DISTRIBUTED_INTERFACE
| VDC_ROUTED_CONVERT_TO_SUB_INTERFACE
| VDC_ROUTED_CONVERT_TO_INTERNAL_INTERFACE.

Definition value (rel : t) : string :=
  match rel with
  | ADD => "add"
  | ALTERNATE => "alternate"
  | CHECK_COMPLIANCE => "checkCompliance"
  | CONSOLIDATE => "consolidate"
  | CONTROL_ACCESS => "controlAccess"
  | CONVERT_TO_ADVANCED_GATEWAY => "edgeGateway:convertToAdvancedGateway"
  | CUSTOMIZE_AT_NEXT_POWERON => "customizeAtNextPowerOn"
  | DEPLOY => "deploy"
  | DISABLE => "disable"
  | DISABLE_GATEWAY_DISTRIBUTED_ROUTING => "edgeGateway:disableDistributedRouting"
  | DISCARD_SUSPENDED_STATE => "discardState"
  | DISK_ATTACH => "disk:attach"
  | DISK_DETACH => "disk:detach"
  | DOWN => "down"
  | DOWN_EXTENSIBILITY => "down:extensibility"
  | DOWNLOAD_DEFAULT => "download:default"
  | DOWNLOAD_OVA_DEFAULT => "download:ovaDefault"
  | EDGE_GATEWAYS => "edgeGateways"
  | EDIT => "edit"
  | EJECT_MEDIA => "media:ejectMedia"
  | ENABLE => "enable"
  | ENABLE_GATEWAY_DISTRIBUTED_ROUTING => "edgeGateway:enableDistributedRouting"
  | ENTER_MAINTENANCE_MODE => "enterMaintenanceMode"
  | EXIT_MAINTENANCE_MODE => "exitMaintenanceMode"
  | GATEWAY_REDEPLOY => "edgeGateway:redeploy"
  | GATEWAY_SYNC_SYSLOG_SETTINGS => "edgeGateway:syncSyslogSettings"
  | GATEWAY_SYS_SERVER_SETTING_IP => "edgeGateway:configureSyslogServerSettings"
  | GATEWAY_UPDATE_PROPERTIES => "edgeGateway:updateProperties"
  | GUEST_CUSTOMIZATION_SECTION => "guestCustomizationSection"
  | INSERT_MEDIA => "media:insertMedia"
  | INSTALL_VMWARE_TOOLS => "installVmwareTools"
  | LINK_TO_TEMPLATE => "linkToTemplate"
  | METRICS => "metrics"
  | MIGRATE_VMS => "migrateVms"
  | MODIFY_FORM_FACTOR => "edgeGateway:modifyFormFactor"
  | NEXT_PAGE => "nextPage"
  | OPENAPI => "openapi"
  | ORG_VDC_NETWORKS => "orgVdcNetworks"
  | POWER_OFF => "power:powerOff"
  | POWER_ON => "power:powerOn"
  | POWER_REBOOT => "power:reboot"
  | POWER_RESET => "power:reset"
  | POWER_SHUTDOWN => "power:shutdown"
  | POWER_SUSPEND => "power:suspend"
  | PUBLISH => "publish"
  | RECOMPOSE => "recompose"
  | RECONFIGURE_VM => "reconfigureVm"
  | RELOAD_FROM_VC => "reloadFromVc"
  | RELOCATE => "relocate"
  | REMOVE => "remove"
  | REPAIR => "repair"
  | RIGHTS => "rights"
  | RESOURCE_POOL_VM_LIST => "resourcePoolVmList"
  | SNAPSHOT_CREATE => "snapshot:create"
  | SNAPSHOT_REVERT_TO_CURRENT => "snapshot:revertToCurrent"
  | SNAPSHOT_REMOVE_ALL => "snapshot:removeAll"
  | SYNC_SYSLOG_SETTINGS => "syncSyslogSettings"
  | TASK_CANCEL => "task:cancel"
  | UNDEPLOY => "undeploy"
  | UNLINK_FROM_TEMPLATE => "unlinkFromTemplate"
  | UNREGISTER => "unregister"
  | UP => "up"
  | UPDATE_RESOURCE_POOLS => "update:resourcePools"
  | UPGRADE => "upgrade"
  | VDC_ROUTED_CONVERT_TO_DISTRIBUTED_INTERFACE => "orgVdcNetwork:convertToDistributedInterface"
  | VDC_ROUTED_CONVERT_TO_SUB_INTERFACE => "orgVdcNetwork:convertToSubInterface"
  | VDC_ROUTED_CONVERT_TO_INTERNAL_INTERFACE => "orgVdcNetwork:convertToInternalInterface"
  end.

End RelationType.

(** ** Documents ([lxml] elements as the client reads them) *)

Module Xml.

(** An element: namespace and local name of its tag, its XML
    attributes, its text and its direct children. *)
#[warnings="-register-all"]
Inductive Element : Type :=
  mkElement (ns localname : string) (attrib : gmap string string)
            (text : option string) (children : list Element).

Definition ns (e : Element) : string :=
  match e with mkElement n _ _ _ _ => n end.
Definition localname (e : Element) : string :=
  match e with mkElement _ l _ _ _ => l end.
Definition attrib (e : Element) : gmap string string :=
  match e with mkElement _ _ a _ _ => a end.
Definition text (e : Element) : option string :=
  match e with mkElement _ _ _ t _ => t end.
Definition children (e : Element) : list Element :=
  match e with mkElement _ _ _ _ c => c end.

(** [e.get(name)]: the XML attribute, [None] when absent. *)
Definition get (e : Element) (name : string) : option string :=
  attrib e !! name.

Definition has_tag (qns qname : string) (c : Element) : bool :=
  bool_decide (ns c = qns ∧ localname c = qname).

(** [e.findall('{qns}qname')]: the direct children with that tag, in
    document order. *)
Definition findall (e : Element) (qns qname : string) : list Element :=
  List.filter (has_tag qns qname) (children e).

(** [e.name] on an objectified element: the first child called [name]
    in the namespace of [e]; XML attributes are not consulted. *)
Definition child (e : Element) (name : string) : option Element :=
  List.find (has_tag (ns e) name) (children e).

(** [hasattr(e, name)] on an objectified element: whether [e.name]
    finds a child. *)
Definition hasattr (e : Element) (name : string) : bool :=
  match child e name with Some _ => true | None => false end.

(** Iterating over [e.name]: that child and its siblings of the same
    tag; [None] when there is no such child (AttributeError). *)
Definition child_seq (e : Element) (name : string) : option (list Element) :=
  match findall e (ns e) name with
  | [] => None
  | l => Some l
  end.

Definition VCLOUD_NS := "http://www.vmware.com/vcloud/v1.5".

End Xml.

(** ** Exceptions, HTTP exchange and the environment *)

Module Http.
Import Xml.

Inductive Body : Type :=
| NoBody
| XmlBody (e : Element)
| RawBody (s : string).

(** A [requests.Session]: the headers it adds to every request. *)
Record Session := { session_headers : gmap string string }.

Record Request := {
  method : string;
  uri : option string;
  headers : gmap string string;
  session : Session;
  data : Body
}.

(** A response.  [content] is the parsed body: [None] for an empty
    body, [Some e] for a body that [objectify.fromstring] reads as [e]. *)
Record Response := {
  status_code : Z;
  resp_headers : gmap string string;
  content : option Element
}.

(** The classes [_response_code_to_exception] chooses from. *)
Inductive response_exn_class : Type :=
| BadRequestException
| UnauthorizedException
| AccessForbiddenException
| NotFoundException
| MethodNotAllowedException
| NotAcceptableException
| RequestTimeoutException
| ConflictException
| UnsupportedMediaTypeException
| InvalidContentLengthException
| InternalServerException
| UnknownApiException.

(** Third constructor argument of a status-code exception: the
    objectified body ([_do_request]) or the response itself
    ([upload_fragment], [download_from_uri]). *)
Inductive exn_payload : Type :=
| ObjectifiedBody (o : option Element)
| WholeResponse (r : Response).

Inductive exn : Type :=
| ResponseExn (c : response_exn_class) (sc : Z)
              (request_id : option string) (payload : exn_payload)
| VcdException (msg : string)
| VcdTaskException (task_status : string) (error : Element)
| TaskTimeoutException (msg : string)
| MissingLinkException (href : option string) (rel : RelationType.t)
                       (media_type : option string)
| MultipleLinksException (href : option string) (rel : RelationType.t)
                         (media_type : option string)
| OperationNotSupportedException (msg : string)
| TypeError
| ValueError
| AttributeError
| UnboundLocalError
| StopIteration
| OtherException (name : string).

(** How a call ends: a value, an exception, or (for the loops that
    Python runs without a bound) no end within the given number of
    iterations. *)
Inductive outcome (A : Type) : Type :=
| Ok (a : A)
| Raise (e : exn)
| OutOfFuel.
Arguments Ok {A} a.
Arguments Raise {A} e.
Arguments OutOfFuel {A}.

(** The environment of a client: the server (with the [requests]
    library in front of it) answers a request given the requests sent
    before it, with a response or a transport-level exception of
    [requests] (given by its name); the wall clock gives its [n]-th
    reading, in microseconds. *)
Record Env := {
  server : list Request → Request → Response + string;
  clock : nat → Z
}.

(** What the client has done to the environment so far. *)
Record World := {
  trace : list Request;
  clock_reads : nat;
  sleeps : list Z;
  closed : list Session
}.

Definition world0 : World :=
  {| trace := []; clock_reads := 0; sleeps := []; closed := [] |}.

Definition M (A : Type) : Type := World → outcome A * World.

Definition ret {A} (a : A) : M A := λ w, (Ok a, w).
Definition raise {A} (e : exn) : M A := λ w, (Raise e, w).
Definition bind {A B} (m : M A) (k : A → M B) : M B :=
  λ w, match m w with
       | (Ok a, w') => k a w'
       | (Raise e, w') => (Raise e, w')
       | (OutOfFuel, w') => (OutOfFuel, w')
       end.

(** [session.request(...)]. *)
Definition send (env : Env) (req : Request) : M Response :=
  λ w,
    let w' := {| trace := trace w ++ [req]; clock_reads := clock_reads w;
                 sleeps := sleeps w; closed := closed w |} in
    match server env (trace w) req with
    | inl r => (Ok r, w')
    | inr e => (Raise (OtherException e), w')
    end.

(** [datetime.now()]. *)
Definition now (env : Env) : M Z :=
  λ w, (Ok (clock env (clock_reads w)),
        {| trace := trace w; clock_reads := S (clock_reads w);
           sleeps := sleeps w; closed := closed w |}).

(** [time.sleep(d)], for a length that it takes (one that is not
    negative and not beyond what it can count). *)
Definition sleep (d : Z) : M unit :=
  λ w, (Ok tt,
        {| trace := trace w; clock_reads := clock_reads w;
           sleeps := sleeps w ++ [d]; closed := closed w |}).

(** [session.close()]. *)
Definition close (s : Session) : M unit :=
  λ w, (Ok tt,
        {| trace := trace w; clock_reads := clock_reads w;
           sleeps := sleeps w; closed := closed w ++ [s] |}).

End Http.

Notation "x <~ m ;> k" := (Http.bind m (λ x, k))
  (at level 20, m at level 100, k at level 200, only parsing).

(** ** The client object and its request pipeline *)

Module Client.
Import Xml Http Headers.

Definition _UPLOAD_FRAGMENT_MAX_RETRIES : Z := 5.

(** The attributes of a [Client] that the modelled methods read or
    write.  [_session_endpoints] is keyed by the name of the
    [_WellKnownEndpoint] member, [_query_list_map] by the pair (content
    type, query name). *)
Record t := {
  _api_base_uri : string;
  _cloudapi_base_uri : string;
  _api_version : option string;
  _verify_ssl_certs : bool;
  _session_endpoints : option (gmap string string);
  _session : option Session;
  _vcloud_session : option Element;
  _vcloud_auth_token : option string;
  _vcloud_access_token : option string;
  _query_list_map : option (gmap (string * string) string);
  _is_sysadmin : bool
}.

Definition _response_has_content (response : Response) : bool :=
  match content response with Some _ => true | None => false end.

Definition _objectify_response (response : Response) : option Element :=
  if _response_has_content response then content response else None.

Definition _get_response_request_id (response : Response) : option string :=
  resp_headers response !! _HEADER_REQUEST_ID_NAME.

(** [requests.codes] as the mapping uses them. *)
Definition code_class (sc : Z) : response_exn_class :=
  if sc =? 400 then BadRequestException
  else if sc =? 401 then UnauthorizedException
  else if sc =? 403 then AccessForbiddenException
  else if sc =? 404 then NotFoundException
  else if sc =? 405 then MethodNotAllowedException
  else if sc =? 406 then NotAcceptableException
  else if sc =? 408 then RequestTimeoutException
  else if sc =? 409 then ConflictException
  else if sc =? 415 then UnsupportedMediaTypeException
  else if sc =? 416 then InvalidContentLengthException
  else if sc =? 500 then InternalServerException
  else UnknownApiException.

(** [_response_code_to_exception] always raises; this is what it raises. *)
Definition _response_code_to_exception (sc : Z) (request_id : option string)
    (objectify_response : exn_payload) : exn :=
  ResponseExn (code_class sc) sc request_id objectify_response.

Definition accept_header (self : t) (accept_type : option string) : string :=
  let accept_header :=
    if Py.truthy_str accept_type then default "" accept_type
    else "application/*+xml" in
  match _api_version self with
  | Some v => if Py.truthy_str (Some v)
              then accept_header +:+ ";version=" +:+ v else accept_header
  | None => accept_header
  end.

(** [_do_request_prim] (logging, [auth] and [params] left out: they do
    not change what is sent to which URI nor what comes back). *)
Definition _do_request_prim (env : Env) (self : t) (method : string)
    (uri : option string) (session : option Session)
    (contents : option Element) (media_type : option string)
    (accept_type : option string)
    (extra_headers : option (gmap string string)) : M Response :=
  let headers :=
    match extra_headers with
    | Some h => if bool_decide (h = ∅) then ∅ else h
    | None => ∅
    end in
  let headers :=
    match media_type with
    | Some mt => <[_HEADER_CONTENT_TYPE_NAME := mt]> headers
    | None => headers
    end in
  let headers := <[_HEADER_ACCEPT_NAME := accept_header self accept_type]> headers in
  let data := match contents with None => NoBody | Some e => XmlBody e end in
  match session with
  | None => raise AttributeError
  | Some s =>
      send env {| method := method; uri := uri; headers := headers;
                  session := s; data := data |}
  end.

Definition _do_request (env : Env) (self : t) (method : string)
    (uri : option string) (contents : option Element)
    (media_type : option string)
    (extra_headers : option (gmap string string)) : M (option Element) :=
  response <~ _do_request_prim env self method uri (_session self)
                contents media_type None extra_headers ;>
  let sc := status_code response in
  if (sc =? 200) || (sc =? 201) || (sc =? 202) || (sc =? 204)
  then ret (_objectify_response response)
  else raise (_response_code_to_exception sc
                (_get_response_request_id response)
                (ObjectifiedBody (_objectify_response response))).

Definition get_resource (env : Env) (self : t) (uri : option string)
    : M (option Element) :=
  _do_request env self "GET" uri None None None.

End Client.

(** ** Task monitor ([_TaskMonitor]) *)

Module TaskMonitor.
Import Xml Http.

Inductive TaskStatus : Type :=
| QUEUED | PRE_RUNNING | RUNNING | SUCCESS | ERROR | CANCELED | ABORTED.

Definition value (s : TaskStatus) : string :=
  match s with
  | QUEUED => "queued"
  | PRE_RUNNING => "preRunning"
  | RUNNING => "running"
  | SUCCESS => "success"
  | ERROR => "error"
  | CANCELED => "canceled"
  | ABORTED => "aborted"
  end.

Definition _DEFAULT_POLL_SEC : Z := 5.
Definition _DEFAULT_TIMEOUT_SEC : Z := 600.

(** The three shapes of the [fail_on_statuses] argument that the
    method tells apart: [None], one [TaskStatus], anything else (a
    list of statuses). *)
Inductive fail_on_arg : Type :=
| FailOnNone
| FailOnStatus (s : TaskStatus)
| FailOnList (l : list TaskStatus).

Definition default_fail_on : fail_on_arg :=
  FailOnList [ABORTED; CANCELED; ERROR].

(** Lines 622-627.  In the [isinstance] branch the statement is the
    expression [_fail_on_statuses[fail_on_statuses]]: it reads the
    local [_fail_on_statuses], which no branch has assigned yet. *)
Definition normalise_fail_on (fail_on_statuses : fail_on_arg)
    : M (list TaskStatus) :=
  match fail_on_statuses with
  | FailOnNone => ret []
  | FailOnStatus _ => raise UnboundLocalError
  | FailOnList l => ret l
  end.

(** A callback is user code: it sees the task and may raise. *)
Definition callback_t : Type := option Element → option exn.

Definition _get_task_status (env : Env) (client : Client.t)
    (task_href : option string) : M (option Element) :=
  Client.get_resource env client task_href.

Definition matches_any (task_status : string) (l : list TaskStatus) : bool :=
  existsb (λ status, String.eqb task_status (Py.lower (value status))) l.

(** One pass through the body of [while True]: [inl r] leaves the
    method with [r], [inr tt] goes round again. *)
Definition poll_once (env : Env) (client : Client.t)
    (task_href : option string) (start_time timeout poll_frequency : Z)
    (_fail_on_statuses expected_target_statuses : list TaskStatus)
    (callback : option callback_t) : M (option Element + unit) :=
  task <~ _get_task_status env client task_href ;>
  _ <~ match callback with
       | None => ret tt
       | Some cb => match cb task with
                    | None => ret tt
                    | Some e => raise e
                    end
       end ;>
  match task with
  | None => raise AttributeError
  | Some t =>
      match get t "status" with
      | None => raise AttributeError
      | Some st =>
          let task_status := Py.lower st in
          if matches_any task_status expected_target_statuses
          then ret (inl task)
          else if matches_any task_status _fail_on_statuses
          then match child t "Error" with
               | Some err => raise (VcdTaskException task_status err)
               | None => raise AttributeError
               end
          else
            t_now <~ now env ;>
            if start_time - t_now >? timeout
            then raise (TaskTimeoutException "Task timeout")
            else
              _ <~ sleep poll_frequency ;>
              ret (inr tt)
      end
  end.

(** The [while True] loop, run for at most [fuel] iterations. *)
Fixpoint poll_loop (fuel : nat) (env : Env) (client : Client.t)
    (task_href : option string) (start_time timeout poll_frequency : Z)
    (_fail_on_statuses expected_target_statuses : list TaskStatus)
    (callback : option callback_t) : M (option Element) :=
  match fuel with
  | O => λ w, (OutOfFuel, w)
  | S fuel' =>
      r <~ poll_once env client task_href start_time timeout poll_frequency
             _fail_on_statuses expected_target_statuses callback ;>
      match r with
      | inl task => ret task
      | inr _ =>
          poll_loop fuel' env client task_href start_time timeout
            poll_frequency _fail_on_statuses expected_target_statuses
            callback
      end
  end.

(** [wait_for_status].  [timeout] and [poll_frequency] are the
    [timedelta] values of the arguments, in microseconds like the
    clock. *)
Definition wait_for_status (fuel : nat) (env : Env) (client : Client.t)
    (task : Element) (timeout poll_frequency : Z)
    (fail_on_statuses : fail_on_arg)
    (expected_target_statuses : list TaskStatus)
    (callback : option callback_t) : M (option Element) :=
  _fail_on_statuses <~ normalise_fail_on fail_on_statuses ;>
  let task_href := get task "href" in
  start_time <~ now env ;>
  poll_loop fuel env client task_href start_time timeout poll_frequency
    _fail_on_statuses expected_target_statuses callback.

Definition wait_for_success (fuel : nat) (env : Env) (client : Client.t)
    (task : Element) (timeout poll_frequency : Z)
    (callback : option callback_t) : M (option Element) :=
  wait_for_status fuel env client task timeout poll_frequency
    (FailOnList [ERROR]) [SUCCESS] callback.

(** The deadline test as the docstring describes it (time spent since
    the start against the timeout), for comparison with the test in
    [poll_once]. *)
Definition elapsed_exceeds (start_time t_now timeout : Z) : bool :=
  t_now - start_time >? timeout.

(** The task is stuck: whatever is asked, the server answers 200 with
    a task whose status is neither expected nor failing. *)
Definition stuck (env : Env)
    (_fail_on_statuses expected_target_statuses : list TaskStatus) : Prop :=
  ∀ h req, ∃ r t st,
    server env h req = inl r ∧ status_code r = 200 ∧ content r = Some t ∧
    get t "status" = Some st ∧
    matches_any (Py.lower st) expected_target_statuses = false ∧
    matches_any (Py.lower st) _fail_on_statuses = false.

(** The callback, when there is one, returns without raising. *)
Definition callback_returns (callback : option callback_t) : Prop :=
  ∀ cb t, callback = Some cb → cb t = None.

End TaskMonitor.

(** ** Chunked upload ([Client.upload_fragment]) *)

Module Upload.
Import Xml Http Headers.

Section WithHierarchy.

(** The exception classes are declared in [pyvcloud.vcd.exceptions],
    outside [client.py]: which of the status-code classes derive from
    [VcdResponseException] is a parameter. *)
Variable is_VcdResponseException : response_exn_class → bool.

(** Whether [except VcdResponseException] catches [e].  The other
    exceptions the [try] block can raise come from [requests] or are
    built in. *)
Definition caught (e : exn) : bool :=
  match e with
  | ResponseExn c _ _ _ => is_VcdResponseException c
  | _ => false
  end.

(** The body of the [try]. *)
Definition put_once (env : Env) (self : Client.t) (uri : option string)
    (data : string) (headers : gmap string string) : M Response :=
  match Client._session self with
  | None => raise AttributeError
  | Some s =>
      response <~ send env {| method := "PUT"; uri := uri;
                              headers := headers; session := s;
                              data := RawBody data |} ;>
      let sc := status_code response in
      if negb (sc =? 200)
      then raise (Client._response_code_to_exception sc None
                    (WholeResponse response))
      else ret response
  end.

(** The [for attempt in range(...)] loop over the attempts left. *)
Fixpoint upload_attempts (attempts : list Z) (env : Env) (self : Client.t)
    (uri : option string) (data : string) (headers : gmap string string)
    : M (option Response) :=
  match attempts with
  | [] => ret None
  | attempt :: rest =>
      λ w,
        match put_once env self uri data headers w with
        | (Ok response, w') => (Ok (Some response), w')
        | (Raise e, w') =>
            if caught e
            then if attempt <? Client._UPLOAD_FRAGMENT_MAX_RETRIES
                 then upload_attempts rest env self uri data headers w'
                 else (Raise e, w')
            else (Raise e, w')
        | (OutOfFuel, w') => (OutOfFuel, w')
        end
  end.

(** [range(1, n + 1)]. *)
Definition range1 (n : Z) : list Z :=
  List.map (λ i, Z.of_nat i) (seq 1 (Z.to_nat n)).

Definition upload_headers (contents range_str : string)
    : gmap string string :=
  <[_HEADER_CONTENT_LENGTH_NAME :=
      Py.str_of_int (Z.of_nat (String.length contents))]>
    (<[_HEADER_CONTENT_RANGE_NAME := range_str]> ∅).

Definition upload_fragment (env : Env) (self : Client.t)
    (uri : option string) (contents range_str : string)
    : M (option Response) :=
  upload_attempts (range1 Client._UPLOAD_FRAGMENT_MAX_RETRIES) env self uri
    contents (upload_headers contents range_str).

End WithHierarchy.

(** The hierarchy of the package.  In [pyvcloud.vcd.exceptions] every
    class that [_response_code_to_exception] raises is declared as a
    subclass of [VcdResponseException]; the comment at the head of the
    loop (lines 1323-1326) says what follows from it: on any status
    other than 200 the upload is tried again. *)
Definition package_hierarchy : response_exn_class → bool := λ _, true.

End Upload.

(** ** Inputs for the task monitor properties *)

Module TaskMonitorExamples.
Import Xml Http TaskMonitor.

Definition session1 : Session := {| session_headers := ∅ |}.

Definition client1 : Client.t :=
  {| Client._api_base_uri := "https://vcd.example/api";
     Client._cloudapi_base_uri := "https://vcd.example/cloudapi";
     Client._api_version := Some "36.0";
     Client._verify_ssl_certs := true;
     Client._session_endpoints := None;
     Client._session := Some session1;
     Client._vcloud_session := None;
     Client._vcloud_auth_token := None;
     Client._vcloud_access_token := None;
     Client._query_list_map := None;
     Client._is_sysadmin := false |}.

Definition task_with_status (st : string) : Element :=
  mkElement VCLOUD_NS "Task"
    (<["href" := "https://vcd.example/api/task/1"]> (<["status" := st]> ∅))
    None [].

(** A server whose task stays at "running", polled by a clock that
    advances 0.01 s per reading. *)
Definition env_stuck : Env :=
  {| server := λ _ _, inl {| status_code := 200; resp_headers := ∅;
                             content := Some (task_with_status "running") |};
     clock := λ n, 10000 * Z.of_nat n |}.

End TaskMonitorExamples.

(** ** Vocabulary for the upload properties *)

Module UploadSpec.
Import Xml Http.

(** The one request [upload_fragment] sends, again at each attempt. *)
Definition put_request (s : Session) (uri : option string)
    (contents range_str : string) : Request :=
  {| method := "PUT"; uri := uri;
     headers := Upload.upload_headers contents range_str;
     session := s; data := RawBody contents |}.

(** The world after one more request. *)
Definition sent (req : Request) (w : World) : World :=
  {| trace := trace w ++ [req]; clock_reads := clock_reads w;
     sleeps := sleeps w; closed := closed w |}.

(** The answer to the attempt made after [i] earlier ones. *)
Definition reply (env : Env) (w : World) (req : Request) (i : nat)
    : Response + string :=
  server env (trace w ++ repeat req i)%list req.

(** An answer after which another attempt is made: a response that is
    not 200 and whose class [except VcdResponseException] catches. *)
Definition retried (hier : response_exn_class → bool)
    (a : Response + string) : Prop :=
  ∃ r, a = inl r ∧ status_code r ≠ 200
       ∧ hier (Client.code_class (status_code r)) = true.

(** How the call ends on its last answer [a]: with the response when
    it is 200; with the transport exception; with the mapped exception
    otherwise, which for a caught class happens only at the last
    allowed attempt. *)
Definition ends_with (hier : response_exn_class → bool) (last : bool)
    (a : Response + string) (res : outcome (option Response)) : Prop :=
  match a with
  | inl r =>
      if status_code r =? 200 then res = Ok (Some r)
      else res = Raise (Client._response_code_to_exception (status_code r)
                          None (WholeResponse r))
           ∧ (hier (Client.code_class (status_code r)) = true → last = true)
  | inr e => res = Raise (OtherException e)
  end.

End UploadSpec.

Module UploadExamples.
Import Xml Http.

(** The hierarchy in which every status-code class derives from
    [VcdResponseException]: the one of the package. *)
Definition all_derive : response_exn_class → bool := Upload.package_hierarchy.

(** Another hierarchy, not the one of the package, in which only the
    class of status 416 does. *)
Definition only_416 : response_exn_class → bool :=
  λ c, match c with InvalidContentLengthException => true | _ => false end.

Definition plain (sc : Z) : Response :=
  {| status_code := sc; resp_headers := ∅; content := None |}.

(** A server that answers [sc] to the first [k] requests and 200 to
    the later ones. *)
Definition env_fail_first (k : nat) (sc : Z) : Env :=
  {| server := λ h _, if (length h <? k)%nat then inl (plain sc)
                      else inl (plain 200);
     clock := λ n, Z.of_nat n |}.

Definition uploader : Client.t := TaskMonitorExamples.client1.

Definition chunk_req : Request :=
  UploadSpec.put_request TaskMonitorExamples.session1
    (Some "https://vcd.example/transfer/1/file") "abcd" "bytes 0-3/4".

End UploadExamples.

(** ** Link resolution ([get_links], [find_link], [Link]) *)

Module Links.
Import Xml Http.

(** [Link]: the four attributes read off a [<Link>] element. *)
Record Link := {
  rel : option string;
  media_type : option string;
  href : option string;
  name : option string
}.

Definition Link_of (link_elem : Element) : Link :=
  {| rel := get link_elem "rel";
     media_type := get link_elem "type";
     href := get link_elem "href";
     name := if bool_decide (is_Some (attrib link_elem !! "name"))
             then get link_elem "name" else None |}.

(** The body of the [for link in ...] loop: [links] after this element. *)
Definition get_links_step (rel : RelationType.t)
    (media_type name : option string) (links : list Link) (link : Element)
    : list Link :=
  let link_rel := get link "rel" in
  let link_media_type := get link "type" in
  let link_name := get link "name" in
  if match name with
     | Some _ => negb (Py.eq_ostr link_name name)
     | None => false
     end
  then links
  else if Py.eq_ostr link_rel (Some (RelationType.value rel))
  then
    match media_type, link_media_type with
    | None, None => links ++ [Link_of link]
    | Some _, _ =>
        if Py.eq_ostr link_media_type media_type
        then links ++ [Link_of link] else links
    | None, Some _ => links
    end
  else links.

Definition get_links (resource : Element) (rel : RelationType.t)
    (media_type name : option string) : list Link :=
  fold_left (get_links_step rel media_type name)
    (findall resource VCLOUD_NS "Link") [].

Definition find_link (resource : Element) (rel : RelationType.t)
    (media_type : option string) (fail_if_absent : bool)
    (name : option string) : exn + option Link :=
  let links := get_links resource rel media_type name in
  let num_links := length links in
  if (num_links =? 0)%nat
  then if fail_if_absent
       then inl (MissingLinkException (get resource "href") rel media_type)
       else inr None
  else if (num_links =? 1)%nat
  then inr (links !! 0%nat)
  else inl (MultipleLinksException (get resource "href") rel media_type).

(** The matching rule in the words of the specification. *)
Definition link_matches (rel : RelationType.t)
    (media_type name : option string) (link : Element) : Prop :=
  get link "rel" = Some (RelationType.value rel)
  ∧ ((media_type = None ∧ get link "type" = None)
     ∨ (media_type ≠ None ∧ get link "type" = media_type))
  ∧ (name = None ∨ get link "name" = name).

#[export] Instance link_matches_dec rel media_type name link :
  Decision (link_matches rel media_type name link).
Proof. unfold link_matches. apply _. Defined.

(** The link elements of a document, in document order. *)
Definition link_elements (resource : Element) : list Element :=
  findall resource VCLOUD_NS "Link".

End Links.

Module LinksExamples.
Import Xml Http Links.

Definition link_elem (rel type name href : string) : Element :=
  mkElement VCLOUD_NS "Link"
    (<["rel" := rel]> (<["type" := type]> (<["name" := name]>
       (<["href" := href]> ∅)))) None [].

(** A link without a [type] attribute. *)
Definition untyped_link (rel href : string) : Element :=
  mkElement VCLOUD_NS "Link" (<["rel" := rel]> (<["href" := href]> ∅))
    None [].

Definition vdc_type := "application/vnd.vmware.vcloud.vdc+xml".

(** An organisation document with two VDC links, one catalog link and
    one untyped link. *)
Definition org_doc : Element :=
  mkElement VCLOUD_NS "Org" (<["href" := "https://vcd.example/api/org/1"]> ∅)
    None
    [ link_elem "down" vdc_type "vdc-a" "https://vcd.example/api/vdc/a";
      mkElement VCLOUD_NS "Description" ∅ (Some "an org") [];
      link_elem "down" "application/vnd.vmware.vcloud.catalog+xml" "cat"
        "https://vcd.example/api/catalog/c";
      link_elem "down" vdc_type "vdc-b" "https://vcd.example/api/vdc/b";
      untyped_link "down" "https://vcd.example/api/misc" ].

End LinksExamples.

(** ** Session teardown ([Client.logout]) *)

Module Auth.
Import Xml Http.

(** The four assignments at the end of [logout]. *)
Definition clear_session (self : Client.t) : Client.t :=
  {| Client._api_base_uri := Client._api_base_uri self;
     Client._cloudapi_base_uri := Client._cloudapi_base_uri self;
     Client._api_version := Client._api_version self;
     Client._verify_ssl_certs := Client._verify_ssl_certs self;
     Client._session_endpoints := Client._session_endpoints self;
     Client._session := None;
     Client._vcloud_session := None;
     Client._vcloud_auth_token := None;
     Client._vcloud_access_token := None;
     Client._query_list_map := Client._query_list_map self;
     Client._is_sysadmin := Client._is_sysadmin self |}.

(** [logout]: the result, the client afterwards and the world
    afterwards.  A [requests.Session] object is always truthy, so
    [if self._session] tests for [None]. *)
Definition logout (env : Env) (self : Client.t) (w : World)
    : outcome (option Element) * Client.t * World :=
  match Client._session self with
  | Some s =>
      let uri := Client._api_base_uri self +:+ "/session" in
      match Client._do_request env self "DELETE" (Some uri) None None None w with
      | (Ok result, w1) => (Ok result, clear_session self, snd (close s w1))
      | (Raise e, w1) => (Raise e, self, w1)
      | (OutOfFuel, w1) => (OutOfFuel, self, w1)
      end
  | None => (Ok None, self, w)
  end.

(** The request [logout] sends. *)
Definition delete_request (self : Client.t) (s : Session) : Request :=
  {| method := "DELETE";
     uri := Some (Client._api_base_uri self +:+ "/session");
     headers := <[Headers._HEADER_ACCEPT_NAME :=
                    Client.accept_header self None]> ∅;
     session := s; data := NoBody |}.

(** The status codes [_do_request] takes for success. *)
Definition is_success (sc : Z) : bool :=
  (sc =? 200) || (sc =? 201) || (sc =? 202) || (sc =? 204).

End Auth.

Module AuthExamples.
Import Xml Http.

Definition session_doc : Element :=
  mkElement VCLOUD_NS "Session" (<["org" := "System"]> ∅) None [].

(** A client after a login as system administrator. *)
Definition logged_in : Client.t :=
  {| Client._api_base_uri := "https://vcd.example/api";
     Client._cloudapi_base_uri := "https://vcd.example/cloudapi";
     Client._api_version := Some "36.0";
     Client._verify_ssl_certs := true;
     Client._session_endpoints :=
       Some (<["QUERY_LIST" := "https://vcd.example/api/query"]> ∅);
     Client._session :=
       Some {| session_headers :=
                 <[Headers._HEADER_X_VCLOUD_AUTH_NAME := "token"]> ∅ |};
     Client._vcloud_session := Some session_doc;
     Client._vcloud_auth_token := Some "token";
     Client._vcloud_access_token := None;
     Client._query_list_map :=
       Some (<[("application/vnd.vmware.vcloud.query.records+xml", "vm")
               := "https://vcd.example/api/query?type=vm&format=records"]> ∅);
     Client._is_sysadmin := true |}.

(** A server that answers every request with 204 and no body. *)
Definition env_no_content : Env :=
  {| server := λ _ _, inl {| status_code := 204; resp_headers := ∅;
                             content := None |};
     clock := λ n, Z.of_nat n |}.

End AuthExamples.

(** ** Typed queries ([_AbstractQuery]) *)

Module Query.
Import Xml Http.

Inductive QueryResultFormat : Type := RECORDS | ID_RECORDS | REFERENCES.

Definition format_value (f : QueryResultFormat) : string * string :=
  match f with
  | RECORDS => ("application/vnd.vmware.vcloud.query.records+xml", "records")
  | ID_RECORDS =>
      ("application/vnd.vmware.vcloud.query.idrecords+xml", "idrecords")
  | REFERENCES =>
      ("application/vnd.vmware.vcloud.query.references+xml", "references")
  end.

Definition VERSION_35 : string := "35.0".

(** The query object after [__init__]. *)
Record t := {
  _query_result_format : QueryResultFormat;
  _page_size : option Z;
  _include_links : bool;
  _query_all_pages : bool;
  _page : Z;
  _filter : option string;
  _sort_desc : option string;
  _sort_asc : option string;
  fields : option string
}.

(** The dictionary [execute] returns for one page.  [nextPageUri] is
    always a key, with [None] for no next page; [previousPageUri] is a
    key only when there is a previous page ([None] here: no such key). *)
Record PageResult := {
  resultTotal : Z;
  nextPageUri : option string;
  previousPageUri : option string;
  values : list Element
}.

(** The generator [_iterator] between two calls of [next]: about to
    start on a page, inside the [for] loop of a page with the children
    still to visit and the value of [next_page_uri] so far, or finished. *)
Inductive gen_state : Type :=
| AtPage (query_results : option Element)
| InPage (rest : list Element) (next_page_uri : option string)
| Done.

Inductive execute_result : Type :=
| Iterator (g : gen_state)
| Page (r : PageResult).

(** What one resumption of the generator does before it pauses. *)
Inductive event : Type :=
| Yield (r : Element)
| Turn
| Stop.

Definition NEXT_PAGE_value : string := RelationType.value RelationType.NEXT_PAGE.

(** The [for r in query_results.iterchildren()] loop from the current
    child to the next [yield], or to the end of the page. *)
Fixpoint scan (rest : list Element) (next_page_uri : option string)
    : option (Element * list Element) * option string :=
  match rest with
  | [] => (None, next_page_uri)
  | r :: rest' =>
      if String.eqb (localname r) "Link"
      then if Py.eq_ostr (get r "rel") (Some NEXT_PAGE_value)
           then scan rest' (get r "href")
           else scan rest' next_page_uri
      else (Some (r, rest'), next_page_uri)
  end.

Definition step_in_page (env : Env) (client : Client.t)
    (rest : list Element) (next_page_uri : option string)
    : M (event * gen_state) :=
  match scan rest next_page_uri with
  | (Some (r, rest'), next_page_uri') =>
      ret (Yield r, InPage rest' next_page_uri')
  | (None, None) => ret (Stop, Done)
  | (None, Some u) =>
      query_results <~ Client.get_resource env client (Some u) ;>
      ret (Turn, AtPage query_results)
  end.

(** One resumption of [_iterator]: up to the next [yield], the fetch of
    the next page, or the end. *)
Definition step (env : Env) (client : Client.t) (g : gen_state)
    : M (event * gen_state) :=
  match g with
  | Done => ret (Stop, Done)
  | AtPage None => raise AttributeError
  | AtPage (Some query_results) =>
      step_in_page env client (children query_results) None
  | InPage rest next_page_uri => step_in_page env client rest next_page_uri
  end.

(** [next(g)]: the record and the generator afterwards; [None] is
    [StopIteration].  [fuel] bounds the pages turned without a record. *)
Fixpoint next (fuel : nat) (env : Env) (client : Client.t) (g : gen_state)
    : M (option Element * gen_state) :=
  match fuel with
  | O => λ w, (OutOfFuel, w)
  | S fuel' =>
      x <~ step env client g ;>
      match x with
      | (Yield r, g') => ret (Some r, g')
      | (Stop, g') => ret (None, g')
      | (Turn, g') => next fuel' env client g'
      end
  end.

(** [list(g)], with [fuel] resumptions at most. *)
Fixpoint run (fuel : nat) (env : Env) (client : Client.t) (g : gen_state)
    : M (list Element) :=
  match fuel with
  | O => λ w, (OutOfFuel, w)
  | S fuel' =>
      x <~ step env client g ;>
      match x with
      | (Yield r, g') => rest <~ run fuel' env client g' ;> ret (r :: rest)
      | (Stop, _) => ret []
      | (Turn, g') => run fuel' env client g'
      end
  end.

(** The generator run to its end, as a relation: from [g] in world [w]
    it yields [ys] and stops in world [w']. *)
Inductive drains (env : Env) (client : Client.t)
    : gen_state → World → list Element → World → Prop :=
| drains_stop g w g' w' :
    step env client g w = (Ok (Stop, g'), w') →
    drains env client g w [] w'
| drains_yield g w r g' w1 ys w' :
    step env client g w = (Ok (Yield r, g'), w1) →
    drains env client g' w1 ys w' →
    drains env client g w (r :: ys) w'
| drains_turn g w g' w1 ys w' :
    step env client g w = (Ok (Turn, g'), w1) →
    drains env client g' w1 ys w' →
    drains env client g w ys w'.

Section WithLibraries.

(** [float(a) < float(b)] on strings ([None]: [float] raises
    [ValueError]) and [urllib.parse.quote] come from Python's library. *)
Variable float_lt : string → string → option bool.
Variable quote : string → string.

(** [_find_query_uri] is left to the subclasses of [_AbstractQuery]. *)
Variable _find_query_uri : Client.t → t → QueryResultFormat → M (option string).

(** [float(client.get_api_version()) < float(ApiVersion.VERSION_35.value)]. *)
Definition is_below_v35 (client : Client.t) : exn + bool :=
  match Client._api_version client with
  | None => inl TypeError
  | Some v =>
      match float_lt v VERSION_35 with
      | Some b => inr b
      | None => inl ValueError
      end
  end.

Definition escape_str (val : string) : string :=
  if Py.truthy_str (Some val)
  then
    let val := Py.replace val "%28" "%5C%28" in
    let val := Py.replace val "%29" "%5C%29" in
    let val := Py.replace val "%2C" "%5C%2C" in
    Py.replace val "%3B" "%5C%3B"
  else val.

Definition _escape_special_characters (single_encoded_value_string : option string)
    : option string :=
  escape_str <$> single_encoded_value_string.

Definition __init__ (query_result_format : QueryResultFormat)
    (client : Client.t) (page page_size : option Z) (include_links : bool)
    (qfilter : option string) (equality_filter : option (string * string))
    (sort_asc sort_desc fields : option string) : exn + t :=
  let all_pages := negb (Py.truthy_int page) in
  let page_no := if Py.truthy_int page then default 1 page else 1 in
  match is_below_v35 client with
  | inl e => inl e
  | inr is_below_v35_query =>
      let filter0 :=
        if is_below_v35_query then qfilter
        else _escape_special_characters qfilter in
      let filter1 :=
        match equality_filter with
        | Some (key, val) =>
            let prefix :=
              if Py.truthy_str filter0 then default "" filter0 +:+ ";"
              else "" in
            Some (prefix +:+ key +:+ "==" +:+
                  (if is_below_v35_query then val
                   else escape_str (quote val)))
        | None => filter0
        end in
      inr {| _query_result_format := query_result_format;
             _page_size := page_size;
             _include_links := include_links;
             _query_all_pages := all_pages;
             _page := page_no;
             _filter := filter1;
             _sort_desc := sort_desc;
             _sort_asc := sort_asc;
             fields := fields |}
  end.

Definition append_opt (uri key : string) (v : option string) : string :=
  match v with
  | Some x => uri +:+ key +:+ x
  | None => uri
  end.

Definition _build_query_uri (self : t) (client : Client.t)
    (base_query_href : string) (page : Z) (page_size : option Z)
    (qfilter : option string) (include_links : bool)
    (fields : option string) : exn + string :=
  let uri := base_query_href +:+ "&page=" +:+ Py.str_of_int page in
  let uri := append_opt uri "&pageSize=" (Py.str_of_int <$> page_size) in
  let with_filter :=
    if Py.truthy_str qfilter
    then match is_below_v35 client with
         | inl e => inl e
         | inr true =>
             inr (uri +:+ "&filterEncoded=true&filter="
                      +:+ quote (default "" qfilter))
         | inr false => inr (uri +:+ "&filter=" +:+ default "" qfilter)
         end
    else inr uri in
  match with_filter with
  | inl e => inl e
  | inr uri =>
      let uri := append_opt uri "&fields=" fields in
      let uri := append_opt uri "&sortAsc=" (_sort_asc self) in
      inr (append_opt uri "&sortDesc=" (_sort_desc self))
  end.

Definition lift {A} (x : exn + A) : M A :=
  match x with
  | inl e => raise e
  | inr a => ret a
  end.

Definition build (self : t) (client : Client.t) (query_href : string)
    (page : Z) : M string :=
  lift (_build_query_uri self client query_href page (_page_size self)
          (_filter self) (_include_links self) (fields self)).

(** The records of a page: its children that are not link elements. *)
Definition resources (query_results : Element) : list Element :=
  List.filter (λ r, negb (String.eqb (localname r) "Link"))
    (children query_results).

Definition execute (env : Env) (client : Client.t) (self : t)
    : M execute_result :=
  query_href <~ _find_query_uri client self (_query_result_format self) ;>
  match query_href with
  | None => raise (OperationNotSupportedException "Unable to execute query.")
  | Some query_href =>
      query_uri <~ build self client query_href (_page self) ;>
      if _query_all_pages self
      then
        query_results <~ Client.get_resource env client (Some query_uri) ;>
        ret (Iterator (AtPage query_results))
      else
        query_results <~ Client.get_resource env client (Some query_uri) ;>
        match query_results with
        | None => raise AttributeError
        | Some query_results =>
            match get query_results "total" with
            | None => raise TypeError
            | Some total =>
                match Py.int_of_str total with
                | None => raise ValueError
                | Some total =>
                    match _page_size self with
                    | None => raise TypeError
                    | Some page_size =>
                        next_uri <~
                          (if _page self * page_size <? total
                           then u <~ build self client query_href
                                       (_page self + 1) ;> ret (Some u)
                           else ret None) ;>
                        prev_uri <~
                          (if _page self >? 1
                           then u <~ build self client query_href
                                       (_page self - 1) ;> ret (Some u)
                           else ret None) ;>
                        ret (Page {| resultTotal := total;
                                     nextPageUri := next_uri;
                                     previousPageUri := prev_uri;
                                     values := resources query_results |})
                    end
                end
            end
        end
  end.

End WithLibraries.

End Query.

(** ** Vocabulary for the query properties *)

Module QuerySpec.
Import Xml Http Query.

(** The GET that [get_resource] sends for [u] on session [s]. *)
Definition get_request (client : Client.t) (s : Session) (u : string)
    : Request :=
  {| method := "GET"; uri := Some u;
     headers := <[Headers._HEADER_ACCEPT_NAME :=
                    Client.accept_header client None]> ∅;
     session := s; data := NoBody |}.

(** The world after one more request. *)
Definition fetched (w : World) (req : Request) : World :=
  {| trace := trace w ++ [req]; clock_reads := clock_reads w;
     sleeps := sleeps w; closed := closed w |}.

(** The server answers a GET of [u] with the document [p], whenever asked. *)
Definition serves (env : Env) (client : Client.t) (s : Session)
    (u : string) (p : Element) : Prop :=
  ∀ w, Client.get_resource env client (Some u) w
       = (Ok (Some p), fetched w (get_request client s u)).

(** A link element with the next-page relation. *)
Definition is_next_link (c : Element) : Prop :=
  localname c = "Link" ∧ get c "rel" = Some "nextPage".

#[export] Instance is_next_link_dec c : Decision (is_next_link c).
Proof. unfold is_next_link. apply _. Defined.

Definition has_next_link (p : Element) : Prop :=
  ∃ c, c ∈ children p ∧ is_next_link c.

(** Where the last next-page link among [cs] points; [dflt] when there
    is none. *)
Definition next_uri_among (cs : list Element) (dflt : option string)
    : option string :=
  match last (filter is_next_link cs) with
  | Some c => get c "href"
  | None => dflt
  end.

Definition next_page_uri_of (p : Element) : option string :=
  next_uri_among (children p) None.

(** The record children: those that are not link elements, in document
    order. *)
Definition records_among (cs : list Element) : list Element :=
  filter (λ c, localname c ≠ "Link") cs.

Definition records (p : Element) : list Element := records_among (children p).

(** A result set: [p] is followed by the pages of [pages], each served
    at the address the page before it names, and the last page names
    none. *)
Fixpoint chain (env : Env) (client : Client.t) (s : Session) (p : Element)
    (pages : list (string * Element)) : Prop :=
  match pages with
  | [] => next_page_uri_of p = None
  | (u, p') :: pages' =>
      next_page_uri_of p = Some u ∧ serves env client s u p'
      ∧ chain env client s p' pages'
  end.

(** The world after the pages of [pages] have been fetched in order. *)
Definition after_fetches (client : Client.t) (s : Session) (w : World)
    (pages : list (string * Element)) : World :=
  fold_left (λ w up, fetched w (get_request client s up.1)) pages w.

Definition all_records (p : Element) (pages : list (string * Element))
    : list Element :=
  records p ++ concat ((λ up, records up.2) <$> pages).

End QuerySpec.

Module QueryExamples.
Import Xml Http Query.

Definition record (name : string) : Element :=
  mkElement VCLOUD_NS "VMRecord" (<["name" := name]> ∅) None [].

Definition page_link (rel href : string) : Element :=
  mkElement VCLOUD_NS "Link" (<["rel" := rel]> (<["href" := href]> ∅)) None [].

Definition page_uri (n : string) : string :=
  "https://vcd.example/api/query?type=vm&format=records&page=" +:+ n
    +:+ "&pageSize=2".

Definition result_page (cs : list Element) : Element :=
  mkElement VCLOUD_NS "QueryResultRecords"
    (<["total" := "5"]> (<["pageSize" := "2"]> ∅)) None cs.

(** Three pages of size two holding five records. *)
Definition page1 : Element :=
  result_page [ page_link "nextPage" (page_uri "2");
                page_link "lastPage" (page_uri "3");
                record "vm1"; record "vm2" ].

Definition page2 : Element :=
  result_page [ page_link "previousPage" (page_uri "1");
                record "vm3";
                page_link "nextPage" (page_uri "3");
                record "vm4" ].

Definition page3 : Element :=
  result_page [ page_link "previousPage" (page_uri "1");
                page_link "firstPage" (page_uri "1");
                record "vm5" ].

Definition ok (p : Element) : Response + string :=
  inl {| status_code := 200; resp_headers := ∅; content := Some p |}.

Definition env_pages : Env :=
  {| server := λ _ req,
       if Py.eq_ostr (uri req) (Some (page_uri "1")) then ok page1
       else if Py.eq_ostr (uri req) (Some (page_uri "2")) then ok page2
       else if Py.eq_ostr (uri req) (Some (page_uri "3")) then ok page3
       else inl {| status_code := 404; resp_headers := ∅; content := None |};
     clock := λ n, Z.of_nat n |}.

Definition client : Client.t := TaskMonitorExamples.client1.

(** The library functions at the inputs of the examples: the client's
    version is "36.0", not below "35.0"; nothing is quoted. *)
Definition float_lt : string → string → option bool := λ _ _, Some false.
Definition quote : string → string := λ s, s.

(** A subclass whose [_find_query_uri] knows the query. *)
Definition _find_query_uri (c : Client.t) (q : Query.t)
    (f : QueryResultFormat) : M (option string) :=
  ret (Some "https://vcd.example/api/query?type=vm&format=records").

(** A server with [total] results for the query, whatever page is asked. *)
Definition env_total (total : string) : Env :=
  {| server := λ _ _,
       ok (mkElement VCLOUD_NS "QueryResultRecords" (<["total" := total]> ∅)
             None [ page_link "alternate" "https://vcd.example/api/query";
                    record "vm" ]);
     clock := λ n, Z.of_nat n |}.

Definition new_query (page page_size : option Z) : exn + Query.t :=
  Query.__init__ float_lt quote RECORDS client page page_size false None None
    None None None.

End QueryExamples.

Module QueryRuns.
Import Xml Http Query QueryExamples.

Definition base_href : string :=
  "https://vcd.example/api/query?type=vm&format=records".

(** What [__init__] builds for [page], [page_size] and no filter. *)
Definition query_of (all_pages : bool) (page : Z) (page_size : option Z)
    : Query.t :=
  {| _query_result_format := RECORDS; _page_size := page_size;
     _include_links := false; _query_all_pages := all_pages; _page := page;
     _filter := None; _sort_desc := None; _sort_asc := None;
     fields := None |}.

Definition exec (env : Env) (q : Query.t) : outcome execute_result * World :=
  Query.execute float_lt quote _find_query_uri env client q world0.

End QueryRuns.

(** ** API version negotiation *)

Module Versions.
Import Xml Http.

(** Important! Values must be listed in ascending order. *)
Definition API_CURRENT_VERSIONS : list string :=
  ["29.0"; "30.0"; "31.0"; "32.0"; "33.0"; "34.0"; "35.0"; "36.0"].

(** [distutils.version.StrictVersion]: the version triple and the
    optional pre-release tag (a letter, [a] or [b], and a number). *)
Record StrictVersion := {
  version : N * N * N;
  prerelease : option (N * N)
}.

(** The longest run of decimal digits at the head of [s]: its value,
    its length and what follows. *)
Fixpoint take_digits (s : string) (acc : N) (seen : nat) : N * nat * string :=
  match s with
  | String c s' =>
      if Py.is_digit c
      then take_digits s' (10 * acc + (N_of_ascii c - 48))%N (S seen)
      else (acc, seen, s)
  | EmptyString => (acc, seen, s)
  end.

(** An optional group [sep digits+], where [sep] is told by [is_sep]:
    the separator, the number and the rest, or nothing consumed. *)
Definition optional_group (is_sep : ascii → bool) (s : string)
    : option (ascii * N) * string :=
  match s with
  | String c s' =>
      if is_sep c
      then match take_digits s' 0%N 0%nat with
           | (_, O, _) => (None, s)
           | (n, S _, rest) => (Some (c, n), rest)
           end
      else (None, s)
  | EmptyString => (None, s)
  end.

Definition is_dot (c : ascii) : bool := Ascii.eqb c ".".
Definition is_a_or_b (c : ascii) : bool := Ascii.eqb c "a" || Ascii.eqb c "b".

(** [$] also matches before one final newline. *)
Definition at_end (s : string) : bool :=
  match s with
  | EmptyString => true
  | String c EmptyString => Ascii.eqb c (ascii_of_N 10)
  | _ => false
  end.

(** [StrictVersion(vstring)], by the pattern
    [^(\d+)\.(\d+)(\.(\d+))?([ab](\d+))?$]; [None] is [ValueError]. *)
Definition parse (vstring : string) : option StrictVersion :=
  match take_digits vstring 0%N 0%nat with
  | (_, O, _) => None
  | (major, S _, String c rest) =>
      if is_dot c
      then match take_digits rest 0%N 0%nat with
           | (_, O, _) => None
           | (minor, S _, rest) =>
               let '(patch, rest) := optional_group is_dot rest in
               let '(pre, rest) := optional_group is_a_or_b rest in
               if at_end rest
               then Some {| version := (major, minor,
                                        match patch with
                                        | Some (_, n) => n
                                        | None => 0%N
                                        end);
                            prerelease :=
                              (λ '(c, n), (N_of_ascii c, n)) <$> pre |}
               else None
           end
      else None
  | (_, S _, EmptyString) => None
  end.

Definition triple_ltb (a b : N * N * N) : bool :=
  let '(a1, a2, a3) := a in
  let '(b1, b2, b3) := b in
  (a1 <? b1)%N
  || ((a1 =? b1)%N && ((a2 <? b2)%N || ((a2 =? b2)%N && (a3 <? b3)%N))).

Definition pair_ltb (a b : N * N) : bool :=
  (a.1 <? b.1)%N || ((a.1 =? b.1)%N && (a.2 <? b.2)%N).

(** [a < b] as [StrictVersion._cmp] decides it. *)
Definition ltb (a b : StrictVersion) : bool :=
  if bool_decide (version a = version b)
  then match prerelease a, prerelease b with
       | None, None => false
       | Some _, None => true
       | None, Some _ => false
       | Some x, Some y => pair_ltb x y
       end
  else triple_ltb (version a) (version b).

(** [list.sort(key=...)] is stable: an element goes in front of the
    first one that is not smaller than it. *)
Fixpoint insert (x : StrictVersion * string)
    (l : list (StrictVersion * string)) : list (StrictVersion * string) :=
  match l with
  | [] => [x]
  | y :: l' => if ltb y.1 x.1 then y :: insert x l' else x :: l
  end.

Definition sort_keyed (l : list (StrictVersion * string))
    : list (StrictVersion * string) :=
  foldr insert [] l.

(** The keys are computed first, for every element. *)
Definition with_keys (l : list string) : option (list (StrictVersion * string)) :=
  mapM (λ s, (λ k, (k, s)) <$> parse s) l.

(** [l.sort(key=StrictVersion)]; [None] is [ValueError]. *)
Definition sort_versions (l : list string) : option (list string) :=
  (λ kl, snd <$> sort_keyed kl) <$> with_keys l.

(** [str(version.Version.text)]. *)
Definition version_text (info : Element) : exn + string :=
  match child info "Version" with
  | None => inl AttributeError
  | Some v => inr (default "None" (text v))
  end.

(** The test that guards [active_versions.append]. *)
Definition kept (info : Element) : bool :=
  negb (hasattr info "deprecated")
  || Py.eq_ostr (get info "deprecated") (Some "false").

Fixpoint collect_active (infos : list Element) (active_versions : list string)
    : exn + list string :=
  match infos with
  | [] => inr active_versions
  | info :: infos' =>
      if kept info
      then match version_text info with
           | inl e => inl e
           | inr v => collect_active infos' (active_versions ++ [v])
           end
      else collect_active infos' active_versions
  end.

Definition new_session : Session := {| session_headers := ∅ |}.

Definition versions_request (self : Client.t) : Request :=
  {| method := "GET";
     uri := Some (Client._api_base_uri self +:+ "/versions");
     headers := <[Headers._HEADER_ACCEPT_NAME :=
                    Client.accept_header self None]> ∅;
     session := new_session; data := NoBody |}.

(** What the body of the [with] block does with the response. *)
Definition read_versions (response : Response) : exn + list string :=
  if negb (status_code response =? 200)
  then inl (VcdException "Unable to get supported API versions.")
  else
    match content response with
    | None => inl (OtherException "lxml.etree.XMLSyntaxError")
    | Some versions =>
        match child_seq versions "VersionInfo" with
        | None => inl AttributeError
        | Some infos =>
            match collect_active infos [] with
            | inl e => inl e
            | inr active_versions =>
                match sort_versions active_versions with
                | None => inl ValueError
                | Some sorted => inr sorted
                end
            end
        end
    end.

(** [get_supported_versions_list]; the session of the [with] block is
    closed on every way out. *)
Definition get_supported_versions_list (env : Env) (self : Client.t)
    : M (list string) :=
  λ w,
    let '(res, w1) :=
      (response <~ Client._do_request_prim env self "GET"
                     (Some (Client._api_base_uri self +:+ "/versions"))
                     (Some new_session) None None None None ;>
       match read_versions response with
       | inl e => raise e
       | inr l => ret l
       end) w in
    (res, snd (close new_session w1)).

Definition set_api_version (self : Client.t) (v : option string) : Client.t :=
  {| Client._api_base_uri := Client._api_base_uri self;
     Client._cloudapi_base_uri := Client._cloudapi_base_uri self;
     Client._api_version := v;
     Client._verify_ssl_certs := Client._verify_ssl_certs self;
     Client._session_endpoints := Client._session_endpoints self;
     Client._session := Client._session self;
     Client._vcloud_session := Client._vcloud_session self;
     Client._vcloud_auth_token := Client._vcloud_auth_token self;
     Client._vcloud_access_token := Client._vcloud_access_token self;
     Client._query_list_map := Client._query_list_map self;
     Client._is_sysadmin := Client._is_sysadmin self |}.

(** The [for version in reversed(active_versions)] loop: the first
    version, from the end, that is in [API_CURRENT_VERSIONS]. *)
Definition select (active_versions : list string) : option string :=
  List.find (λ version, bool_decide (version ∈ API_CURRENT_VERSIONS))
    (rev active_versions).

(** [_negotiate_api_version]: the client afterwards. *)
Definition _negotiate_api_version (env : Env) (self : Client.t) : M Client.t :=
  if negb (Py.truthy_str (Client._api_version self))
  then
    active_versions <~ get_supported_versions_list env self ;>
    let self' :=
      match select active_versions with
      | Some version => set_api_version self (Some version)
      | None => self
      end in
    if negb (Py.truthy_str (Client._api_version self'))
    then raise (VcdException
                  ("Unable to find a supported API version in available server versions: "
                   +:+ Py.repr_list active_versions))
    else ret self'
  else ret self.

End Versions.

Module VersionsExamples.
Import Xml Http Versions.

Definition VERSIONS_NS := "http://www.vmware.com/vcloud/versions".

(** [<VersionInfo deprecated="..."><Version>...</Version></VersionInfo>]. *)
Definition version_info (deprecated v : string) : Element :=
  mkElement VERSIONS_NS "VersionInfo" (<["deprecated" := deprecated]> ∅) None
    [ mkElement VERSIONS_NS "Version" ∅ (Some v) [];
      mkElement VERSIONS_NS "LoginUrl" ∅
        (Some "https://vcd.example/api/sessions") [] ].

Definition supported_versions (infos : list Element) : Element :=
  mkElement VERSIONS_NS "SupportedVersions" ∅ None infos.

Definition env_versions (infos : list Element) : Env :=
  {| server := λ _ _, inl {| status_code := 200; resp_headers := ∅;
                             content := Some (supported_versions infos) |};
     clock := λ n, Z.of_nat n |}.

(** A client constructed without [api_version], before login. *)
Definition fresh_client : Client.t :=
  {| Client._api_base_uri := "https://vcd.example/api";
     Client._cloudapi_base_uri := "https://vcd.example/cloudapi";
     Client._api_version := None;
     Client._verify_ssl_certs := true;
     Client._session_endpoints := None;
     Client._session := None;
     Client._vcloud_session := None;
     Client._vcloud_auth_token := None;
     Client._vcloud_access_token := None;
     Client._query_list_map := None;
     Client._is_sysadmin := false |}.

(** A server on which 36.0 is deprecated and 35.0 is not. *)
Definition infos_36_deprecated : list Element :=
  [ version_info "false" "9.5"; version_info "false" "35.0";
    version_info "true" "36.0"; version_info "false" "10.1" ].

End VersionsExamples.

(** ** Vocabulary for the negotiation properties *)

Module VersionsSpec.
Import Xml Http Versions.

(** [a] is numerically below [b]: by the version triple, and for equal
    triples a pre-release is below the release and pre-releases go by
    letter and number. *)
Definition below (a b : StrictVersion) : Prop :=
  let '(a1, a2, a3) := version a in
  let '(b1, b2, b3) := version b in
  ((a1 < b1)%N ∨ (a1 = b1 ∧ ((a2 < b2)%N ∨ (a2 = b2 ∧ (a3 < b3)%N))))
  ∨ (a1 = b1 ∧ a2 = b2 ∧ a3 = b3
     ∧ match prerelease a, prerelease b with
       | Some _, None => True
       | Some (x1, x2), Some (y1, y2) => (x1 < y1)%N ∨ (x1 = y1 ∧ (x2 < y2)%N)
       | None, _ => False
       end).

(** The order a sorted list of keyed versions respects. *)
Definition not_above (x y : StrictVersion * string) : Prop :=
  ltb y.1 x.1 = false.

(** The server marks the entry as deprecated. *)
Definition marked_deprecated (info : Element) : Prop :=
  get info "deprecated" = Some "true".

End VersionsSpec.

Module HeadersExamples.

(** Request headers with one authorization-bearing name and two others. *)
Definition request_headers : gmap string string :=
  <["Authorization" := "Bearer eyJhbGciOi"]>
    (<["Accept" := "application/*+xml;version=36.0"]>
       (<["Content-Type" := "application/xml"]> ∅)).

End HeadersExamples.

(** ** Exceptions raised by name *)

Module Exn.
Import Http.

(** The exception classes that [exn] does not list are raised through
    [OtherException], by class name and message. *)
Definition named (class_name msg : string) : exn :=
  OtherException (class_name +:+ "(" +:+ msg +:+ ")").

Definition ClientException (msg : string) : exn := named "ClientException" msg.
Definition EntityNotFoundException (msg : string) : exn :=
  named "EntityNotFoundException" msg.
Definition MissingRecordException : exn := named "MissingRecordException" "".
Definition MultipleRecordsException : exn := named "MultipleRecordsException" "".
Definition IndexError : exn := named "IndexError" "list index out of range".

End Exn.

(** ** Base addresses ([Client._prep_base_uri]) *)

Module BaseUri.

(** [s[-1]]. *)
Fixpoint last_char (s : string) : option ascii :=
  match s with
  | EmptyString => None
  | String c EmptyString => Some c
  | String _ s' => last_char s'
  end.

Definition _prep_base_uri (uri : string) (is_cloudapi : bool) : string :=
  let result := uri in
  if (0 <? String.length result)%nat
  then
    let result :=
      if negb (bool_decide (last_char result = Some "/"%char))
      then result +:+ "/" else result in
    let result :=
      if is_cloudapi then result +:+ "cloudapi" else result +:+ "api" in
    if negb (String.prefix "https://" result)
       && negb (String.prefix "http://" result)
    then "https://" +:+ result
    else result
  else result.

(** The address starts with one of the two schemes. *)
Definition has_scheme (s : string) : bool :=
  String.prefix "https://" s || String.prefix "http://" s.

(** The address with one slash at its end. *)
Definition with_slash (uri : string) : string :=
  if bool_decide (last_char uri = Some "/"%char) then uri else uri +:+ "/".

Definition segment (is_cloudapi : bool) : string :=
  if is_cloudapi then "cloudapi" else "api".

End BaseUri.

(** ** Vocabulary for the polling properties *)

Module TaskPolls.
Import Xml Http TaskMonitor.

(** The GET that one poll of the task sends. *)
Definition poll_request (client : Client.t) (s : Session)
    (task_href : option string) : Request :=
  {| method := "GET"; uri := task_href;
     headers := <[Headers._HEADER_ACCEPT_NAME :=
                    Client.accept_header client None]> ∅;
     session := s; data := NoBody |}.

(** The answer to the poll made after [i] earlier ones. *)
Definition reply (env : Env) (w : World) (req : Request) (i : nat)
    : Response + string :=
  server env (trace w ++ repeat req i) req.







End TaskPolls.

Module TaskPollsExamples.
Import Xml Http TaskMonitor TaskMonitorExamples.






End TaskPollsExamples.

(** ** Unique results ([_AbstractQuery.find_unique]) *)

Module QueryUnique.
Import Xml Http Query.

Section WithLibraries.

Variable float_lt : string → string → option bool.
Variable quote : string → string.
Variable _find_query_uri : Client.t → Query.t → QueryResultFormat → M (option string).

(** [find_unique].  [next] on the dictionary of a single page is a
    [TypeError]; any exception other than [StopIteration] passes
    through both [try] blocks. *)
Definition find_unique (fuel : nat) (env : Env) (client : Client.t)
    (self : Query.t) : M Element :=
  query_results <~ execute float_lt quote _find_query_uri env client self ;>
  match query_results with
  | Page _ => raise TypeError
  | Iterator g =>
      first <~ next fuel env client g ;>
      match first with
      | (None, _) => raise Exn.MissingRecordException
      | (Some item, g') =>
          second <~ next fuel env client g' ;>
          match second with
          | (Some _, _) => raise Exn.MultipleRecordsException
          | (None, _) => ret item
          end
      end
  end.

End WithLibraries.

End QueryUnique.

(** ** Streamed download ([Client.download_from_uri]) *)

Module Download.
Import Xml Http.

(** The progress callback is user code: it sees the bytes written so
    far and the announced size, and may raise. *)
Definition progress_t : Type := Z → Z → option exn.

(** What the [for chunk in ...] loop has done: the file content, the
    calls made to the callback and the count of bytes. *)
Record Progress := {
  file : string;
  calls : list (Z * Z);
  bytes_written : Z
}.

(** The loop over the chunks still to come; it stops at once when the
    callback raises. *)
Fixpoint write_chunks (chunks : list string) (size : Z)
    (callback : option progress_t) (st : Progress) : option exn * Progress :=
  match chunks with
  | [] => (None, st)
  | chunk :: chunks' =>
      if Py.truthy_str (Some chunk)
      then
        let n := bytes_written st + Z.of_nat (String.length chunk) in
        let written := {| file := file st +:+ chunk; calls := calls st;
                          bytes_written := n |} in
        match callback with
        | None => write_chunks chunks' size callback written
        | Some cb =>
            let called := {| file := file written;
                             calls := calls written ++ [(n, size)];
                             bytes_written := n |} in
            match cb n size with
            | Some e => (Some e, called)
            | None => write_chunks chunks' size callback called
            end
        end
      else write_chunks chunks' size callback st
  end.

Section WithStream.

(** [response.iter_content(chunk_size=...)]: the body as [requests]
    hands it over. *)
Variable iter_content : Response → Z → list string.

Definition download_request (s : Session) (uri : option string) : Request :=
  {| method := "GET"; uri := uri; headers := ∅; session := s;
     data := NoBody |}.

(** [download_from_uri]: the result, the file under [file_name]
    afterwards ([None]: as it was, [open] was not reached) with the
    callback's calls, and the world.  [open] is taken to succeed. *)
Definition download_from_uri (env : Env) (self : Client.t)
    (uri : option string) (chunk_size size : Z)
    (callback : option progress_t) (w : World)
    : outcome Z * option Progress * World :=
  match Client._session self with
  | None => (Raise AttributeError, None, w)
  | Some s =>
      match send env (download_request s uri) w with
      | (Ok response, w1) =>
          let sc := status_code response in
          if negb (sc =? 200)
          then (Raise (Client._response_code_to_exception sc None
                         (WholeResponse response)), None, w1)
          else
            match write_chunks (iter_content response chunk_size) size callback
                    {| file := ""; calls := []; bytes_written := 0 |} with
            | (Some e, st) => (Raise e, Some st, w1)
            | (None, st) => (Ok (bytes_written st), Some st, w1)
            end
      | (Raise e, w1) => (Raise e, None, w1)
      | (OutOfFuel, w1) => (OutOfFuel, None, w1)
      end
  end.

End WithStream.

(** The chunks put end to end. *)
Definition joined (chunks : list string) : string :=
  foldr String.append "" chunks.

(** The chunks that are written: the non-empty ones. *)
Definition written_chunks (chunks : list string) : list string :=
  filter (λ c, c ≠ "") chunks.

(** The sums of the lengths of the first one, two, ... of [chunks],
    counted from [start]. *)
Fixpoint running_totals (chunks : list string) (start : Z) : list Z :=
  match chunks with
  | [] => []
  | c :: chunks' =>
      let n := start + Z.of_nat (String.length c) in
      n :: running_totals chunks' n
  end.

End Download.

Module DownloadExamples.
Import Xml Http Download.

(** A body handed over in three chunks with an empty one between. *)
Definition iter_content : Response → Z → list string :=
  λ _ _, ["abc"; ""; "defgh"; "i"].

Definition never_raises : progress_t := λ _ _, None.

End DownloadExamples.

Module DownloadRuns.
Import Xml Http Download.

(** A callback that gives up once more than [limit] bytes are written. *)
Definition stops_after (limit : Z) : progress_t :=
  λ n _, if limit <? n then Some (OtherException "Cancelled") else None.

Definition env_ok : Env :=
  {| server := λ _ _, inl {| status_code := 200; resp_headers := ∅;
                             content := None |};
     clock := λ _, 0 |}.

Definition download (callback : option progress_t)
    : outcome Z * option Progress * World :=
  download_from_uri DownloadExamples.iter_content env_ok
    TaskMonitorExamples.client1 (Some "https://vcd.example/transfer/1/file")
    1048576 9 callback world0.

End DownloadRuns.

(** ** The highest server version ([set_highest_supported_version]) *)

Module VersionsHighest.
Import Xml Http Versions.

(** [set_highest_supported_version]: the client afterwards and the
    version returned.  [active_versions[-1]] of an empty list is an
    [IndexError]. *)
Definition set_highest_supported_version (env : Env) (self : Client.t)
    : M (Client.t * string) :=
  active_versions <~ get_supported_versions_list env self ;>
  match last active_versions with
  | None => raise Exn.IndexError
  | Some v => ret (set_api_version self (Some v), v)
  end.

End VersionsHighest.

(** ** Vocabulary for the list of server versions *)

Module VersionsListSpec.
Import Xml Http Versions.

(** The text of the [Version] child of an entry. *)
Definition text_of (info : Element) : option string :=
  match version_text info with
  | inr v => Some v
  | inl _ => None
  end.

(** The version texts of the entries the loop keeps, in document
    order. *)
Definition active_texts (infos : list Element) : list string :=
  omap text_of (filter (λ info, kept info = true) infos).

(** [a] may stand before [b] in numerical order: both are version
    numbers and [b] is not below [a]. *)
Definition ascending (a b : string) : Prop :=
  ∃ ka kb, parse a = Some ka ∧ parse b = Some kb ∧ ¬ VersionsSpec.below kb ka.

(** The world after the one request on a session of its own, closed
    again. *)
Definition probed (self : Client.t) (w : World) : World :=
  {| trace := trace w ++ [versions_request self];
     clock_reads := clock_reads w; sleeps := sleeps w;
     closed := closed w ++ [new_session] |}.

(** The [VersionInfo] entries the server lists at [w]. *)
Definition serves_versions (env : Env) (self : Client.t) (w : World)
    (infos : list Element) : Prop :=
  ∃ r versions,
    server env (trace w) (versions_request self) = inl r
    ∧ status_code r = 200
    ∧ content r = Some versions
    ∧ child_seq versions "VersionInfo" = Some infos.

(** No version in [l] is numerically above [v]. *)
Definition highest_in (v : string) (l : list string) : Prop :=
  ∀ u ku kv, u ∈ l → parse u = Some ku → parse v = Some kv
             → ¬ VersionsSpec.below kv ku.

End VersionsListSpec.

(** ** Operations on linked resources *)

Module LinkedResources.
Import Xml Http.

(** ['%s' % b] for a boolean. *)
Definition str_of_bool (b : bool) : string := if b then "True" else "False".

Definition get_resource (env : Env) (self : Client.t) (uri : option string)
    (extra_headers : option (gmap string string)) : M (option Element) :=
  Client._do_request env self "GET" uri None None extra_headers.

Definition post_resource (env : Env) (self : Client.t) (uri : option string)
    (contents : option Element) (media_type : option string)
    (extra_headers : option (gmap string string)) : M (option Element) :=
  Client._do_request env self "POST" uri contents media_type extra_headers.

(** [delete_resource]; ['%s' % uri] of [None] is the text [None]. *)
Definition delete_resource (env : Env) (self : Client.t) (uri : option string)
    (force recursive : bool) (extra_headers : option (gmap string string))
    : M (option Element) :=
  let full_uri :=
    default "None" uri +:+ "?force=" +:+ str_of_bool force
    +:+ "&recursive=" +:+ str_of_bool recursive in
  Client._do_request env self "DELETE" (Some full_uri) None None extra_headers.

(** [find_link(resource, rel, media_type).href]. *)
Definition link_href (resource : Element) (rel : RelationType.t)
    (media_type : option string) : M (option string) :=
  match Links.find_link resource rel media_type true None with
  | inl e => raise e
  | inr None => raise AttributeError
  | inr (Some link) => ret (Links.href link)
  end.

(** [try: ... except MissingLinkException as e: raise
    OperationNotSupportedException("Operation is not supported")]. *)
Definition except_missing_link {A} (body : M A) : M A :=
  λ w,
    match body w with
    | (Raise (MissingLinkException _ _ _), w') =>
        (Raise (OperationNotSupportedException "Operation is not supported"),
         w')
    | other => other
    end.

Definition get_linked_resource (env : Env) (self : Client.t)
    (resource : Element) (rel : RelationType.t) (media_type : option string)
    (extra_headers : option (gmap string string)) : M (option Element) :=
  except_missing_link
    (href <~ link_href resource rel media_type ;>
     get_resource env self href extra_headers).

Definition post_linked_resource (env : Env) (self : Client.t)
    (resource : Element) (rel : RelationType.t) (media_type : option string)
    (contents : option Element)
    (extra_headers : option (gmap string string)) : M (option Element) :=
  except_missing_link
    (href <~ link_href resource rel media_type ;>
     post_resource env self href contents media_type extra_headers).

Definition delete_linked_resource (env : Env) (self : Client.t)
    (resource : Element) (rel : RelationType.t) (media_type : option string)
    (extra_headers : option (gmap string string)) : M (option Element) :=
  except_missing_link
    (href <~ link_href resource rel media_type ;>
     delete_resource env self href false false extra_headers).

(** How an operation on a link ends: [op] is what it does with the
    address of the one matching link. *)
Definition on_link (resource : Element) (rel : RelationType.t)
    (media_type : option string) (op : option string → M (option Element))
    : M (option Element) :=
  match filter (Links.link_matches rel media_type None)
          (Links.link_elements resource) with
  | [] => raise (OperationNotSupportedException "Operation is not supported")
  | [link] => op (get link "href")
  | _ :: _ :: _ =>
      raise (MultipleLinksException (get resource "href") rel media_type)
  end.

End LinkedResources.

(** ** Well-known endpoints ([_WellKnownEndpoint], [_get_session_endpoints]) *)

Module WellKnownEndpoint.
Import Xml Http.

Inductive t : Type :=
| LOGGED_IN_ORG | ORG_VDC | ORG_NETWORK | ORG_CATALOG | QUERY_LIST | ADMIN
| API_EXTENSIBILITY | EXTENSION | ORG_LIST | SNAPSHOT_CREATE | OPENAPI.

#[export] Instance eq_dec : EqDecision t.
Proof. solve_decision. Defined.

(** The second component of a member's value: the text of a media
    type, or, for [OPENAPI], the member [EntityType.JSON] itself. *)
Inductive media : Type :=
| Text (s : string)
| Member (member_name : string).

Definition value (endpoint : t) : RelationType.t * media :=
  match endpoint with
  | LOGGED_IN_ORG =>
      (RelationType.DOWN, Text "application/vnd.vmware.vcloud.org+xml")
  | ORG_VDC =>
      (RelationType.DOWN, Text "application/vnd.vmware.vcloud.vdc+xml")
  | ORG_NETWORK =>
      (RelationType.DOWN, Text "application/vnd.vmware.vcloud.orgNetwork+xml")
  | ORG_CATALOG =>
      (RelationType.DOWN, Text "application/vnd.vmware.vcloud.catalog+xml")
  | QUERY_LIST =>
      (RelationType.DOWN,
       Text "application/vnd.vmware.vcloud.query.queryList+xml")
  | ADMIN =>
      (RelationType.DOWN, Text "application/vnd.vmware.admin.vcloud+xml")
  | API_EXTENSIBILITY =>
      (RelationType.DOWN_EXTENSIBILITY,
       Text "application/vnd.vmware.vcloud.apiextensibility+xml")
  | EXTENSION =>
      (RelationType.DOWN, Text "application/vnd.vmware.admin.vmwExtension+xml")
  | ORG_LIST =>
      (RelationType.DOWN, Text "application/vnd.vmware.vcloud.orgList+xml")
  | SNAPSHOT_CREATE =>
      (RelationType.SNAPSHOT_CREATE,
       Text "application/vnd.vmware.vcloud.createSnapshotParams+xml")
  | OPENAPI => (RelationType.OPENAPI, Member "JSON")
  end.

(** [str(wk_type).split('.')[-1]]. *)
Definition name (endpoint : t) : string :=
  match endpoint with
  | LOGGED_IN_ORG => "LOGGED_IN_ORG"
  | ORG_VDC => "ORG_VDC"
  | ORG_NETWORK => "ORG_NETWORK"
  | ORG_CATALOG => "ORG_CATALOG"
  | QUERY_LIST => "QUERY_LIST"
  | ADMIN => "ADMIN"
  | API_EXTENSIBILITY => "API_EXTENSIBILITY"
  | EXTENSION => "EXTENSION"
  | ORG_LIST => "ORG_LIST"
  | SNAPSHOT_CREATE => "SNAPSHOT_CREATE"
  | OPENAPI => "OPENAPI"
  end.

(** [for endpoint in _WellKnownEndpoint]: the members in the order of
    their definition (no two have the same value, so none is an
    alias). *)
Definition members : list t :=
  [ LOGGED_IN_ORG; ORG_VDC; ORG_NETWORK; ORG_CATALOG; QUERY_LIST; ADMIN;
    API_EXTENSIBILITY; EXTENSION; ORG_LIST; SNAPSHOT_CREATE; OPENAPI ].

End WellKnownEndpoint.

Module SessionEndpoints.
Import Xml Http WellKnownEndpoint.

(** [get_links(resource, rel, media_type)] when [media_type] is an enum
    member: it is not [None], and [link_media_type == media_type]
    compares a string or [None] with the member, which is false; so
    neither [append] is reached. *)
Definition get_links_member (resource : Element) (rel : RelationType.t)
    : list Links.Link :=
  fold_left
    (λ links link,
       if Py.eq_ostr (get link "rel") (Some (RelationType.value rel))
       then links
       else links)
    (findall resource VCLOUD_NS "Link") [].

(** [find_link(session, rel, media_type, False)] for either kind of
    [media_type]. *)
Definition find_link (session : Element) (rel : RelationType.t)
    (media_type : media) : exn + option Links.Link :=
  match media_type with
  | Text s => Links.find_link session rel (Some s) false None
  | Member _ =>
      let links := get_links_member session rel in
      let num_links := length links in
      if (num_links =? 0)%nat then inr None
      else if (num_links =? 1)%nat then inr (links !! 0%nat)
      else inl (MultipleLinksException (get session "href") rel None)
  end.

(** The [for endpoint in ...] loop; [smap] keeps the order in which the
    keys were set. *)
Fixpoint endpoints_loop (session : Element) (endpoints : list t)
    (smap : list (t * option string)) : exn + list (t * option string) :=
  match endpoints with
  | [] => inr smap
  | endpoint :: endpoints' =>
      let '(rel, media_type) := value endpoint in
      match find_link session rel media_type with
      | inl e => inl e
      | inr (Some link) =>
          endpoints_loop session endpoints'
            (smap ++ [(endpoint, Links.href link)])
      | inr None => endpoints_loop session endpoints' smap
      end
  end.

Definition _get_session_endpoints (session : Element)
    : exn + list (t * option string) :=
  endpoints_loop session members [].

(** [smap.get(endpoint)], with [None] for a missing key. *)
Definition lookup (endpoint : t) (smap : list (t * option string))
    : option (option string) :=
  snd <$> List.find (λ kv, bool_decide (kv.1 = endpoint)) smap.

(** The links of the session that an endpoint with a media type given
    by its text asks for. *)
Definition links_of (session : Element) (endpoint : t) : list Element :=
  match value endpoint with
  | (rel, Text s) =>
      filter (Links.link_matches rel (Some s) None)
        (Links.link_elements session)
  | (_, Member _) => []
  end.

End SessionEndpoints.

Module SessionEndpointsExamples.
Import Xml Http.

Definition link (rel type href : string) : Element :=
  mkElement VCLOUD_NS "Link"
    (<["rel" := rel]> (<["type" := type]> (<["href" := href]> ∅))) None [].

(** A session that links to the organisation and to the open API. *)
Definition session_doc : Element :=
  mkElement VCLOUD_NS "Session" ∅ None
    [ link "down" "application/vnd.vmware.vcloud.org+xml"
        "https://vcd.example/api/org/1";
      link "openapi" "application/json" "https://vcd.example/cloudapi" ].

End SessionEndpointsExamples.

(** ** Organisations ([get_org_list], [get_org_by_name]) *)

Module Orgs.
Import Xml Http.

(** [_get_wk_endpoint]; [in] on a map that is still [None] is a
    [TypeError]. *)
Definition _get_wk_endpoint (self : Client.t) (wk_type : WellKnownEndpoint.t)
    : exn + string :=
  match Client._session_endpoints self with
  | None => inl TypeError
  | Some endpoints =>
      match endpoints !! WellKnownEndpoint.name wk_type with
      | Some href => inr href
      | None =>
          inl (Exn.ClientException
                 ("The current user does not have access to the resource ("
                  +:+ WellKnownEndpoint.name wk_type +:+ ")."))
      end
  end.

Definition _get_wk_resource (env : Env) (self : Client.t)
    (wk_type : WellKnownEndpoint.t) : M (option Element) :=
  match _get_wk_endpoint self wk_type with
  | inl e => raise e
  | inr uri => Client.get_resource env self (Some uri)
  end.

(** [for org in orgs.Org] guarded by [hasattr(orgs, 'Org')]: the
    elements the loop goes through; [hasattr] of [None] is false. *)
Definition org_elements (orgs : option Element) : exn + list Element :=
  match orgs with
  | Some doc =>
      if hasattr doc "Org"
      then match child_seq doc "Org" with
           | Some l => inr l
           | None => inl AttributeError
           end
      else inr []
  | None => inr []
  end.

(** The loop of [get_org_list]. *)
Fixpoint fetch_orgs (env : Env) (self : Client.t) (orgs : list Element)
    (result : list (option Element)) : M (list (option Element)) :=
  match orgs with
  | [] => ret result
  | org :: orgs' =>
      org_resource <~ Client.get_resource env self (get org "href") ;>
      fetch_orgs env self orgs' (result ++ [org_resource])
  end.

Definition get_org_list (env : Env) (self : Client.t)
    : M (list (option Element)) :=
  orgs <~ _get_wk_resource env self WellKnownEndpoint.ORG_LIST ;>
  match org_elements orgs with
  | inl e => raise e
  | inr l => fetch_orgs env self l []
  end.

Definition not_found (org_name : string) : exn :=
  Exn.EntityNotFoundException ("org '" +:+ org_name +:+ "' not found").

Section WithLower.

(** [str.lower] comes with Python: it lowers every cased letter of
    Unicode, and is a parameter here. *)
Variable lower : string → string.

(** The loop of [get_org_by_name]: the first organisation whose name
    and [org_name] are equal once lowered; [.lower()] of a missing name
    is an [AttributeError]. *)
Fixpoint find_org (orgs : list Element) (org_name : string)
    : exn + option Element :=
  match orgs with
  | [] => inr None
  | org :: orgs' =>
      match get org "name" with
      | None => inl AttributeError
      | Some n =>
          if String.eqb (lower n) (lower org_name)
          then inr (Some org)
          else find_org orgs' org_name
      end
  end.

Definition get_org_by_name (env : Env) (self : Client.t) (org_name : string)
    : M (option Element) :=
  orgs <~ _get_wk_resource env self WellKnownEndpoint.ORG_LIST ;>
  match org_elements orgs with
  | inl e => raise e
  | inr l =>
      match find_org l org_name with
      | inl e => raise e
      | inr (Some org) => Client.get_resource env self (get org "href")
      | inr None => raise (not_found org_name)
      end
  end.

End WithLower.

End Orgs.

(** ** Vocabulary for the organisation properties *)

Module OrgsSpec.
Import Xml Http.

(** The GET for the address of an organisation entry. *)
Definition org_request (self : Client.t) (s : Session) (org : Element)
    : Request :=
  TaskPolls.poll_request self s (get org "href").

(** The world after some more requests. *)
Definition sent_all (reqs : list Request) (w : World) : World :=
  {| trace := trace w ++ reqs; clock_reads := clock_reads w;
     sleeps := sleeps w; closed := closed w |}.

(** The server answers [req] at [w] with a success that carries
    [body]. *)
Definition answers (env : Env) (w : World) (req : Request)
    (body : option Element) : Prop :=
  ∃ r, server env (trace w) req = inl r
       ∧ Auth.is_success (status_code r) = true
       ∧ Client._objectify_response r = body.

(** The organisation entries of the list document. *)
Definition entries (doc : option Element) : list Element :=
  match doc with
  | Some d => findall d (ns d) "Org"
  | None => []
  end.

(** The entry has a name that, lowered by [lower], is [org_name]
    lowered. *)
Definition called (lower : string → string) (org_name : string)
    (org : Element) : bool :=
  bool_decide (lower <$> get org "name" = Some (lower org_name)).

End OrgsSpec.

Module OrgsExamples.
Import Xml Http.

Definition org_entry (name href : string) : Element :=
  mkElement VCLOUD_NS "Org" (<["name" := name]> (<["href" := href]> ∅))
    None [].

Definition org_list_doc : Element :=
  mkElement VCLOUD_NS "OrgList" ∅ None
    [ org_entry "System" "https://vcd.example/api/org/1";
      org_entry "Acme" "https://vcd.example/api/org/2";
      org_entry "ACME" "https://vcd.example/api/org/3" ].

Definition org_doc (name : string) : Element :=
  mkElement VCLOUD_NS "Org" (<["name" := name]> ∅) None [].

(** The server has the list at [/api/org] and an organisation at each
    address of the list. *)
Definition env_orgs : Env :=
  {| server := λ _ req,
       inl {| status_code := 200; resp_headers := ∅;
              content :=
                match uri req with
                | Some "https://vcd.example/api/org" => Some org_list_doc
                | Some "https://vcd.example/api/org/1" =>
                    Some (org_doc "System")
                | Some "https://vcd.example/api/org/2" => Some (org_doc "Acme")
                | Some "https://vcd.example/api/org/3" => Some (org_doc "ACME")
                | _ => None
                end |};
     clock := λ _, 0 |}.

(** A client that is logged in and knows where the list is. *)
Definition client : Client.t :=
  {| Client._api_base_uri := "https://vcd.example/api";
     Client._cloudapi_base_uri := "https://vcd.example/cloudapi";
     Client._api_version := Some "36.0";
     Client._verify_ssl_certs := true;
     Client._session_endpoints :=
       Some (<["ORG_LIST" := "https://vcd.example/api/org"]> ∅);
     Client._session := Some TaskMonitorExamples.session1;
     Client._vcloud_session := None;
     Client._vcloud_auth_token := None;
     Client._vcloud_access_token := None;
     Client._query_list_map := None;
     Client._is_sysadmin := false |}.

End OrgsExamples.

(** ** The map of typed queries ([_get_query_list_map]) *)

Module QueryList.
Import Xml Http.

(** A key of the map, [(link.get('type'), link.get('name'))], and its
    value, [link.get('href')]: each may be [None]. *)
Definition key : Type := option string * option string.

Definition key_of (link : Element) : key := (get link "type", get link "name").

(** The [for link in ...] loop: a later link with the same key replaces
    the entry of an earlier one. *)
Definition fill (links : list Element) (m : gmap key (option string))
    : gmap key (option string) :=
  fold_left (λ m link, <[key_of link := get link "href"]> m) links m.

(** [self.get_query_list().Link]. *)
Definition query_links (env : Env) (self : Client.t) : M (list Element) :=
  query_list <~ Orgs._get_wk_resource env self WellKnownEndpoint.QUERY_LIST ;>
  match query_list with
  | None => raise AttributeError
  | Some doc =>
      match child_seq doc "Link" with
      | None => raise AttributeError
      | Some links => ret links
      end
  end.

(** [_get_query_list_map].  The field [_query_list_map] is threaded on
    its own, as [cache], with the [None]s that attributes of a link can
    be: the result, the field afterwards and the world.  The field is
    set to the empty map before the list is asked for. *)
Definition _get_query_list_map (env : Env) (self : Client.t)
    (cache : option (gmap key (option string))) (w : World)
    : outcome (gmap key (option string)) * option (gmap key (option string))
      * World :=
  match cache with
  | Some m => (Ok m, Some m, w)
  | None =>
      match query_links env self w with
      | (Ok links, w1) => (Ok (fill links ∅), Some (fill links ∅), w1)
      | (Raise e, w1) => (Raise e, Some ∅, w1)
      | (OutOfFuel, w1) => (OutOfFuel, Some ∅, w1)
      end
  end.

(** [_TypedQuery._find_query_uri] for the query type [query_type_name];
    [dict.get] gives [None] for a missing key. *)
Definition _find_query_uri (env : Env) (self : Client.t)
    (cache : option (gmap key (option string))) (query_type_name : string)
    (query_result_format : Query.QueryResultFormat) (w : World)
    : outcome (option string) * option (gmap key (option string)) * World :=
  let '(query_media_type, _) := Query.format_value query_result_format in
  match _get_query_list_map env self cache w with
  | (Ok m, cache', w1) =>
      (Ok (default None (m !! (Some query_media_type, Some query_type_name))),
       cache', w1)
  | (Raise e, cache', w1) => (Raise e, cache', w1)
  | (OutOfFuel, cache', w1) => (OutOfFuel, cache', w1)
  end.

End QueryList.

Module QueryListExamples.
Import Xml Http.

Definition query_link (type name href : string) : Element :=
  mkElement VCLOUD_NS "Link"
    (<["type" := type]> (<["name" := name]> (<["href" := href]> ∅))) None [].

Definition records_type : string :=
  "application/vnd.vmware.vcloud.query.records+xml".

Definition query_list_doc : Element :=
  mkElement VCLOUD_NS "QueryList" ∅ None
    [ query_link records_type "vApp"
        "https://vcd.example/api/query?type=vApp&format=records";
      query_link records_type "user"
        "https://vcd.example/api/query?type=user&format=records" ].

(** The server has the list of queries at [/api/query] as long as
    [available] holds of the requests before. *)
Definition env_queries (available : list Request → bool) : Env :=
  {| server := λ history req,
       if available history
       then inl {| status_code := 200; resp_headers := ∅;
                   content := Some query_list_doc |}
       else inl {| status_code := 503; resp_headers := ∅; content := None |};
     clock := λ _, 0 |}.

Definition client : Client.t :=
  {| Client._api_base_uri := "https://vcd.example/api";
     Client._cloudapi_base_uri := "https://vcd.example/cloudapi";
     Client._api_version := Some "36.0";
     Client._verify_ssl_certs := true;
     Client._session_endpoints :=
       Some (<["QUERY_LIST" := "https://vcd.example/api/query"]> ∅);
     Client._session := Some TaskMonitorExamples.session1;
     Client._vcloud_session := None;
     Client._vcloud_auth_token := None;
     Client._vcloud_access_token := None;
     Client._query_list_map := None;
     Client._is_sysadmin := false |}.

End QueryListExamples.

(** ** Sessions from a token ([rehydrate_from_token]) *)

Module Login.
Import Xml Http Headers.

Definition SYSTEM_ORG_NAME : string := "system".

(** [_update_is_sysadmin]: the value of [_is_sysadmin] afterwards. *)
Definition _update_is_sysadmin (vcloud_session : option Element) : bool :=
  match vcloud_session with
  | Some session =>
      let logged_in_org := get session "org" in
      if Py.truthy_str logged_in_org
      then String.eqb (Py.lower (default "" logged_in_org)) SYSTEM_ORG_NAME
      else false
  | None => false
  end.

(** [self._vcloud_access_token = token]. *)
Definition set_access_token (self : Client.t) (token : option string)
    : Client.t :=
  {| Client._api_base_uri := Client._api_base_uri self;
     Client._cloudapi_base_uri := Client._cloudapi_base_uri self;
     Client._api_version := Client._api_version self;
     Client._verify_ssl_certs := Client._verify_ssl_certs self;
     Client._session_endpoints := Client._session_endpoints self;
     Client._session := Client._session self;
     Client._vcloud_session := Client._vcloud_session self;
     Client._vcloud_auth_token := Client._vcloud_auth_token self;
     Client._vcloud_access_token := token;
     Client._query_list_map := Client._query_list_map self;
     Client._is_sysadmin := Client._is_sysadmin self |}.

(** [self._session = new_session] and
    [self._vcloud_auth_token = response.headers.get(...)]. *)
Definition set_session (self : Client.t) (new_session : Session)
    (auth_token : option string) : Client.t :=
  {| Client._api_base_uri := Client._api_base_uri self;
     Client._cloudapi_base_uri := Client._cloudapi_base_uri self;
     Client._api_version := Client._api_version self;
     Client._verify_ssl_certs := Client._verify_ssl_certs self;
     Client._session_endpoints := Client._session_endpoints self;
     Client._session := Some new_session;
     Client._vcloud_session := Client._vcloud_session self;
     Client._vcloud_auth_token := auth_token;
     Client._vcloud_access_token := Client._vcloud_access_token self;
     Client._query_list_map := Client._query_list_map self;
     Client._is_sysadmin := Client._is_sysadmin self |}.

(** [self._vcloud_session = ...] followed by [_update_is_sysadmin]. *)
Definition set_vcloud_session (self : Client.t) (vcloud_session : Element)
    : Client.t :=
  {| Client._api_base_uri := Client._api_base_uri self;
     Client._cloudapi_base_uri := Client._cloudapi_base_uri self;
     Client._api_version := Client._api_version self;
     Client._verify_ssl_certs := Client._verify_ssl_certs self;
     Client._session_endpoints := Client._session_endpoints self;
     Client._session := Client._session self;
     Client._vcloud_session := Some vcloud_session;
     Client._vcloud_auth_token := Client._vcloud_auth_token self;
     Client._vcloud_access_token := Client._vcloud_access_token self;
     Client._query_list_map := Client._query_list_map self;
     Client._is_sysadmin := _update_is_sysadmin (Some vcloud_session) |}.

(** The new session with the header that carries the token. *)
Definition token_session (token : string) (is_jwt_token : bool) : Session :=
  {| session_headers :=
       if is_jwt_token
       then <[_HEADER_AUTHORIZATION_NAME := "Bearer " +:+ token]> ∅
       else <[_HEADER_X_VCLOUD_AUTH_NAME := token]> ∅ |}.

(** What a call leaves behind: its result, the client, the value
    assigned to [_session_endpoints] if one was (it is kept apart from
    the client here, with the [None]s an address can be), and the
    world. *)
Definition result : Type :=
  outcome (option Element) * Client.t
  * option (list (WellKnownEndpoint.t * option string)) * World.

(** The body of the [try] block of [rehydrate_from_token]. *)
Definition rehydrate_body (env : Env) (self : Client.t) (token : string)
    (is_jwt_token : bool) (new_session : Session) (w : World) : result :=
  let self := if is_jwt_token then set_access_token self (Some token)
              else self in
  match Client._do_request_prim env self "GET"
          (Some (Client._api_base_uri self +:+ "/session"))
          (Some new_session) None None None None w with
  | (Ok response, w1) =>
      let sc := status_code response in
      if negb (sc =? 200)
      then (Raise (Client._response_code_to_exception sc
                     (Client._get_response_request_id response)
                     (ObjectifiedBody (Client._objectify_response response))),
            self, None, w1)
      else
        let self :=
          set_session self new_session
            (resp_headers response !! _HEADER_X_VCLOUD_AUTH_NAME) in
        match content response with
        | None =>
            (Raise (OtherException "lxml.etree.XMLSyntaxError"), self, None,
             w1)
        | Some vcloud_session =>
            let self := set_vcloud_session self vcloud_session in
            match SessionEndpoints._get_session_endpoints vcloud_session with
            | inl e => (Raise e, self, None, w1)
            | inr endpoints =>
                (Ok (Some vcloud_session), self, Some endpoints, w1)
            end
        end
  | (Raise e, w1) => (Raise e, self, None, w1)
  | (OutOfFuel, w1) => (OutOfFuel, self, None, w1)
  end.

(** [rehydrate_from_token]; [except Exception] closes the new session
    and raises again. *)
Definition rehydrate_from_token (env : Env) (self : Client.t)
    (token : string) (is_jwt_token : bool) (w : World) : result :=
  match Versions._negotiate_api_version env self w with
  | (Ok self, w0) =>
      let new_session := token_session token is_jwt_token in
      match rehydrate_body env self token is_jwt_token new_session w0 with
      | (Raise e, self, endpoints, w1) =>
          (Raise e, self, endpoints, snd (close new_session w1))
      | returned => returned
      end
  | (Raise e, w0) => (Raise e, self, None, w0)
  | (OutOfFuel, w0) => (OutOfFuel, self, None, w0)
  end.

(** The request for the session. *)
Definition session_request (self : Client.t) (new_session : Session)
    : Request :=
  {| method := "GET"; uri := Some (Client._api_base_uri self +:+ "/session");
     headers := <[_HEADER_ACCEPT_NAME := Client.accept_header self None]> ∅;
     session := new_session; data := NoBody |}.

End Login.

Module LoginExamples.
Import Xml Http.

(** A server that answers every request with the session document. *)
Definition env_session (session_doc : Element) : Env :=
  {| server := λ _ _, inl {| status_code := 200; resp_headers := ∅;
                             content := Some session_doc |};
     clock := λ _, 0 |}.

(** A session with two links to an organisation. *)
Definition ambiguous_session_doc : Element :=
  mkElement VCLOUD_NS "Session" (<["org" := "System"]> ∅) None
    [ SessionEndpointsExamples.link "down"
        "application/vnd.vmware.vcloud.org+xml" "https://vcd.example/api/org/1";
      SessionEndpointsExamples.link "down"
        "application/vnd.vmware.vcloud.org+xml"
        "https://vcd.example/api/org/2" ].

End LoginExamples.

(** ** Links from a query ([get_resource_link_from_query_object]) *)

Module QueryLinks.
Import Xml Http.

(** [sub in s] on strings. *)
Definition contains (sub s : string) : bool :=
  match String.index 0 sub s with
  | Some _ => true
  | None => false
  end.

(** The [for record in record_resource.iterchildren()] loop:
    [next_page_uri] and [list_of_links] afterwards. *)
Fixpoint scan_page (records : list Element) (next_page_uri : option string)
    (list_of_links : list Links.Link) : option string * list Links.Link :=
  match records with
  | [] => (next_page_uri, list_of_links)
  | record :: records' =>
      if String.eqb (localname record) "Link"
      then if Py.eq_ostr (get record "rel") (Some Query.NEXT_PAGE_value)
           then scan_page records' (get record "href") list_of_links
           else scan_page records' next_page_uri list_of_links
      else scan_page records' next_page_uri
             (list_of_links ++ [Links.Link_of record])
  end.

(** The [while next_page_uri is not None] loop, for at most [fuel]
    pages. *)
Fixpoint pages_loop (fuel : nat) (env : Env) (self : Client.t)
    (next_page_uri : option string) (list_of_links : list Links.Link)
    : M (list Links.Link) :=
  match next_page_uri with
  | None => ret list_of_links
  | Some uri =>
      match fuel with
      | O => λ w, (OutOfFuel, w)
      | S fuel' =>
          record_resource <~ Client.get_resource env self (Some uri) ;>
          match record_resource with
          | None => raise AttributeError
          | Some doc =>
              let '(next_page_uri, list_of_links) :=
                scan_page (children doc) None list_of_links in
              pages_loop fuel' env self next_page_uri list_of_links
          end
      end
  end.

Section WithLibraries.

(** [urllib.parse.unquote] comes from Python's library and [str.lower]
    with Python: both are parameters. *)
Variable unquote : string → string.
Variable lower : string → string.

(** The [for query_link in links] loop; it returns inside its first
    round that gets past the [continue], and [None] when there is no
    such round.  In [type not in link_href.lower()] the right operand
    fails first, on a link without an address; then the test itself, on
    a [type] that is [None]. *)
Fixpoint follow_first (fuel : nat) (env : Env) (self : Client.t)
    (type : option string) (links : list Links.Link)
    : M (option (list Links.Link)) :=
  match links with
  | [] => ret None
  | query_link :: links' =>
      match Links.href query_link with
      | None => raise AttributeError
      | Some link_href =>
          match type with
          | None => raise TypeError
          | Some t =>
              if negb (contains t (lower link_href))
              then follow_first fuel env self type links'
              else
                list_of_links <~
                  pages_loop fuel env self (Some (unquote link_href)) [] ;>
                ret (Some list_of_links)
          end
      end
  end.

(** [get_resource_link_from_query_object]; [rel] is a parameter that
    the body does not use: [get_links] is called without it and takes
    its default. *)
Definition get_resource_link_from_query_object (fuel : nat) (env : Env)
    (self : Client.t) (resource : Element) (rel : RelationType.t)
    (media_type type : option string) : M (option (list Links.Link)) :=
  let links := Links.get_links resource RelationType.DOWN media_type None in
  follow_first fuel env self type links.

End WithLibraries.

(** The address of a link, lowered by [lower], holds [t]. *)
Definition of_type (lower : string → string) (t : string) (link : Element)
    : bool :=
  match get link "href" with
  | Some link_href => contains t (lower link_href)
  | None => false
  end.

End QueryLinks.

Module QueryLinksExamples.
Import Xml Http.

Definition records_type : string :=
  "application/vnd.vmware.vcloud.query.records+xml".

Definition down_link (href : string) : Element :=
  mkElement VCLOUD_NS "Link"
    (<["rel" := "down"]> (<["type" := records_type]> (<["href" := href]> ∅)))
    None [].

(** An organisation with a query link for users and one for virtual
    machines. *)
Definition org_doc : Element :=
  mkElement VCLOUD_NS "Org" ∅ None
    [ down_link "https://vcd.example/api/query?type=user&format=records";
      down_link (QueryExamples.page_uri "1") ].

Definition unquote : string → string := λ s, s.

End QueryLinksExamples.

(** ** A user of an organisation ([get_user_in_org]) *)

Module UserQuery.
Import Xml Http.

Definition USER : string := "user".
Definition ADMIN_USER : string := "adminUser".

Definition user_not_found (user_name : string) : exn :=
  Exn.EntityNotFoundException ("user '" +:+ user_name +:+ "' not found").

Definition multiple_users : exn :=
  Exn.named "MultipleRecordsException" "multiple users found".

(** [list(...)] of the dictionary of a single page gives its keys. *)
Definition page_keys (r : Query.PageResult) : list string :=
  ["resultTotal"; "nextPageUri"]
  ++ match Query.previousPageUri r with
     | Some _ => ["previousPageUri"]
     | None => []
     end
  ++ ["values"].

Section WithLibraries.

(** [float(a) < float(b)], [urllib.parse.quote] and
    [urllib.parse.quote_plus] come from Python's library. *)
Variable float_lt : string → string → option bool.
Variable quote : string → string.
Variable quote_plus : string → string.

(** [execute] of a [_TypedQuery]: its [_find_query_uri] first gets the
    map of queries, through the field threaded as [cache], and then
    looks the query type up in it. *)
Definition execute_typed (env : Env) (self : Client.t)
    (cache : option (gmap QueryList.key (option string)))
    (query_type_name : string) (query : Query.t) (w : World)
    : outcome Query.execute_result
      * option (gmap QueryList.key (option string)) * World :=
  match QueryList._get_query_list_map env self cache w with
  | (Ok m, cache', w1) =>
      let '(res, w2) :=
        Query.execute float_lt quote
          (λ _ _ query_result_format,
             let '(query_media_type, _) :=
               Query.format_value query_result_format in
             ret (default None
                    (m !! (Some query_media_type, Some query_type_name))))
          env self query w1 in
      (res, cache', w2)
  | (Raise e, cache', w1) => (Raise e, cache', w1)
  | (OutOfFuel, cache', w1) => (OutOfFuel, cache', w1)
  end.

(** What [get_user_in_org] does with [records]. *)
Definition the_user (env : Env) (self : Client.t) (user_name : string)
    (records : list Element) : M (option Element) :=
  match records with
  | [] => raise (user_not_found user_name)
  | [record] => Client.get_resource env self (get record "href")
  | _ :: _ :: _ => raise multiple_users
  end.

Definition get_user_in_org (fuel : nat) (env : Env) (self : Client.t)
    (cache : option (gmap QueryList.key (option string)))
    (user_name org_href : string) (w : World)
    : outcome (option Element)
      * option (gmap QueryList.key (option string)) * World :=
  let resource_type := if Client._is_sysadmin self then ADMIN_USER else USER in
  let org_filter :=
    if Client._is_sysadmin self
    then Some ("org==" +:+ quote_plus org_href) else None in
  match Query.__init__ float_lt quote Query.REFERENCES self None None false
          org_filter (Some ("name", user_name)) None None None with
  | inl e => (Raise e, cache, w)
  | inr query =>
      match execute_typed env self cache resource_type query w with
      | (Ok (Query.Iterator g), cache', w1) =>
          match Query.run fuel env self g w1 with
          | (Ok records, w2) =>
              let '(res, w3) := the_user env self user_name records w2 in
              (res, cache', w3)
          | (Raise e, w2) => (Raise e, cache', w2)
          | (OutOfFuel, w2) => (OutOfFuel, cache', w2)
          end
      | (Ok (Query.Page r), cache', w1) =>
          (match page_keys r with
           | [] => Raise (user_not_found user_name)
           | [_] => Raise AttributeError
           | _ :: _ :: _ => Raise multiple_users
           end, cache', w1)
      | (Raise e, cache', w1) => (Raise e, cache', w1)
      | (OutOfFuel, cache', w1) => (OutOfFuel, cache', w1)
      end
  end.

End WithLibraries.

End UserQuery.

Module UserQueryExamples.
Import Xml Http.

Definition references_type : string :=
  "application/vnd.vmware.vcloud.query.references+xml".

Definition query_href : string :=
  "https://vcd.example/api/query?type=user&format=references".

Definition query_uri : string := query_href +:+ "&page=1&filter=name==alice".

Definition user_href : string := "https://vcd.example/api/admin/user/7".

Definition users_page : Element :=
  mkElement VCLOUD_NS "UserReferences" (<["total" := "1"]> ∅) None
    [ mkElement VCLOUD_NS "UserReference"
        (<["name" := "alice"]> (<["href" := user_href]> ∅)) None [] ].

Definition user_doc : Element :=
  mkElement VCLOUD_NS "User" (<["name" := "alice"]> ∅) None [].

Definition env_users : Env :=
  {| server := λ _ req,
       if Py.eq_ostr (uri req) (Some query_uri) then QueryExamples.ok users_page
       else if Py.eq_ostr (uri req) (Some user_href)
       then QueryExamples.ok user_doc
       else inl {| status_code := 404; resp_headers := ∅; content := None |};
     clock := λ _, 0 |}.

(** The map of queries as an earlier call has left it. *)
Definition query_map : gmap QueryList.key (option string) :=
  <[(Some references_type, Some "user") := Some query_href]> ∅.

Definition quote_plus : string → string := λ s, s.

End UserQueryExamples.

(** * Part II: properties *)

(** ** Header redaction *)

Section RedactFacts.
Import Headers.

Lemma redact_headers_lookup (headers : gmap string string) (k : string) :
  _redact_headers headers !! k =
  (λ v, if bool_decide (k ∈ _HEADERS_TO_REDACT) then REDACTED else v)
    <$> headers !! k.
Proof.
  unfold _redact_headers.
  apply (map_fold_weak_ind
           (λ r m, r !! k =
              (λ v, if bool_decide (k ∈ _HEADERS_TO_REDACT)
                    then REDACTED else v) <$> m !! k)).
  - by rewrite !lookup_empty.
  - intros i x m r Hi IH. unfold redact_item.
    destruct (decide (i = k)) as [->|Hne].
    + rewrite lookup_insert_eq.
      destruct (bool_decide_reflect (k ∉ _HEADERS_TO_REDACT)) as [Hn|Hn].
      * rewrite lookup_insert_eq. simpl.
        by rewrite bool_decide_eq_false_2.
      * rewrite lookup_insert_eq. simpl.
        rewrite bool_decide_eq_true_2; [done|].
        by destruct (decide (k ∈ _HEADERS_TO_REDACT)).
    + rewrite (lookup_insert_ne m) by done.
      destruct (bool_decide (i ∉ _HEADERS_TO_REDACT));
        by rewrite lookup_insert_ne.
Qed.

End RedactFacts.

(** C9.  For every header map, the redacted map has the same keys; a key
    outside the redaction set keeps its value, a key of the redaction
    set carries the placeholder; and whatever the logging switches are,
    the headers that reach the log are this redacted map. *)
Theorem C9_redact_headers (headers : gmap string string) :
  dom (Headers._redact_headers headers) = dom headers
  ∧ (∀ k v, k ∉ Headers._HEADERS_TO_REDACT → headers !! k = Some v →
            Headers._redact_headers headers !! k = Some v)
  ∧ (∀ k, k ∈ Headers._HEADERS_TO_REDACT → is_Some (headers !! k) →
          Headers._redact_headers headers !! k = Some Headers.REDACTED)
  ∧ (∀ t logged, Headers.logged_request_headers t headers = Some logged →
          logged = Headers._redact_headers headers).
Proof.
  repeat split.
  - apply set_eq. intros k. rewrite !elem_of_dom, redact_headers_lookup.
    by rewrite fmap_is_Some.
  - intros k v Hk Hv. rewrite redact_headers_lookup, Hv. simpl.
    by rewrite bool_decide_eq_false_2.
  - intros k Hk [v Hv]. rewrite redact_headers_lookup, Hv. simpl.
    by rewrite bool_decide_eq_true_2.
  - intros t logged. unfold Headers.logged_request_headers.
    destruct (Headers._log_requests t), (Headers._log_headers t); simpl;
      congruence.
Qed.

(** ** Task monitor *)

(** C9 on request headers with a bearer token: the [Accept] value is
    kept, the [Authorization] value is replaced. *)
Lemma C9_redact_headers_witness :
  Headers._redact_headers HeadersExamples.request_headers !! "Accept"
    = Some "application/*+xml;version=36.0"
  ∧ Headers._redact_headers HeadersExamples.request_headers !! "Authorization"
    = Some "[REDACTED]".
Proof.
  destruct (C9_redact_headers HeadersExamples.request_headers)
    as (_ & Hkeep & Hredact & _).
  split.
  - apply Hkeep; [|reflexivity]. unfold Headers._HEADERS_TO_REDACT.
    rewrite !elem_of_cons, elem_of_nil. intros [?|[?|[?|[]]]]; discriminate.
  - apply Hredact; [|by eexists]. apply list_elem_of_here.
Defined.

Section RedactRuns.
Import Headers HeadersExamples.

Example redacted_request_headers :
  _redact_headers request_headers !! "Authorization" = Some "[REDACTED]"
  ∧ _redact_headers request_headers !! "Accept"
    = Some "application/*+xml;version=36.0"
  ∧ _redact_headers request_headers !! "Content-Type" = Some "application/xml"
  ∧ size (_redact_headers request_headers) = 3%nat.
Proof. repeat split; vm_compute; reflexivity. Qed.

(** The names are compared as written: another spelling of a name of
    the set is not in the set. *)
Example other_spelling_kept :
  _redact_headers (<["authorization" := "Bearer eyJhbGciOi"]> ∅)
    !! "authorization" = Some "Bearer eyJhbGciOi".
Proof. vm_compute. reflexivity. Qed.

End RedactRuns.

Section TaskMonitorGeneral.
Import Xml Http TaskMonitor.

Variable env : Env.
Variable client : Client.t.
Variables timeout poll_frequency : Z.
Variables _fail_on_statuses expected_target_statuses : list TaskStatus.
Variable callback : option callback_t.

Hypothesis Hsession : is_Some (Client._session client).
Hypothesis Hstuck : stuck env _fail_on_statuses expected_target_statuses.
Hypothesis Hcallback : callback_returns callback.
Hypothesis Htimeout : 0 ≤ timeout.

Lemma stuck_poll_goes_round (task_href : option string) (start_time : Z)
    (w : World) :
  start_time ≤ clock env (clock_reads w) →
  ∃ w', poll_once env client task_href start_time timeout poll_frequency
          _fail_on_statuses expected_target_statuses callback w
        = (Ok (inr tt), w')
        ∧ clock_reads w' = S (clock_reads w).
Proof.
  intros Hclock. destruct Hsession as [s Hs].
  unfold poll_once, _get_task_status, Client.get_resource,
    Client._do_request, Client._do_request_prim, bind, send.
  rewrite Hs.
  match goal with |- context [server env ?h ?q] =>
    destruct (Hstuck h q) as (r & t & st & -> & Hsc & Hc & Hst & Hel & Hfl)
  end.
  rewrite Hsc. simpl.
  unfold Client._objectify_response, Client._response_has_content.
  rewrite Hc. unfold ret, now, sleep.
  assert (Hcb : ∀ A (k1 : exn → A) (k2 : A),
            match callback with
            | Some cb => match cb (Some t) with
                         | Some e => k1 e
                         | None => k2
                         end
            | None => k2
            end = k2).
  { intros A k1 k2. destruct callback as [cb|] eqn:Ecb; [|done].
    by rewrite (Hcallback cb (Some t) eq_refl). }
  rewrite Hcb, Hst, Hel, Hfl. simpl.
  destruct (start_time - clock env (clock_reads w) >? timeout) eqn:E.
  - apply Z.gtb_lt in E. lia.
  - eauto.
Qed.

Lemma stuck_poll_loop (fuel : nat) (task_href : option string)
    (start_time : Z) (k : nat) :
  (∀ n, (k ≤ n)%nat → start_time ≤ clock env n) →
  ∀ w, (k ≤ clock_reads w)%nat →
    fst (poll_loop fuel env client task_href start_time timeout
           poll_frequency _fail_on_statuses expected_target_statuses
           callback w) = OutOfFuel.
Proof.
  intros Hmono. induction fuel as [|fuel IH]; intros w Hk; [done|].
  simpl. unfold bind.
  destruct (stuck_poll_goes_round task_href start_time w) as (w' & -> & Hr).
  { by apply Hmono. }
  apply IH. lia.
Qed.

End TaskMonitorGeneral.

(** C1.  The deadline test of [wait_for_status] compares
    [start_time - now] with the timeout.  With a timeout that is not
    negative and a clock that does not run backwards, a task whose
    status never matches is polled without end: for every number of
    iterations the method is still in its loop, so [TaskTimeout] is
    never raised, however far the clock has advanced. *)
Theorem C1_wait_for_status_never_times_out
    (env : Http.Env) (client : Client.t) (task : Xml.Element)
    (timeout poll_frequency : Z)
    (fail_on expected : list TaskMonitor.TaskStatus)
    (callback : option TaskMonitor.callback_t) (w : Http.World) (fuel : nat) :
  is_Some (Client._session client) →
  TaskMonitor.stuck env fail_on expected →
  TaskMonitor.callback_returns callback →
  0 ≤ timeout →
  (∀ n m, (n ≤ m)%nat → Http.clock env n ≤ Http.clock env m) →
  fst (TaskMonitor.wait_for_status fuel env client task timeout poll_frequency
         (TaskMonitor.FailOnList fail_on) expected callback w)
  = Http.OutOfFuel.
Proof.
  intros Hs Hst Hcb Ht Hmono.
  unfold TaskMonitor.wait_for_status, TaskMonitor.normalise_fail_on,
    Http.bind, Http.ret, Http.now.
  apply (stuck_poll_loop env client timeout poll_frequency fail_on expected
           callback Hs Hst Hcb Ht fuel _ _ (Http.clock_reads w)).
  - intros n Hn. by apply Hmono.
  - simpl. lia.
Qed.

Section TaskMonitorFacts.
Import Xml Http TaskMonitor TaskMonitorExamples.

Lemma env_stuck_is_stuck : stuck env_stuck [ABORTED; CANCELED; ERROR] [SUCCESS].
Proof.
  intros h req. eexists _, (task_with_status "running"), "running".
  repeat split; reflexivity.
Qed.

End TaskMonitorFacts.

(** C1, at the input of the specification's test: a task that stays at
    "running", polled every 0.01 s with a timeout of 0.02 s.  After a
    thousand polls (ten seconds on that clock, where the time spent
    exceeds the timeout from the third reading on) the method has
    raised nothing. *)
Lemma C1_stuck_running_witness :
  fst (TaskMonitor.wait_for_status 1000 TaskMonitorExamples.env_stuck
         TaskMonitorExamples.client1
         (TaskMonitorExamples.task_with_status "running") 20000 10000
         TaskMonitor.default_fail_on [TaskMonitor.SUCCESS] None Http.world0)
  = Http.OutOfFuel
  ∧ TaskMonitor.elapsed_exceeds
      (Http.clock TaskMonitorExamples.env_stuck 0)
      (Http.clock TaskMonitorExamples.env_stuck 3) 20000 = true.
Proof.
  split; [|reflexivity].
  apply C1_wait_for_status_never_times_out.
  - by eexists.
  - apply env_stuck_is_stuck.
  - intros cb t [=].
  - lia.
  - intros n m Hnm. simpl. lia.
Defined.

Section TaskMonitorClock.
Import Xml Http TaskMonitor.

Lemma poll_once_clock_reads env client href start timeout pf fl el cb w :
  (clock_reads w ≤
     clock_reads (snd (poll_once env client href start timeout pf fl el cb w)))%nat.
Proof.
  unfold poll_once, _get_task_status, Client.get_resource,
    Client._do_request, Client._do_request_prim, bind, send, ret, raise,
    now, sleep.
  repeat (case_match; simplify_eq/=; try lia).
Qed.

Lemma poll_loop_clock_reads fuel env client href start timeout pf fl el cb w :
  (clock_reads w ≤
     clock_reads (snd (poll_loop fuel env client href start timeout pf fl el
                         cb w)))%nat.
Proof.
  revert w. induction fuel as [|fuel IH]; intros w; [done|].
  simpl. unfold bind.
  pose proof (poll_once_clock_reads env client href start timeout pf fl el cb w)
    as H1.
  destruct (poll_once env client href start timeout pf fl el cb w)
    as [[[t|[]]|e|] w1]; simpl in *; try done.
  etrans; [exact H1|apply IH].
Qed.

End TaskMonitorClock.

(** C8.  A single [TaskStatus] passed as [fail_on_statuses] is not
    wrapped in a list: the call ends with [UnboundLocalError] before the
    clock is read or any request is sent, and so never behaves like the
    call with the one-element list, which always reads the clock. *)
Theorem C8_single_fail_on_status
    (fuel : nat) (env : Http.Env) (client : Client.t) (task : Xml.Element)
    (timeout poll_frequency : Z) (s : TaskMonitor.TaskStatus)
    (expected : list TaskMonitor.TaskStatus)
    (callback : option TaskMonitor.callback_t) (w : Http.World) :
  TaskMonitor.wait_for_status fuel env client task timeout poll_frequency
    (TaskMonitor.FailOnStatus s) expected callback w
  = (Http.Raise Http.UnboundLocalError, w)
  ∧ (Http.clock_reads w <
       Http.clock_reads
         (snd (TaskMonitor.wait_for_status fuel env client task timeout
                 poll_frequency (TaskMonitor.FailOnList [s]) expected
                 callback w)))%nat
  ∧ TaskMonitor.wait_for_status fuel env client task timeout poll_frequency
      (TaskMonitor.FailOnStatus s) expected callback w
    ≠ TaskMonitor.wait_for_status fuel env client task timeout poll_frequency
        (TaskMonitor.FailOnList [s]) expected callback w.
Proof.
  assert (Hlt : (Http.clock_reads w <
       Http.clock_reads
         (snd (TaskMonitor.wait_for_status fuel env client task timeout
                 poll_frequency (TaskMonitor.FailOnList [s]) expected
                 callback w)))%nat).
  { unfold TaskMonitor.wait_for_status, TaskMonitor.normalise_fail_on,
      Http.bind, Http.ret, Http.now.
    eapply Nat.lt_le_trans; [|apply poll_loop_clock_reads]. simpl. lia. }
  split; [reflexivity|]. split; [exact Hlt|].
  intros Heq. rewrite <- Heq in Hlt. simpl in Hlt. lia.
Qed.

(** ** Chunked upload *)

Section UploadFacts.
Import Xml Http Upload UploadSpec.

Variable hier : response_exn_class → bool.
Variable env : Env.
Variable self : Client.t.
Variable s : Session.
Variable uri : option string.
Variables contents range_str : string.
Hypothesis Hsession : Client._session self = Some s.

Let req := put_request s uri contents range_str.
Let hdrs := upload_headers contents range_str.

Let sent (w : World) : World := UploadSpec.sent req w.

Lemma put_once_unfold (w : World) :
  put_once env self uri contents hdrs w =
  match server env (trace w) req with
  | inl r => if status_code r =? 200 then (Ok r, sent w)
             else (Raise (Client._response_code_to_exception (status_code r)
                            None (WholeResponse r)), sent w)
  | inr e => (Raise (OtherException e), sent w)
  end.
Proof.
  unfold put_once, bind, send, ret, raise, sent, UploadSpec.sent.
  rewrite Hsession.
  subst req hdrs. unfold put_request.
  match goal with |- context [server env ?h ?q] =>
    destruct (server env h q) as [r|e]; [|done] end.
  by destruct (status_code r =? 200).
Qed.

Local Ltac first_attempt_ends :=
  exists 1%nat; split; [lia|]; split; [reflexivity|]; split; [intros ? ?; lia|];
  change (1 - 1)%nat with 0%nat; unfold ends_with.

Lemma upload_attempts_spec (k a : nat) (w : World) :
  (a + k = 6)%nat → (1 ≤ a)%nat → (1 ≤ k)%nat →
  ∃ n, (1 ≤ n ≤ k)%nat
    ∧ trace (snd (upload_attempts hier (List.map Z.of_nat (seq a k)) env self
                    uri contents hdrs w))
      = (trace w ++ repeat req n)%list
    ∧ (∀ i, (i < n - 1)%nat → retried hier (reply env w req i))
    ∧ ends_with hier (n =? k)%nat (reply env w req (n - 1))
        (fst (upload_attempts hier (List.map Z.of_nat (seq a k)) env self
                uri contents hdrs w)).
Proof.
  revert a w. induction k as [|k IH]; intros a w Hak Ha Hk; [lia|].
  simpl. rewrite put_once_unfold.
  assert (Hr0 : reply env w req 0 = server env (trace w) req).
  { unfold reply. simpl. by rewrite app_nil_r. }
  destruct (server env (trace w) req) as [r|e] eqn:Hsrv.
  - destruct (status_code r =? 200) eqn:Hsc.
    + first_attempt_ends. by rewrite Hr0, Hsc.
    + simpl. destruct (hier (Client.code_class (status_code r))) eqn:Hh.
      * destruct (Z.of_nat a <? Client._UPLOAD_FRAGMENT_MAX_RETRIES) eqn:Hlt.
        -- apply Z.ltb_lt in Hlt.
           unfold Client._UPLOAD_FRAGMENT_MAX_RETRIES in Hlt.
           destruct (IH (S a) (sent w)) as (n & Hn & Htr & Hret & Hend);
             [lia..|].
           exists (S n). split; [lia|]. split; [|split].
           ++ rewrite Htr. simpl. by rewrite <- app_assoc.
           ++ intros i Hi. destruct i as [|i].
              ** exists r. rewrite Hr0. repeat split; [|done].
                 by apply Z.eqb_neq.
              ** specialize (Hret i ltac:(lia)).
                 unfold reply in *. simpl in Hret.
                 by rewrite <- app_assoc in Hret.
           ++ replace (S n - 1)%nat with (S (n - 1)) by lia.
              unfold reply in *. simpl in Hend. rewrite <- app_assoc in Hend.
              simpl in Hend. exact Hend.
        -- apply Z.ltb_ge in Hlt.
           unfold Client._UPLOAD_FRAGMENT_MAX_RETRIES in Hlt.
           first_attempt_ends. rewrite Hr0, Hsc. split; [done|].
           intros _. assert (k = 0%nat) as -> by lia. done.
      * first_attempt_ends. rewrite Hr0, Hsc. split; [done|]. congruence.
  - first_attempt_ends. by rewrite Hr0.
Qed.

End UploadFacts.

(** C2.  [upload_fragment] sends the same PUT between one and five
    times.  Every class of the status-code taxonomy derives from
    [VcdResponseException], so an answer that is not 200 is tried again
    whatever its status: every attempt but the last was answered by a
    response that is not 200, and the call ends at the first answer
    that is 200 (returned) or a transport error (raised at once, no
    further request), or at the fifth answer, and only there with the
    exception of a status code. *)
Theorem C2_upload_fragment_bounded_retry
    (env : Http.Env) (self : Client.t) (s : Http.Session)
    (uri : option string) (contents range_str : string) (w : Http.World) :
  Client._session self = Some s →
  let req := UploadSpec.put_request s uri contents range_str in
  let res := Upload.upload_fragment Upload.package_hierarchy env self uri
               contents range_str w in
  ∃ n, (1 ≤ n ≤ 5)%nat
    ∧ Http.trace (snd res) = (Http.trace w ++ repeat req n)%list
    ∧ (∀ i, (i < n - 1)%nat →
         ∃ r, UploadSpec.reply env w req i = inl r
              ∧ Http.status_code r ≠ 200)
    ∧ match UploadSpec.reply env w req (n - 1) with
      | inl r =>
          if Http.status_code r =? 200 then fst res = Http.Ok (Some r)
          else n = 5%nat
               ∧ fst res
                 = Http.Raise
                     (Http.ResponseExn (Client.code_class (Http.status_code r))
                        (Http.status_code r) None (Http.WholeResponse r))
      | inr e => fst res = Http.Raise (Http.OtherException e)
      end.
Proof.
  intros Hs req res.
  destruct (upload_attempts_spec Upload.package_hierarchy env self s uri
              contents range_str Hs 5 1 w eq_refl ltac:(lia) ltac:(lia))
    as (n & Hn & Htr & Hret & Hend).
  exists n. split; [exact Hn|]. split; [exact Htr|]. split.
  - intros i Hi. destruct (Hret i Hi) as (r & Hr & Hsc & _). by exists r.
  - unfold UploadSpec.ends_with in Hend. subst req.
    destruct (UploadSpec.reply env w _ (n - 1)) as [r|e]; [|exact Hend].
    destruct (Http.status_code r =? 200); [exact Hend|].
    destruct Hend as [Hres Hlast]. split; [|exact Hres].
    by apply Nat.eqb_eq, Hlast.
Qed.

(** C2 on a server that refuses the first four attempts with 404: the
    fifth attempt is made and its answer returned. *)
Lemma C2_upload_fragment_witness :
  let req := UploadExamples.chunk_req in
  let res := Upload.upload_fragment Upload.package_hierarchy
               (UploadExamples.env_fail_first 4 404) UploadExamples.uploader
               (Some "https://vcd.example/transfer/1/file") "abcd"
               "bytes 0-3/4" Http.world0 in
  ∃ n, (1 ≤ n ≤ 5)%nat
    ∧ Http.trace (snd res) = (Http.trace Http.world0 ++ repeat req n)%list
    ∧ (∀ i, (i < n - 1)%nat →
         ∃ r, UploadSpec.reply (UploadExamples.env_fail_first 4 404)
                Http.world0 req i = inl r
              ∧ Http.status_code r ≠ 200)
    ∧ match UploadSpec.reply (UploadExamples.env_fail_first 4 404)
              Http.world0 req (n - 1) with
      | inl r =>
          if Http.status_code r =? 200 then fst res = Http.Ok (Some r)
          else n = 5%nat
               ∧ fst res
                 = Http.Raise
                     (Http.ResponseExn (Client.code_class (Http.status_code r))
                        (Http.status_code r) None (Http.WholeResponse r))
      | inr e => fst res = Http.Raise (Http.OtherException e)
      end.
Proof.
  exact (C2_upload_fragment_bounded_retry
           (UploadExamples.env_fail_first 4 404) UploadExamples.uploader
           TaskMonitorExamples.session1
           (Some "https://vcd.example/transfer/1/file") "abcd" "bytes 0-3/4"
           Http.world0 eq_refl).
Defined.

(** The claim as the specification words it fails: it has one class of
    the taxonomy tried again and every other class raised at the first
    answer.  Here the first four answers are 404, or 500, two classes
    of the taxonomy: each time four more attempts are made, and the
    fifth, answered 200, returns. *)
Lemma C2_other_classes_are_retried :
  Client.code_class 404 = Http.NotFoundException
  ∧ Client.code_class 500 = Http.InternalServerException
  ∧ Upload.upload_fragment Upload.package_hierarchy
      (UploadExamples.env_fail_first 4 404) UploadExamples.uploader
      (Some "https://vcd.example/transfer/1/file") "abcd" "bytes 0-3/4"
      Http.world0
    = (Http.Ok (Some (UploadExamples.plain 200)),
       {| Http.trace := repeat UploadExamples.chunk_req 5;
          Http.clock_reads := 0; Http.sleeps := []; Http.closed := [] |})
  ∧ Upload.upload_fragment Upload.package_hierarchy
      (UploadExamples.env_fail_first 4 500) UploadExamples.uploader
      (Some "https://vcd.example/transfer/1/file") "abcd" "bytes 0-3/4"
      Http.world0
    = (Http.Ok (Some (UploadExamples.plain 200)),
       {| Http.trace := repeat UploadExamples.chunk_req 5;
          Http.clock_reads := 0; Http.sleeps := []; Http.closed := [] |}).
Proof. repeat split; reflexivity. Qed.

Section UploadRuns.
Import Http Upload UploadExamples.

Let run hier env :=
  upload_fragment hier env uploader
    (Some "https://vcd.example/transfer/1/file") "abcd" "bytes 0-3/4" world0.

(** Four refusals, then 200: the fifth attempt succeeds. *)
Example upload_succeeds_on_fifth :
  fst (run all_derive (env_fail_first 4 416)) = Ok (Some (plain 200))
  ∧ trace (snd (run all_derive (env_fail_first 4 416))) = repeat chunk_req 5.
Proof. split; reflexivity. Qed.

(** Five refusals: the fifth exception is raised, with no sixth request. *)
Example upload_gives_up_after_five :
  fst (run all_derive (env_fail_first 5 416))
  = Raise (ResponseExn InvalidContentLengthException 416 None
             (WholeResponse (plain 416)))
  ∧ trace (snd (run all_derive (env_fail_first 5 416))) = repeat chunk_req 5.
Proof. split; reflexivity. Qed.

(** In the other hierarchy, a class outside [VcdResponseException] is
    raised at the first attempt, although the server would have
    accepted the second. *)
Example upload_uncaught_class_not_retried :
  fst (run only_416 (env_fail_first 1 500))
  = Raise (ResponseExn InternalServerException 500 None
             (WholeResponse (plain 500)))
  ∧ trace (snd (run only_416 (env_fail_first 1 500))) = [chunk_req].
Proof. split; reflexivity. Qed.

End UploadRuns.

(** ** Link resolution *)

Section LinkFacts.
Import Xml Http Links.

Variable rel : RelationType.t.
Variables media_type name : option string.

Lemma get_links_step_spec (links : list Link) (link : Element) :
  get_links_step rel media_type name links link =
  if decide (link_matches rel media_type name link)
  then links ++ [Link_of link] else links.
Proof.
  unfold get_links_step, Py.eq_ostr.
  destruct (decide _) as [(Hrel & Hmt & Hname)|Hno].
  - rewrite Hrel. rewrite (bool_decide_eq_true_2 _ eq_refl).
    destruct Hname as [->|Hname];
      [|rewrite Hname; destruct name;
        [rewrite (bool_decide_eq_true_2 _ eq_refl); simpl|]];
      (destruct Hmt as [[-> ->]|[Hm ->]]; [done|];
       destruct media_type; [|done];
       by rewrite (bool_decide_eq_true_2 _ eq_refl)).
  - unfold link_matches in Hno.
    destruct name as [n|], media_type as [m|],
      (get link "type") as [lm|], (get link "name") as [ln|];
      repeat case_bool_decide; simplify_eq/=; try done;
      exfalso; apply Hno; naive_solver.
Qed.

Lemma get_links_fold (elems : list Element) (acc : list Link) :
  fold_left (get_links_step rel media_type name) elems acc =
  acc ++ (Link_of <$> filter (link_matches rel media_type name) elems).
Proof.
  revert acc. induction elems as [|e elems IH]; intros acc; simpl.
  - by rewrite app_nil_r.
  - rewrite IH, get_links_step_spec, filter_cons.
    destruct (decide _); [|done].
    by rewrite fmap_cons, <- app_assoc.
Qed.

Lemma get_links_filter (resource : Element) :
  get_links resource rel media_type name =
  Link_of <$> filter (link_matches rel media_type name)
                (link_elements resource).
Proof. unfold get_links. by rewrite get_links_fold. Qed.

End LinkFacts.

(** C4.  [get_links] returns, in document order, exactly the links of
    the document's link elements that match the relation, the content
    type (absent filter: links without a type; present filter: links of
    that type) and the name when one is given.  [find_link] over the same
    matches: none gives [MissingLinkException] when [fail_if_absent], and
    no link otherwise; exactly one gives that link; more than one gives
    [MultipleLinksException]. *)
Theorem C4_find_links (resource : Xml.Element) (rel : RelationType.t)
    (media_type name : option string) :
  let matching :=
    filter (Links.link_matches rel media_type name)
      (Links.link_elements resource) in
  Links.get_links resource rel media_type name = Links.Link_of <$> matching
  ∧ (∀ l, l ∈ Links.get_links resource rel media_type name ↔
          ∃ e, e ∈ Links.link_elements resource
               ∧ Links.link_matches rel media_type name e
               ∧ l = Links.Link_of e)
  ∧ (matching = [] →
       Links.find_link resource rel media_type true name
       = inl (Http.MissingLinkException (Xml.get resource "href") rel
                media_type)
       ∧ Links.find_link resource rel media_type false name = inr None)
  ∧ (∀ e fail_if_absent, matching = [e] →
       Links.find_link resource rel media_type fail_if_absent name
       = inr (Some (Links.Link_of e)))
  ∧ (∀ fail_if_absent, (1 < length matching)%nat →
       Links.find_link resource rel media_type fail_if_absent name
       = inl (Http.MultipleLinksException (Xml.get resource "href") rel
                media_type)).
Proof.
  intros matching.
  assert (Hg : Links.get_links resource rel media_type name
               = Links.Link_of <$> matching)
    by apply get_links_filter.
  assert (Hin : ∀ e, e ∈ matching ↔
            e ∈ Links.link_elements resource
            ∧ Links.link_matches rel media_type name e).
  { intros e. subst matching. rewrite list_elem_of_filter. tauto. }
  clearbody matching.
  split; [exact Hg|]. split; [|split; [|split]].
  - intros l. rewrite Hg, list_elem_of_fmap. split.
    + intros (e & -> & He). apply Hin in He as [He Hm]. by exists e.
    + intros (e & He & Hm & ->). exists e. split; [done|]. by apply Hin.
  - intros ->. unfold Links.find_link. rewrite Hg. by simpl.
  - intros e f ->. unfold Links.find_link. rewrite Hg. by simpl.
  - intros f Hlen. unfold Links.find_link. rewrite Hg.
    rewrite length_fmap.
    destruct (length matching) as [|[|n]] eqn:E; [lia|lia|done].
Qed.

(** C4 on an organisation document with two links of the requested
    relation and type: the unique lookup is refused. *)
Lemma C4_find_links_witness :
  Links.find_link LinksExamples.org_doc RelationType.DOWN
    (Some LinksExamples.vdc_type) true None
  = inl (Http.MultipleLinksException (Some "https://vcd.example/api/org/1")
           RelationType.DOWN (Some LinksExamples.vdc_type)).
Proof.
  apply (C4_find_links LinksExamples.org_doc RelationType.DOWN
           (Some LinksExamples.vdc_type) None).
  vm_compute. lia.
Defined.

Section LinkRuns.
Import Xml Http Links LinksExamples.

Example get_links_by_type :
  href <$> get_links org_doc RelationType.DOWN (Some vdc_type) None
  = [Some "https://vcd.example/api/vdc/a"; Some "https://vcd.example/api/vdc/b"].
Proof. reflexivity. Qed.

Example get_links_untyped :
  href <$> get_links org_doc RelationType.DOWN None None
  = [Some "https://vcd.example/api/misc"].
Proof. reflexivity. Qed.

Example find_link_by_name :
  find_link org_doc RelationType.DOWN (Some vdc_type) true (Some "vdc-b")
  = inr (Some {| rel := Some "down"; media_type := Some vdc_type;
                 href := Some "https://vcd.example/api/vdc/b";
                 name := Some "vdc-b" |}).
Proof. reflexivity. Qed.

Example find_link_absent :
  find_link org_doc RelationType.UP None true None
  = inl (MissingLinkException (Some "https://vcd.example/api/org/1")
           RelationType.UP None)
  ∧ find_link org_doc RelationType.UP None false None = inr None.
Proof. split; reflexivity. Qed.

End LinkRuns.

(** ** Logout *)

Section LogoutFacts.
Import Xml Http Auth.

Lemma do_request_delete env self s w :
  Client._session self = Some s →
  Client._do_request env self "DELETE"
    (Some (Client._api_base_uri self +:+ "/session")) None None None w
  = match server env (trace w) (delete_request self s) with
    | inl r =>
        (if is_success (status_code r)
         then Ok (Client._objectify_response r)
         else Raise (Client._response_code_to_exception (status_code r)
                       (Client._get_response_request_id r)
                       (ObjectifiedBody (Client._objectify_response r))),
         {| trace := trace w ++ [delete_request self s];
            clock_reads := clock_reads w; sleeps := sleeps w;
            closed := closed w |})
    | inr e =>
        (Raise (OtherException e),
         {| trace := trace w ++ [delete_request self s];
            clock_reads := clock_reads w; sleeps := sleeps w;
            closed := closed w |})
    end.
Proof.
  intros Hs.
  unfold Client._do_request, Client._do_request_prim, bind, send, ret, raise.
  rewrite Hs. fold (delete_request self s).
  destruct (server env (trace w) (delete_request self s)) as [r|e]; [|done].
  unfold is_success. by destruct (_ || _).
Qed.

Lemma logout_without_session env self w :
  Client._session self = None → logout env self w = (Ok None, self, w).
Proof. intros Hs. unfold logout. by rewrite Hs. Qed.

End LogoutFacts.

(** C5 (as amended).  [logout] sends nothing when no session is active.
    With an active session it sends one DELETE to the session resource;
    when that is answered with a success status it closes the
    connection and clears the connection, the session document and both
    tokens, and leaves the endpoint map, the query-list cache, the
    sysadmin flag and the API version as they were.  A second call then
    sends nothing, raises nothing and changes nothing. *)
Theorem C5_logout_idempotent (env : Http.Env) (self : Client.t)
    (s : Http.Session) (r : Http.Response) (w : Http.World) :
  Client._session self = Some s →
  Http.server env (Http.trace w) (Auth.delete_request self s) = inl r →
  Auth.is_success (Http.status_code r) = true →
  let first := Auth.logout env self w in
  let self1 := snd (fst first) in
  let w1 := snd first in
  fst (fst first) = Http.Ok (Client._objectify_response r)
  ∧ Http.trace w1 = Http.trace w ++ [Auth.delete_request self s]
  ∧ Http.closed w1 = Http.closed w ++ [s]
  ∧ Client._session self1 = None
  ∧ Client._vcloud_session self1 = None
  ∧ Client._vcloud_access_token self1 = None
  ∧ Client._vcloud_auth_token self1 = None
  ∧ Client._session_endpoints self1 = Client._session_endpoints self
  ∧ Client._query_list_map self1 = Client._query_list_map self
  ∧ Client._is_sysadmin self1 = Client._is_sysadmin self
  ∧ Client._api_version self1 = Client._api_version self
  ∧ Auth.logout env self1 w1 = (Http.Ok None, self1, w1)
  ∧ (∀ self0 w0, Client._session self0 = None →
       Auth.logout env self0 w0 = (Http.Ok None, self0, w0)).
Proof.
  intros Hs Hr Hok first self1 w1.
  assert (Hfirst : first
            = (Http.Ok (Client._objectify_response r), Auth.clear_session self,
               {| Http.trace := Http.trace w ++ [Auth.delete_request self s];
                  Http.clock_reads := Http.clock_reads w;
                  Http.sleeps := Http.sleeps w;
                  Http.closed := Http.closed w ++ [s] |})).
  { subst first. unfold Auth.logout. rewrite Hs.
    rewrite (do_request_delete env self s w Hs), Hr, Hok. reflexivity. }
  subst self1 w1. rewrite Hfirst. simpl.
  repeat split; try reflexivity.
  intros self0 w0. apply logout_without_session.
Qed.

(** C5 on a logged-in client and a server that answers 204: the
    connection is gone after the first call and the second call is a
    no-op. *)
Lemma C5_logout_witness :
  let first := Auth.logout AuthExamples.env_no_content AuthExamples.logged_in
                 Http.world0 in
  Client._session (snd (fst first)) = None
  ∧ Auth.logout AuthExamples.env_no_content (snd (fst first)) (snd first)
    = (Http.Ok None, snd (fst first), snd first).
Proof.
  pose proof (C5_logout_idempotent AuthExamples.env_no_content
                AuthExamples.logged_in _ _ Http.world0
                eq_refl eq_refl eq_refl) as H.
  cbv zeta in H.
  destruct H as (_ & _ & _ & Hsession & _ & _ & _ & _ & _ & _ & _ & Hagain & _).
  split; assumption.
Defined.

(** C5, as first stated, fails: after a logout that succeeded, the
    endpoint map, the query-list cache and the sysadmin flag that the
    login had set are still there. *)
Lemma C5_logout_keeps_endpoints :
  let first := Auth.logout AuthExamples.env_no_content AuthExamples.logged_in
                 Http.world0 in
  fst (fst first) = Http.Ok None
  ∧ Client._session_endpoints (snd (fst first))
    = Some (<["QUERY_LIST" := "https://vcd.example/api/query"]> ∅)
  ∧ is_Some (Client._query_list_map (snd (fst first)))
  ∧ Client._is_sysadmin (snd (fst first)) = true.
Proof. repeat split. by eexists. Qed.


(** ** Stream-all pagination *)

Section IteratorFacts.
Import Xml Http Query QuerySpec.

Variable env : Env.
Variable client : Client.t.

Lemma scan_link (r : Element) (rest : list Element) (npu : option string) :
  localname r = "Link" →
  scan (r :: rest) npu
  = scan rest (if decide (is_next_link r) then get r "href" else npu).
Proof.
  intros Hl. simpl. rewrite Hl. simpl. unfold Py.eq_ostr, is_next_link.
  change NEXT_PAGE_value with "nextPage".
  destruct (decide _) as [[_ Hr]|Hn].
  - by rewrite bool_decide_eq_true_2.
  - rewrite bool_decide_eq_false_2; [done|]. intros Hr. by apply Hn.
Qed.

Lemma scan_record (r : Element) (rest : list Element) (npu : option string) :
  localname r ≠ "Link" →
  scan (r :: rest) npu = (Some (r, rest), npu).
Proof.
  intros Hl. simpl. by destruct (String.eqb_spec (localname r) "Link").
Qed.

Lemma next_uri_among_cons (r : Element) (rest : list Element)
    (npu : option string) :
  next_uri_among (r :: rest) npu
  = next_uri_among rest (if decide (is_next_link r) then get r "href" else npu).
Proof.
  unfold next_uri_among. destruct (decide (is_next_link r)) as [Hr|Hr].
  - rewrite filter_cons_True by done. rewrite last_cons.
    by destruct (last _).
  - by rewrite filter_cons_False.
Qed.

Lemma drains_same_step (g1 g2 : gen_state) (w : World) (ys : list Element)
    (w' : World) :
  step env client g1 w = step env client g2 w →
  drains env client g2 w ys w' → drains env client g1 w ys w'.
Proof.
  intros Heq Hd. inversion Hd; subst.
  - eapply drains_stop. by rewrite Heq.
  - eapply drains_yield; [by rewrite Heq|done].
  - eapply drains_turn; [by rewrite Heq|done].
Qed.

(** From inside a page: the records still to come, then whatever the
    page's next-page address leads to. *)
Lemma drains_in_page (rest : list Element) (npu : option string) (w : World)
    (tail : list Element) (w' : World) :
  (next_uri_among rest npu = None ∧ tail = [] ∧ w' = w)
  ∨ (∃ u q w1, next_uri_among rest npu = Some u
       ∧ Client.get_resource env client (Some u) w = (Ok q, w1)
       ∧ drains env client (AtPage q) w1 tail w') →
  drains env client (InPage rest npu) w (records_among rest ++ tail) w'.
Proof.
  revert npu w. induction rest as [|r rest IH]; intros npu w Hend.
  - simpl. destruct Hend as [(Hn & -> & ->)|(u & q & w1 & Hn & Hget & Hd)];
      unfold next_uri_among in Hn; simpl in Hn; subst npu.
    + by eapply drains_stop.
    + eapply drains_turn; [|exact Hd].
      simpl. unfold step_in_page. simpl. unfold bind. by rewrite Hget.
  - rewrite next_uri_among_cons in Hend. unfold records_among.
    destruct (decide (localname r = "Link")) as [Hl|Hl].
    + rewrite filter_cons_False by (intros ?; done).
      eapply drains_same_step; [|apply IH, Hend].
      simpl step. unfold step_in_page. by rewrite scan_link.
    + rewrite filter_cons_True by done.
      assert (Hnl : ¬ is_next_link r) by (intros [? _]; done).
      rewrite decide_False in Hend by done.
      eapply drains_yield; [|apply IH, Hend].
      simpl step. unfold step_in_page. by rewrite scan_record.
Qed.

Lemma drains_page (p : Element) (w : World) (tail : list Element)
    (w' : World) :
  (next_page_uri_of p = None ∧ tail = [] ∧ w' = w)
  ∨ (∃ u q w1, next_page_uri_of p = Some u
       ∧ Client.get_resource env client (Some u) w = (Ok q, w1)
       ∧ drains env client (AtPage q) w1 tail w') →
  drains env client (AtPage (Some p)) w (records p ++ tail) w'.
Proof.
  intros Hend. eapply drains_same_step; [|by apply drains_in_page].
  reflexivity.
Qed.

Lemma drains_chain (s : Session) (pages : list (string * Element)) :
  ∀ p w, chain env client s p pages →
    drains env client (AtPage (Some p)) w (all_records p pages)
      (after_fetches client s w pages).
Proof.
  induction pages as [|[u p'] pages IH]; intros p w Hc; simpl in Hc.
  - unfold all_records. simpl. apply drains_page. by left.
  - destruct Hc as (Hn & Hs & Hc). unfold all_records. simpl.
    apply drains_page. right. exists u, (Some p'), (fetched w (get_request client s u)).
    split; [done|]. split; [apply Hs|]. by apply IH.
Qed.

(** The generator is a function of its state: a run to the end is
    unique. *)
Lemma drains_deterministic (g : gen_state) (w : World) (ys1 ys2 : list Element)
    (w1 w2 : World) :
  drains env client g w ys1 w1 → drains env client g w ys2 w2 →
  ys1 = ys2 ∧ w1 = w2.
Proof.
  intros H1. revert ys2 w2.
  induction H1 as [g w g' w' Hs|g w r g' w1 ys w' Hs Hd IH
                   |g w g' w1 ys w' Hs Hd IH]; intros ys2 w2 H2;
    inversion H2; subst;
    match goal with
    | H : step env client g w = _ |- _ => rewrite Hs in H; simplify_eq
    end; try done.
  - edestruct IH as [-> ->]; [done|]. done.
  - by apply IH.
Qed.

(** A finished run is what [list(g)] computes, once the bound on the
    resumptions is large enough. *)
Lemma drains_run (g : gen_state) (w : World) (ys : list Element) (w' : World) :
  drains env client g w ys w' →
  ∃ n, ∀ fuel, (n ≤ fuel)%nat → run fuel env client g w = (Ok ys, w').
Proof.
  induction 1 as [g w g' w' Hs|g w r g' w1 ys w' Hs Hd [n IH]
                  |g w g' w1 ys w' Hs Hd [n IH]].
  - exists 1%nat. intros [|fuel] Hf; [lia|]. simpl. unfold bind. by rewrite Hs.
  - exists (S n). intros [|fuel] Hf; [lia|]. simpl. unfold bind. rewrite Hs.
    by rewrite IH by lia.
  - exists (S n). intros [|fuel] Hf; [lia|]. simpl. unfold bind. rewrite Hs.
    by rewrite IH by lia.
Qed.

Lemma no_link_no_uri (p : Element) :
  ¬ has_next_link p → next_page_uri_of p = None.
Proof.
  intros Hno. unfold next_page_uri_of, next_uri_among.
  destruct (last _) as [c|] eqn:Hl; [|done].
  exfalso. apply Hno. exists c.
  apply last_Some_elem_of, list_elem_of_filter in Hl. tauto.
Qed.

End IteratorFacts.


Section IteratorLinks.
Import Xml Http Query QuerySpec.

Lemma uri_has_link (p : Element) (u : string) :
  next_page_uri_of p = Some u → has_next_link p.
Proof.
  unfold next_page_uri_of, next_uri_among.
  destruct (last _) as [c|] eqn:Hl; [|done]. intros _. exists c.
  apply last_Some_elem_of, list_elem_of_filter in Hl. tauto.
Qed.

End IteratorLinks.

(** C6.  For a result set made of a first page and the pages that the
    next-page links lead to, the generator of [_iterator] yields the
    record children of each page, page after page and in document
    order, fetches exactly the pages named by the links, in order, and
    stops; [list] of it returns that sequence once its bound is large
    enough.  A further page exists only if the page has a next-page
    link, and on a page without one the generator stops after that
    page's records without sending anything. *)
Theorem C6_stream_all (env : Http.Env) (client : Client.t) (s : Http.Session)
    (p : Xml.Element) (pages : list (string * Xml.Element)) (w : Http.World) :
  QuerySpec.chain env client s p pages →
  Query.drains env client (Query.AtPage (Some p)) w
    (QuerySpec.all_records p pages) (QuerySpec.after_fetches client s w pages)
  ∧ (∃ n, ∀ fuel, (n ≤ fuel)%nat →
       Query.run fuel env client (Query.AtPage (Some p)) w
       = (Http.Ok (QuerySpec.all_records p pages),
          QuerySpec.after_fetches client s w pages))
  ∧ (pages ≠ [] → QuerySpec.has_next_link p)
  ∧ (¬ QuerySpec.has_next_link p → pages = [])
  ∧ (∀ q w0 ys w', ¬ QuerySpec.has_next_link q →
       Query.drains env client (Query.AtPage (Some q)) w0 ys w' →
       ys = QuerySpec.records q ∧ w' = w0).
Proof.
  intros Hc.
  pose proof (drains_chain env client s pages p w Hc) as Hd.
  split; [exact Hd|]. split; [by apply drains_run|].
  assert (Hlink : pages ≠ [] → QuerySpec.has_next_link p).
  { destruct pages as [|[u p'] pages']; [done|]. intros _.
    destruct Hc as (Hn & _). by eapply uri_has_link. }
  split; [exact Hlink|]. split.
  - intros Hno. destruct pages; [done|]. exfalso. by apply Hno, Hlink.
  - intros q w0 ys w' Hno Hq.
    assert (Hq' : Query.drains env client (Query.AtPage (Some q)) w0
                    (QuerySpec.records q ++ []) w0).
    { apply drains_page. left. by rewrite no_link_no_uri. }
    rewrite app_nil_r in Hq'.
    by destruct (drains_deterministic env client _ _ _ _ _ _ Hq Hq').
Qed.

Section IteratorRuns.
Import Xml Http Query QuerySpec QueryExamples.

Lemma env_pages_chain :
  chain env_pages client TaskMonitorExamples.session1 page1
    [(page_uri "2", page2); (page_uri "3", page3)].
Proof.
  simpl. repeat split; try reflexivity.
Qed.

End IteratorRuns.

(** C6 on three pages of size two holding five records. *)
Lemma C6_stream_all_witness :
  ∃ n, ∀ fuel, (n ≤ fuel)%nat →
    Query.run fuel QueryExamples.env_pages QueryExamples.client
      (Query.AtPage (Some QueryExamples.page1)) Http.world0
    = (Http.Ok (QuerySpec.all_records QueryExamples.page1
                  [(QueryExamples.page_uri "2", QueryExamples.page2);
                   (QueryExamples.page_uri "3", QueryExamples.page3)]),
       QuerySpec.after_fetches QueryExamples.client
         TaskMonitorExamples.session1 Http.world0
         [(QueryExamples.page_uri "2", QueryExamples.page2);
          (QueryExamples.page_uri "3", QueryExamples.page3)]).
Proof.
  exact (proj1 (proj2 (C6_stream_all QueryExamples.env_pages
                         QueryExamples.client TaskMonitorExamples.session1
                         QueryExamples.page1 _ Http.world0 env_pages_chain))).
Defined.

Section IteratorExamples.
Import Xml Http Query QuerySpec QueryExamples.

Let names (l : list Element) : list (option string) :=
  (λ r, get r "name") <$> l.

Let uris (w : World) : list (option string) := uri <$> trace w.

(** The whole sequence: five records in order, two further pages
    fetched, and an end. *)
Example three_pages_five_records :
  let res := run 10 env_pages client (AtPage (Some page1)) world0 in
  (names <$> Some (all_records page1
                     [(page_uri "2", page2); (page_uri "3", page3)]))
  = Some [Some "vm1"; Some "vm2"; Some "vm3"; Some "vm4"; Some "vm5"]
  ∧ fst res = Ok (all_records page1
                    [(page_uri "2", page2); (page_uri "3", page3)])
  ∧ uris (snd res) = [Some (page_uri "2"); Some (page_uri "3")].
Proof. repeat split. Qed.

(** The sequence is lazy: the two records of the first page come
    without any request, the third record costs the second page. *)
Example first_page_costs_nothing :
  ∃ r1 g1 w1 r2 g2 w2 r3 g3 w3,
    next 5 env_pages client (AtPage (Some page1)) world0
      = (Ok (Some r1, g1), w1)
    ∧ next 5 env_pages client g1 w1 = (Ok (Some r2, g2), w2)
    ∧ next 5 env_pages client g2 w2 = (Ok (Some r3, g3), w3)
    ∧ names [r1; r2; r3] = [Some "vm1"; Some "vm2"; Some "vm3"]
    ∧ uris w1 = [] ∧ uris w2 = []
    ∧ uris w3 = [Some (page_uri "2")].
Proof. do 9 eexists. repeat split. Qed.

End IteratorExamples.


(** ** Single-page execution *)

Section ExecuteFacts.
Import Xml Http Query QuerySpec.

Variable float_lt : string → string → option bool.
Variable quote : string → string.
Variable _find_query_uri : Client.t → Query.t → QueryResultFormat → M (option string).
Variable env : Env.
Variable client : Client.t.
Variable self : Query.t.

Lemma resources_records (p : Element) : resources p = records p.
Proof.
  unfold resources, records, records_among.
  induction (children p) as [|c cs IH]; [done|]. simpl.
  destruct (String.eqb_spec (localname c) "Link") as [Hc|Hc]; simpl.
  - by rewrite filter_cons_False by (intros ?; done).
  - rewrite filter_cons_True by done. by rewrite IH.
Qed.

(** Whether the query address can be built does not depend on the page. *)
Lemma build_uri_any_page (href : string) (p1 p2 : Z) (u1 : string) :
  _build_query_uri float_lt quote self client href p1 (_page_size self)
    (_filter self) (_include_links self) (fields self) = inr u1 →
  ∃ u2, _build_query_uri float_lt quote self client href p2 (_page_size self)
          (_filter self) (_include_links self) (fields self) = inr u2.
Proof.
  unfold _build_query_uri.
  destruct (Py.truthy_str (_filter self)); [|by eauto].
  destruct (is_below_v35 float_lt client) as [e|[|]]; [done|by eauto..].
Qed.

Lemma build_ok (href : string) (p : Z) (u : string) (w : World) :
  _build_query_uri float_lt quote self client href p (_page_size self)
    (_filter self) (_include_links self) (fields self) = inr u →
  build float_lt quote self client href p w = (Ok u, w).
Proof. intros H. unfold build. by rewrite H. Qed.

Lemma build_keeps_world (href : string) (p : Z) (w : World) :
  snd (build float_lt quote self client href p w) = w.
Proof. unfold build, lift. by destruct (_build_query_uri _ _ _ _ _ _ _ _ _ _). Qed.

End ExecuteFacts.

(** C7.  A single-page query with page [p] and page size [s], answered
    by a document whose [total] reads as [t], returns a page result with
    that total and the document's records; it carries a next-page
    address exactly when [p * s < t] and a previous-page address exactly
    when [p > 1], and these are the addresses of pages [p + 1] and
    [p - 1]. *)
Theorem C7_single_page_links
    (float_lt : string → string → option bool) (quote : string → string)
    (_find_query_uri :
       Client.t → Query.t → Query.QueryResultFormat → Http.M (option string))
    (env : Http.Env) (client : Client.t) (self : Query.t)
    (page_size t : Z) (href query_uri total : string) (doc : Xml.Element)
    (w w0 w1 : Http.World) :
  Query._query_all_pages self = false →
  Query._page_size self = Some page_size →
  _find_query_uri client self (Query._query_result_format self) w
    = (Http.Ok (Some href), w0) →
  Query._build_query_uri float_lt quote self client href (Query._page self)
    (Query._page_size self) (Query._filter self) (Query._include_links self)
    (Query.fields self) = inr query_uri →
  Client.get_resource env client (Some query_uri) w0 = (Http.Ok (Some doc), w1) →
  Xml.get doc "total" = Some total →
  Py.int_of_str total = Some t →
  ∃ r, Query.execute float_lt quote _find_query_uri env client self w
       = (Http.Ok (Query.Page r), w1)
    ∧ Query.resultTotal r = t
    ∧ Query.values r = QuerySpec.records doc
    ∧ (is_Some (Query.nextPageUri r) ↔ Query._page self * page_size < t)
    ∧ (is_Some (Query.previousPageUri r) ↔ Query._page self > 1)
    ∧ (∀ u, Query.nextPageUri r = Some u →
         Query._build_query_uri float_lt quote self client href
           (Query._page self + 1) (Query._page_size self) (Query._filter self)
           (Query._include_links self) (Query.fields self) = inr u)
    ∧ (∀ u, Query.previousPageUri r = Some u →
         Query._build_query_uri float_lt quote self client href
           (Query._page self - 1) (Query._page_size self) (Query._filter self)
           (Query._include_links self) (Query.fields self) = inr u).
Proof.
  intros Hall Hps Hfind Hbuild Hget Htotal Hint.
  destruct (build_uri_any_page float_lt quote client self href _
              (Query._page self + 1) _ Hbuild) as [un Hun].
  destruct (build_uri_any_page float_lt quote client self href _
              (Query._page self - 1) _ Hbuild) as [up Hup].
  exists {| Query.resultTotal := t;
            Query.nextPageUri :=
              if Query._page self * page_size <? t then Some un else None;
            Query.previousPageUri :=
              if Query._page self >? 1 then Some up else None;
            Query.values := Query.resources doc |}.
  split; [|split; [done|split; [apply resources_records|]]].
  - unfold Query.execute, Http.bind. rewrite Hfind.
    rewrite (build_ok float_lt quote client self href _ _ w0 Hbuild).
    rewrite Hall, Hget, Htotal, Hint, Hps.
    destruct (Query._page self * page_size <? t);
      destruct (Query._page self >? 1); unfold Http.bind, Http.ret;
      rewrite ?(build_ok float_lt quote client self href _ _ w1 Hun),
              ?(build_ok float_lt quote client self href _ _ w1 Hup);
      reflexivity.
  - simpl. repeat split.
    + destruct (Z.ltb_spec (Query._page self * page_size) t); [done|].
      intros [? [=]].
    + intros Hlt. apply Z.ltb_lt in Hlt. rewrite Hlt. by eexists.
    + destruct (Query._page self >? 1) eqn:E; [|intros [? [=]]].
      intros _. apply Z.gtb_lt in E. lia.
    + intros Hgt. assert (E : (Query._page self >? 1) = true)
        by (apply Z.gtb_lt; lia). rewrite E. by eexists.
    + intros u. destruct (_ <? _); [|done]. by intros [= <-].
    + intros u. destruct (_ >? _); [|done]. by intros [= <-].
Qed.


(** C7 for page 2 of size 25 against 51 results: both addresses are
    there. *)
Lemma C7_single_page_witness :
  ∃ r, fst (QueryRuns.exec (QueryExamples.env_total "51")
              (QueryRuns.query_of false 2 (Some 25)))
       = Http.Ok (Query.Page r)
    ∧ Query.resultTotal r = 51
    ∧ is_Some (Query.nextPageUri r)
    ∧ is_Some (Query.previousPageUri r).
Proof.
  destruct (C7_single_page_links QueryExamples.float_lt QueryExamples.quote
              QueryExamples._find_query_uri (QueryExamples.env_total "51")
              QueryExamples.client (QueryRuns.query_of false 2 (Some 25))
              25 51 QueryRuns.base_href _ "51" _ Http.world0 Http.world0 _
              eq_refl eq_refl eq_refl eq_refl eq_refl eq_refl eq_refl)
    as (r & Hexec & Htotal & _ & Hnext & Hprev & _).
  exists r. split; [|split; [exact Htotal|split]].
  - unfold QueryRuns.exec. by rewrite Hexec.
  - apply Hnext. simpl. lia.
  - apply Hprev. simpl. lia.
Defined.

Section ExecuteRuns.
Import Xml Http Query QueryExamples QueryRuns.

Let page_of (n s : string) : string :=
  base_href +:+ "&page=" +:+ n +:+ "&pageSize=" +:+ s.

(** Page 2 of size 25: a next page only when the total exceeds 50, a
    previous page in both cases. *)
Example page2_total_51 :
  fst (exec (env_total "51") (query_of false 2 (Some 25)))
  = Ok (Page {| resultTotal := 51;
                nextPageUri := Some (page_of "3" "25");
                previousPageUri := Some (page_of "1" "25");
                values := [record "vm"] |}).
Proof. reflexivity. Qed.

Example page2_total_50 :
  fst (exec (env_total "50") (query_of false 2 (Some 25)))
  = Ok (Page {| resultTotal := 50;
                nextPageUri := None;
                previousPageUri := Some (page_of "1" "25");
                values := [record "vm"] |}).
Proof. reflexivity. Qed.

(** Page 1 has no previous page. *)
Example page1_no_previous :
  fst (exec (env_total "100") (query_of false 1 (Some 25)))
  = Ok (Page {| resultTotal := 100;
                nextPageUri := Some (page_of "2" "25");
                previousPageUri := None;
                values := [record "vm"] |}).
Proof. reflexivity. Qed.

(** [__init__] at the inputs used above. *)
Example init_page2 :
  new_query (Some 2) (Some 25) = inr (query_of false 2 (Some 25))
  ∧ new_query None (Some 25) = inr (query_of true 1 (Some 25))
  ∧ new_query (Some 0) (Some 25) = inr (query_of true 1 (Some 25))
  ∧ new_query (Some 2) None = inr (query_of false 2 None).
Proof. repeat split. Qed.

End ExecuteRuns.

Section ExecuteNoPageSize.
Import Xml Http Query QuerySpec.

Variable float_lt : string → string → option bool.
Variable quote : string → string.
Variable _find_query_uri : Client.t → Query.t → QueryResultFormat → M (option string).

(** With an explicit page and no page size, [execute] has no way to
    return. *)
Lemma execute_without_page_size env client self w r w' :
  _query_all_pages self = false →
  _page_size self = None →
  execute float_lt quote _find_query_uri env client self w ≠ (Ok r, w').
Proof.
  intros Hall Hps. unfold execute, bind. rewrite Hall, Hps.
  destruct (_find_query_uri client self (_query_result_format self) w)
    as [[[href|]|e|] w0]; try done.
  destruct (build float_lt quote self client href (_page self) w0)
    as [[u|e|] w1]; try done.
  destruct (Client.get_resource env client (Some u) w1)
    as [[[doc|]|e|] w2]; try done.
  destruct (get doc "total") as [total|]; [|done].
  by destruct (Py.int_of_str total).
Qed.

Lemma init_fields fmt client page page_size il qf ef sa sd fs self :
  __init__ float_lt quote fmt client page page_size il qf ef sa sd fs
    = inr self →
  _query_all_pages self = negb (Py.truthy_int page)
  ∧ _page self = (if Py.truthy_int page then default 1 page else 1)
  ∧ _page_size self = page_size.
Proof.
  unfold __init__. destruct (is_below_v35 float_lt client); [done|].
  by intros [= <-].
Qed.

End ExecuteNoPageSize.

(** C10.  A query constructed with a page that is not zero and no page
    size is a single-page query without a page size: [execute] never
    returns a result for it, and once the address is found, the page is
    fetched and its total is read, it ends in [TypeError] at
    [page * page_size].  A query constructed with page 0 is the query
    constructed without a page: stream-all mode, page number 1, and
    [execute] returns the iterator over the first document fetched. *)
Theorem C10_page_without_page_size
    (float_lt : string → string → option bool) (quote : string → string)
    (_find_query_uri :
       Client.t → Query.t → Query.QueryResultFormat → Http.M (option string))
    (fmt : Query.QueryResultFormat) (client : Client.t) (p : Z)
    (include_links : bool) (qfilter : option string)
    (equality_filter : option (string * string))
    (sort_asc sort_desc fields : option string) (self : Query.t) :
  p ≠ 0 →
  Query.__init__ float_lt quote fmt client (Some p) None include_links qfilter
    equality_filter sort_asc sort_desc fields = inr self →
  (Query._query_all_pages self = false ∧ Query._page self = p
   ∧ Query._page_size self = None)
  ∧ (∀ env w r w',
       Query.execute float_lt quote _find_query_uri env client self w
       ≠ (Http.Ok r, w'))
  ∧ (∀ env w href w0 query_uri doc w1 total t,
       _find_query_uri client self (Query._query_result_format self) w
         = (Http.Ok (Some href), w0) →
       Query._build_query_uri float_lt quote self client href
         (Query._page self) (Query._page_size self) (Query._filter self)
         (Query._include_links self) (Query.fields self) = inr query_uri →
       Client.get_resource env client (Some query_uri) w0
         = (Http.Ok (Some doc), w1) →
       Xml.get doc "total" = Some total →
       Py.int_of_str total = Some t →
       Query.execute float_lt quote _find_query_uri env client self w
       = (Http.Raise Http.TypeError, w1))
  ∧ (∀ page_size,
       Query.__init__ float_lt quote fmt client (Some 0) page_size
         include_links qfilter equality_filter sort_asc sort_desc fields
       = Query.__init__ float_lt quote fmt client None page_size
           include_links qfilter equality_filter sort_asc sort_desc fields)
  ∧ (∀ page_size self0,
       Query.__init__ float_lt quote fmt client (Some 0) page_size
         include_links qfilter equality_filter sort_asc sort_desc fields
       = inr self0 →
       Query._query_all_pages self0 = true ∧ Query._page self0 = 1
       ∧ ∀ env w href w0 query_uri q w1,
           _find_query_uri client self0 (Query._query_result_format self0) w
             = (Http.Ok (Some href), w0) →
           Query._build_query_uri float_lt quote self0 client href 1
             (Query._page_size self0) (Query._filter self0)
             (Query._include_links self0) (Query.fields self0)
           = inr query_uri →
           Client.get_resource env client (Some query_uri) w0
             = (Http.Ok q, w1) →
           Query.execute float_lt quote _find_query_uri env client self0 w
           = (Http.Ok (Query.Iterator (Query.AtPage q)), w1)).
Proof.
  intros Hp Hinit.
  destruct (init_fields float_lt quote _ _ _ _ _ _ _ _ _ _ _ Hinit)
    as (Hall & Hpage & Hps).
  assert (Htruthy : Py.truthy_int (Some p) = true).
  { simpl. by apply negb_true_iff, Z.eqb_neq. }
  rewrite Htruthy in Hall, Hpage. simpl in Hall, Hpage.
  split; [done|]. split; [|split; [|split]].
  - intros env w r w'. by apply execute_without_page_size.
  - intros env w href w0 query_uri doc w1 total t Hfind Hbuild Hget Htot Hint.
    unfold Query.execute, Http.bind. rewrite Hfind.
    rewrite Hpage in Hbuild |- *.
    rewrite (build_ok float_lt quote client self href _ _ w0 Hbuild).
    by rewrite Hall, Hget, Htot, Hint, Hps.
  - reflexivity.
  - intros page_size self0 Hinit0.
    destruct (init_fields float_lt quote _ _ _ _ _ _ _ _ _ _ _ Hinit0)
      as (Hall0 & Hpage0 & Hps0).
    simpl in Hall0, Hpage0. split; [done|]. split; [done|].
    intros env w href w0 query_uri q w1 Hfind Hbuild Hget.
    unfold Query.execute, Http.bind. rewrite Hfind, Hpage0.
    rewrite (build_ok float_lt quote client self0 href _ _ w0 Hbuild).
    by rewrite Hall0, Hget.
Qed.

(** C10 for page 2 without a page size against 60 results. *)
Lemma C10_page_without_page_size_witness :
  QueryExamples.new_query (Some 2) None
    = inr (QueryRuns.query_of false 2 None)
  ∧ fst (QueryRuns.exec (QueryExamples.env_total "60")
           (QueryRuns.query_of false 2 None))
    = Http.Raise Http.TypeError.
Proof.
  split; [reflexivity|].
  destruct (C10_page_without_page_size QueryExamples.float_lt
              QueryExamples.quote QueryExamples._find_query_uri Query.RECORDS
              QueryExamples.client 2 false None None None None None
              (QueryRuns.query_of false 2 None) ltac:(lia) eq_refl)
    as (_ & _ & Hraise & _).
  unfold QueryRuns.exec.
  by rewrite (Hraise (QueryExamples.env_total "60") Http.world0
                QueryRuns.base_href Http.world0 _ _ _ "60" 60
                eq_refl eq_refl eq_refl eq_refl eq_refl).
Defined.


(** ** Version negotiation *)

Section VersionOrder.
Import Versions VersionsSpec.

Lemma ltb_below (a b : StrictVersion) : ltb a b = true ↔ below a b.
Proof.
  destruct a as [[[a1 a2] a3] pa], b as [[[b1 b2] b3] pb].
  unfold ltb, below, triple_ltb, pair_ltb. simpl.
  case_bool_decide as Hv.
  - simplify_eq. destruct pa as [[x1 x2]|], pb as [[y1 y2]|]; simpl;
      rewrite ?orb_true_iff, ?andb_true_iff, ?N.ltb_lt, ?N.eqb_eq;
      split; try done; try lia; try tauto.
  - rewrite !orb_true_iff, !andb_true_iff, !orb_true_iff, !andb_true_iff,
      !N.ltb_lt, !N.eqb_eq.
    split; [tauto|]. intros [?|(-> & -> & -> & _)]; [done|]. by destruct Hv.
Qed.

Lemma ltb_irrefl (a : StrictVersion) : ltb a a = false.
Proof.
  apply not_true_is_false. rewrite ltb_below.
  destruct a as [[[a1 a2] a3] [[x1 x2]|]]; unfold below; simpl; lia.
Qed.

Lemma ltb_asym (a b : StrictVersion) : ltb a b = true → ltb b a = false.
Proof.
  intros H. apply not_true_is_false. rewrite ltb_below in *.
  destruct a as [[[a1 a2] a3] [[x1 x2]|]], b as [[[b1 b2] b3] [[y1 y2]|]];
    unfold below in *; simpl in *; lia.
Qed.

Lemma not_above_trans (a b c : StrictVersion) :
  ltb b a = false → ltb c b = false → ltb c a = false.
Proof.
  intros H1 H2. apply not_true_is_false.
  apply not_true_iff_false in H1, H2. rewrite ltb_below in *.
  destruct a as [[[a1 a2] a3] [[x1 x2]|]], b as [[[b1 b2] b3] [[y1 y2]|]],
    c as [[[c1 c2] c3] [[z1 z2]|]]; unfold below in *; simpl in *; lia.
Qed.

Lemma insert_elem (x z : StrictVersion * string) (l : list (StrictVersion * string)) :
  z ∈ insert x l ↔ z = x ∨ z ∈ l.
Proof.
  induction l as [|y l IH]; simpl.
  - rewrite list_elem_of_singleton, elem_of_nil. tauto.
  - destruct (ltb y.1 x.1); rewrite !elem_of_cons, ?IH; tauto.
Qed.

Lemma sort_keyed_elem (z : StrictVersion * string) (l : list (StrictVersion * string)) :
  z ∈ sort_keyed l ↔ z ∈ l.
Proof.
  unfold sort_keyed. induction l as [|y l IH]; simpl; [done|].
  rewrite insert_elem, IH, elem_of_cons. tauto.
Qed.

Lemma insert_sorted (x : StrictVersion * string) (l : list (StrictVersion * string)) :
  StronglySorted not_above l → StronglySorted not_above (insert x l).
Proof.
  induction l as [|y l IH]; intros Hs; simpl.
  - repeat constructor.
  - apply StronglySorted_cons in Hs as [Hy Hs].
    destruct (ltb y.1 x.1) eqn:E.
    + apply StronglySorted_cons. split; [|by apply IH].
      apply Forall_forall. intros z Hz. apply insert_elem in Hz as [->|Hz].
      * by apply ltb_asym.
      * by eapply Forall_forall in Hy.
    + apply StronglySorted_cons. split.
      * apply Forall_cons. split; [exact E|].
        apply Forall_forall. intros z Hz.
        eapply Forall_forall in Hy; [|exact Hz]. unfold not_above in *.
        by eapply not_above_trans.
      * by apply StronglySorted_cons.
Qed.

Lemma sort_keyed_sorted (l : list (StrictVersion * string)) :
  StronglySorted not_above (sort_keyed l).
Proof.
  unfold sort_keyed. induction l as [|y l IH]; simpl; [constructor|].
  by apply insert_sorted.
Qed.

Lemma with_keys_elem (l : list string) (kl : list (StrictVersion * string)) :
  with_keys l = Some kl →
  snd <$> kl = l ∧ ∀ ks, ks ∈ kl → parse ks.2 = Some ks.1.
Proof.
  unfold with_keys. intros H. apply mapM_Some_1 in H.
  induction H as [|s ks l kl Hs _ [IH1 IH2]].
  { split; [done|]. intros ks Hks. by apply elem_of_nil in Hks. }
  destruct (parse s) as [k|] eqn:Hp; [|done]. injection Hs as <-.
  split; [by rewrite fmap_cons, IH1|]. intros ks Hks.
  apply elem_of_cons in Hks as [->|Hks]; [done|by apply IH2].
Qed.

Lemma find_rev {A} (P : A → bool) (l : list A) (v : A) :
  List.find P (rev l) = Some v →
  ∃ l1 l2, l = l1 ++ v :: l2 ∧ P v = true ∧ ∀ x, x ∈ l2 → P x = false.
Proof.
  induction l as [|x l IH] using rev_ind; [done|].
  rewrite rev_unit. simpl. destruct (P x) eqn:Hx.
  - intros [= ->]. exists l, []. split; [done|]. split; [done|].
    intros y Hy. by apply elem_of_nil in Hy.
  - intros (l1 & l2 & -> & Hv & Hl2)%IH. exists l1, (l2 ++ [x]).
    split; [by rewrite <- app_assoc|]. split; [done|].
    intros y [Hy|Hy%list_elem_of_singleton]%elem_of_app; [by apply Hl2|].
    by subst.
Qed.

Lemma find_rev_none {A} (P : A → bool) (l : list A) :
  List.find P (rev l) = None ↔ ∀ x, x ∈ l → P x = false.
Proof.
  split.
  - intros H x Hx. eapply find_none; [exact H|].
    apply in_rev. rewrite rev_involutive. by apply list_elem_of_In.
  - intros H. destruct (List.find P (rev l)) as [v|] eqn:E; [|done].
    apply find_some in E as [Hin Hp].
    apply in_rev, list_elem_of_In, H in Hin. congruence.
Qed.

(** The selection among the sorted active versions: a version that is
    both active and current, with no active and current version
    numerically above it; none exactly when no active version is
    current. *)
Lemma select_highest_mutual (active sorted : list string) :
  sort_versions active = Some sorted →
  match select sorted with
  | Some v =>
      v ∈ active ∧ v ∈ API_CURRENT_VERSIONS
      ∧ ∀ w kv kw, w ∈ active → w ∈ API_CURRENT_VERSIONS →
          parse v = Some kv → parse w = Some kw → ¬ below kv kw
  | None => ∀ w, w ∈ active → w ∉ API_CURRENT_VERSIONS
  end.
Proof.
  unfold sort_versions. destruct (with_keys active) as [kl|] eqn:Hk; [|done].
  intros [= <-]. apply with_keys_elem in Hk as [Hsnd Hparse].
  assert (Hmem : ∀ w, w ∈ snd <$> sort_keyed kl ↔ w ∈ active).
  { intros w. rewrite <- Hsnd, !list_elem_of_fmap.
    split; intros (ks & -> & Hks); exists ks; split; try done;
      by apply sort_keyed_elem. }
  unfold select. destruct (List.find _ _) as [v|] eqn:Hf.
  - apply find_rev in Hf as (l1 & l2 & Hl & Hv & Hl2).
    apply bool_decide_eq_true in Hv.
    assert (Hva : v ∈ active).
    { apply Hmem. rewrite Hl, elem_of_app, elem_of_cons. tauto. }
    split; [done|]. split; [done|].
    intros w kv kw Hw Hwc Hpv Hpw Hbelow.
    apply fmap_app_inv in Hl as (k1 & k2' & Hk1 & Hk2 & Hsorted).
    destruct k2' as [|[kv' v'] k2]; [done|].
    rewrite fmap_cons in Hk2. simpl in Hk2.
    assert (v' = v) as -> by congruence.
    assert (Hl2' : k2.*2 = l2) by congruence. clear Hk2.
    pose proof (sort_keyed_sorted kl) as Hss. rewrite Hsorted in Hss.
    assert (Hin_kl : ∀ ks, ks ∈ k1 ++ (kv', v) :: k2 → parse ks.2 = Some ks.1).
    { intros ks Hks. apply Hparse, sort_keyed_elem. by rewrite Hsorted. }
    assert (Hkv : kv' = kv).
    { assert (Hin : (kv', v) ∈ k1 ++ (kv', v) :: k2).
      { rewrite elem_of_app, elem_of_cons. tauto. }
      apply Hin_kl in Hin. simpl in Hin. congruence. }
    subst kv'.
    apply Hmem in Hw. rewrite Hsorted, fmap_app, fmap_cons in Hw. simpl in Hw.
    apply elem_of_app in Hw as [Hw|Hw].
    + apply list_elem_of_fmap in Hw as ([kw' w'] & -> & Hin).
      assert (kw' = kw).
      { assert (Hin' : (kw', w') ∈ k1 ++ (kv, v) :: k2).
        { rewrite elem_of_app. tauto. }
        apply Hin_kl in Hin'. simpl in *. congruence. }
      subst kw'.
      pose proof (StronglySorted_app_1_elem_of _ _ _ _ _ Hss Hin
                    (list_elem_of_here _ _)) as Hle.
      unfold not_above in Hle. simpl in Hle.
      apply ltb_below in Hbelow. congruence.
    + apply elem_of_cons in Hw as [->|Hw].
      * assert (kw = kv) as -> by congruence.
        apply ltb_below in Hbelow. by rewrite ltb_irrefl in Hbelow.
      * rewrite Hl2' in Hw. apply Hl2 in Hw.
        apply bool_decide_eq_false in Hw. done.
  - intros w Hw. apply Hmem in Hw.
    eapply find_rev_none in Hf; [|exact Hw].
    by apply bool_decide_eq_false in Hf.
Qed.

End VersionOrder.


Section NegotiationFacts.
Import Xml Http Versions VersionsSpec.

(** An entry without a child element called [deprecated] is kept,
    whatever its [deprecated] attribute says. *)
Lemma kept_without_child (info : Element) :
  child info "deprecated" = None → kept info = true.
Proof. intros H. unfold kept, hasattr. by rewrite H. Qed.

Lemma current_truthy (v : string) :
  v ∈ API_CURRENT_VERSIONS → Py.truthy_str (Some v) = true.
Proof.
  unfold API_CURRENT_VERSIONS. rewrite !elem_of_cons, elem_of_nil.
  intros H. repeat destruct H as [->|H]; done.
Qed.

(** With no version pinned and the version list read, the negotiated
    version is the selected one, and a missing selection is the
    failure. *)
Lemma negotiate_selects (env : Env) (self : Client.t) (w : World)
    (r : Response) (sorted : list string) :
  Client._api_version self = None →
  server env (trace w) (versions_request self) = inl r →
  read_versions r = inr sorted →
  fst (_negotiate_api_version env self w)
  = match select sorted with
    | Some v => Ok (set_api_version self (Some v))
    | None =>
        Raise (VcdException
                 ("Unable to find a supported API version in available server versions: "
                  +:+ Py.repr_list sorted))
    end.
Proof.
  intros Hv Hr Hread.
  unfold _negotiate_api_version, get_supported_versions_list,
    Client._do_request_prim, bind, send. rewrite Hv. simpl.
  fold (versions_request self). rewrite Hr, Hread. simpl.
  destruct (select sorted) as [v|] eqn:Hsel; simpl.
  - assert (Hc : v ∈ API_CURRENT_VERSIONS).
    { unfold select in Hsel. apply find_some in Hsel as [_ Hsel].
      by apply bool_decide_eq_true in Hsel. }
    pose proof (current_truthy v Hc) as Ht. by destruct v.
  - by rewrite Hv.
Qed.

(** A pinned version is used unchanged, and nothing is asked. *)
Lemma negotiate_pinned (env : Env) (self : Client.t) (w : World) (v : string) :
  Client._api_version self = Some v → Py.truthy_str (Some v) = true →
  _negotiate_api_version env self w = (Ok self, w).
Proof.
  intros Hv Ht. unfold _negotiate_api_version. by rewrite Hv, Ht.
Qed.

End NegotiationFacts.

(** C3, at an input on which the code departs from it: the server
    lists 36.0 with [deprecated="true"] and 35.0 with
    [deprecated="false"].  The entry for 36.0 passes the filter (the
    filter asks for a child element called [deprecated], and the flag is
    an attribute), and 36.0 is negotiated; without that entry the
    negotiated version is 35.0. *)
Theorem C3_negotiation_keeps_deprecated :
  VersionsSpec.marked_deprecated (VersionsExamples.version_info "true" "36.0")
  ∧ Versions.kept (VersionsExamples.version_info "true" "36.0") = true
  ∧ (∃ c, fst (Versions._negotiate_api_version
                 (VersionsExamples.env_versions
                    VersionsExamples.infos_36_deprecated)
                 VersionsExamples.fresh_client Http.world0) = Http.Ok c
          ∧ Client._api_version c = Some "36.0")
  ∧ (∃ c, fst (Versions._negotiate_api_version
                 (VersionsExamples.env_versions
                    [ VersionsExamples.version_info "false" "9.5";
                      VersionsExamples.version_info "false" "35.0";
                      VersionsExamples.version_info "false" "10.1" ])
                 VersionsExamples.fresh_client Http.world0) = Http.Ok c
          ∧ Client._api_version c = Some "35.0").
Proof.
  split; [reflexivity|]. split; [reflexivity|].
  split; eexists; split; reflexivity.
Qed.

Section NegotiationRuns.
Import Xml Http Versions VersionsExamples.

Let negotiated (infos : list Element) : outcome (option string) :=
  match fst (_negotiate_api_version (env_versions infos) fresh_client world0) with
  | Ok c => Ok (Client._api_version c)
  | Raise e => Raise e
  | OutOfFuel => OutOfFuel
  end.

(** Versions are ordered as numbers: 10.1 is above 9.5, and 5.10 above 5.9. *)
Example sort_is_numeric :
  sort_versions ["10.1"; "9.5"; "36.0"; "5.10"; "5.9"]
  = Some ["5.9"; "5.10"; "9.5"; "10.1"; "36.0"].
Proof. reflexivity. Qed.

(** The highest version known to both sides is chosen, not a lower one. *)
Example negotiates_highest_mutual :
  negotiated [ version_info "false" "33.0"; version_info "false" "37.0";
               version_info "false" "34.0"; version_info "false" "5.5" ]
  = Ok (Some "34.0").
Proof. reflexivity. Qed.

(** No version in common: the negotiation fails. *)
Example negotiation_fails_without_common_version :
  negotiated [ version_info "false" "27.0"; version_info "false" "37.0" ]
  = Raise (VcdException
             "Unable to find a supported API version in available server versions: ['27.0', '37.0']").
Proof. reflexivity. Qed.

End NegotiationRuns.


(** * Part III: further properties of the code *)

(** ** Base addresses *)

Section BaseUriFacts.
Import BaseUri.

Lemma prefix_nil (s : string) : String.prefix "" s = true.
Proof. by destruct s. Qed.

Lemma prefix_app_l (p s t : string) :
  String.prefix p s = true → String.prefix p (s +:+ t) = true.
Proof.
  revert s. induction p as [|a p IH]; intros s.
  { intros _. apply prefix_nil. }
  destruct s as [|b s]; simpl; [done|].
  destruct (ascii_dec a b); [apply IH|done].
Qed.

(** A prefix test on [s ++ t] that succeeds is decided inside [s] when
    the first byte of [t] does not occur in the prefix. *)
Lemma prefix_app_foreign (p s : string) (c : ascii) (t : string) :
  c ∉ list_ascii_of_string p →
  String.prefix p (s +:+ String c t) = true → String.prefix p s = true.
Proof.
  revert s. induction p as [|a p IH]; intros s Hc.
  { intros _. apply prefix_nil. }
  simpl in Hc. apply not_elem_of_cons in Hc as [Hca Hc].
  destruct s as [|b s]; simpl.
  - destruct (ascii_dec a c); [congruence|done].
  - destruct (ascii_dec a b); [by apply IH|done].
Qed.

Lemma prefix_snoc (p s : string) (c : ascii) :
  String.prefix p (s +:+ String c EmptyString) = true →
  String.prefix p s = true ∨ p = s +:+ String c EmptyString.
Proof.
  revert s. induction p as [|a p IH]; intros s.
  { left. apply prefix_nil. }
  destruct s as [|b s]; simpl.
  - destruct (ascii_dec a c) as [->|]; [|done].
    destruct p; [by right|done].
  - destruct (ascii_dec a b) as [->|]; [|done].
    intros [H| ->]%IH; [by left|by right].
Qed.

Lemma last_char_snoc (s : string) (c : ascii) :
  last_char (s +:+ String c EmptyString) = Some c.
Proof.
  induction s as [|a s IH]; [done|]. simpl.
  destruct (s +:+ String c EmptyString) eqn:E; [by destruct s|done].
Qed.

Lemma has_scheme_segment (s : string) (is_cloudapi : bool) :
  has_scheme (s +:+ segment is_cloudapi) = has_scheme s.
Proof.
  unfold has_scheme.
  assert (H : ∀ p, "a"%char ∉ list_ascii_of_string p →
                   "c"%char ∉ list_ascii_of_string p →
                   String.prefix p (s +:+ segment is_cloudapi)
                   = String.prefix p s).
  { intros p Ha Hc. destruct (String.prefix p s) eqn:E.
    - by apply prefix_app_l.
    - apply not_true_is_false. intros H. apply not_true_iff_false in E.
      apply E. destruct is_cloudapi; simpl in H;
        by eapply prefix_app_foreign in H. }
  rewrite !H; [done|..]; simpl;
    rewrite !not_elem_of_cons, elem_of_nil; repeat split;
    first [discriminate | tauto].
Qed.

Lemma has_scheme_with_slash (uri : string) :
  has_scheme (with_slash uri) = has_scheme uri.
Proof.
  unfold with_slash. case_bool_decide as Hl; [done|].
  unfold has_scheme.
  assert (H : ∀ p, last_char p = Some "/"%char →
                   (∀ s, p = s +:+ "/" → last_char s = Some "/"%char) →
                   String.prefix p (uri +:+ "/") = String.prefix p uri).
  { intros p Hp Hs. destruct (String.prefix p uri) eqn:E.
    - by apply prefix_app_l.
    - apply not_true_is_false. intros [H|H]%prefix_snoc; [congruence|].
      by apply Hs in H. }
  rewrite !H; try done;
    intros s Hs;
    destruct s as [|a1 [|a2 [|a3 [|a4 [|a5 [|a6 [|a7 [|a8 s]]]]]]]];
    cbv [String.append] in Hs; simplify_eq; try done;
    match goal with s : string |- _ => by destruct s end.
Qed.

End BaseUriFacts.

(** X1.  [_prep_base_uri] leaves the empty address empty.  Any other
    address gets one slash at its end unless it has one, then the [api]
    or [cloudapi] segment, and [https://] in front exactly when the
    address given starts with neither [https://] nor [http://]. *)
Theorem X1_prep_base_uri (is_cloudapi : bool) :
  BaseUri._prep_base_uri "" is_cloudapi = ""
  ∧ ∀ uri, uri ≠ "" →
      BaseUri._prep_base_uri uri is_cloudapi
      = (if BaseUri.has_scheme uri then "" else "https://")
          +:+ BaseUri.with_slash uri +:+ BaseUri.segment is_cloudapi.
Proof.
  split; [done|]. intros uri Huri. unfold BaseUri._prep_base_uri.
  destruct uri as [|c uri]; [done|].
  replace (0 <? String.length (String c uri))%nat with true by done.
  set (u := String c uri).
  assert (Hr : (if is_cloudapi
                then (if negb (bool_decide (BaseUri.last_char u = Some "/"%char))
                      then u +:+ "/" else u) +:+ "cloudapi"
                else (if negb (bool_decide (BaseUri.last_char u = Some "/"%char))
                      then u +:+ "/" else u) +:+ "api")
               = BaseUri.with_slash u +:+ BaseUri.segment is_cloudapi).
  { unfold BaseUri.with_slash, BaseUri.segment.
    by destruct is_cloudapi, (bool_decide _). }
  rewrite Hr.
  pose proof (has_scheme_segment (BaseUri.with_slash u) is_cloudapi) as Hs.
  rewrite has_scheme_with_slash in Hs. unfold BaseUri.has_scheme in Hs at 1.
  rewrite <- negb_orb, Hs. by destruct (BaseUri.has_scheme u).
Qed.

Section BaseUriRuns.
Import BaseUri.

Example bare_host_defaults_to_https :
  _prep_base_uri "vcd.example" false = "https://vcd.example/api"
  ∧ _prep_base_uri "vcd.example/" true = "https://vcd.example/cloudapi".
Proof. split; reflexivity. Qed.

Example given_scheme_is_kept :
  _prep_base_uri "http://vcd.example" false = "http://vcd.example/api".
Proof. reflexivity. Qed.

(** The scheme is recognised as written, in lower case. *)
Example upper_case_scheme_is_not_a_scheme :
  _prep_base_uri "HTTPS://vcd.example" false = "https://HTTPS://vcd.example/api".
Proof. reflexivity. Qed.

End BaseUriRuns.


(** ** Task monitor: the ways out of the loop *)

Section PollFacts.
Import Xml Http TaskMonitor TaskPolls.

Variable env : Env.
Variable client : Client.t.
Variable s : Session.
Variable task_href : option string.
Variables timeout poll_frequency : Z.
Variables fail_on expected : list TaskStatus.
Variable callback : option callback_t.

Hypothesis Hsession : Client._session client = Some s.
Hypothesis Hcallback : callback_returns callback.

Let req := poll_request client s task_href.




End PollFacts.


Section PollEnds.
Import Xml Http TaskMonitor TaskPolls.


End PollEnds.






(** ** Unique results *)

Section NextFacts.
Import Xml Http Query QuerySpec.

Variable env : Env.
Variable client : Client.t.

Lemma next_more_fuel (fuel : nat) :
  ∀ g w x w', next fuel env client g w = (Ok x, w') →
    next (S fuel) env client g w = (Ok x, w').
Proof.
  induction fuel as [|fuel IH]; intros g w x w' H; [done|].
  change (next (S (S fuel)) env client g w)
    with ((x <~ step env client g ;>
           match x with
           | (Yield r, g') => ret (Some r, g')
           | (Stop, g') => ret (None, g')
           | (Turn, g') => next (S fuel) env client g'
           end) w).
  simpl in H. unfold bind in *.
  destruct (step env client g w) as [[[[r| |] g'] |e|] w1]; try done.
  by apply IH.
Qed.

Lemma next_fuel_le (n fuel : nat) g w x w' :
  (n ≤ fuel)%nat → next n env client g w = (Ok x, w') →
  next fuel env client g w = (Ok x, w').
Proof.
  induction 1 as [|fuel Hle IH]; [done|].
  intros H. by apply next_more_fuel, IH.
Qed.

(** [next] on a generator whose run to the end yields [ys]: the first
    of [ys] and a generator for the rest, or the end. *)
Lemma drains_next (g : gen_state) (w : World) (ys : list Element) (w' : World) :
  drains env client g w ys w' →
  ∃ n, ∀ fuel, (n ≤ fuel)%nat →
    match ys with
    | [] => ∃ g', next fuel env client g w = (Ok (None, g'), w')
    | r :: ys' =>
        ∃ g' w1, next fuel env client g w = (Ok (Some r, g'), w1)
                 ∧ drains env client g' w1 ys' w'
    end.
Proof.
  induction 1 as [g w g' w' Hs|g w r g' w1 ys w' Hs Hd _
                  |g w g' w1 ys w' Hs Hd [n IH]].
  - exists 1%nat. intros [|fuel] Hf; [lia|]. exists g'.
    simpl. unfold bind. by rewrite Hs.
  - exists 1%nat. intros [|fuel] Hf; [lia|]. exists g', w1.
    split; [|done]. simpl. unfold bind. by rewrite Hs.
  - exists (S n). intros [|fuel] Hf; [lia|].
    specialize (IH fuel ltac:(lia)).
    simpl. unfold bind. rewrite Hs. exact IH.
Qed.

End NextFacts.

(** X4.  On a stream-all query whose first page is [p], followed by the
    pages [pages], [find_unique] decides by the records of the whole
    result: none gives [MissingRecordException], exactly one gives that
    record, two or more give [MultipleRecordsException]. *)
Theorem X4_find_unique
    (float_lt : string → string → option bool) (quote : string → string)
    (_find_query_uri :
       Client.t → Query.t → Query.QueryResultFormat → Http.M (option string))
    (env : Http.Env) (client : Client.t) (s : Http.Session) (self : Query.t)
    (w w1 : Http.World) (p : Xml.Element) (pages : list (string * Xml.Element)) :
  Query.execute float_lt quote _find_query_uri env client self w
    = (Http.Ok (Query.Iterator (Query.AtPage (Some p))), w1) →
  QuerySpec.chain env client s p pages →
  ∃ n, ∀ fuel, (n ≤ fuel)%nat →
    fst (QueryUnique.find_unique float_lt quote _find_query_uri fuel env client
           self w)
    = match QuerySpec.all_records p pages with
      | [] => Http.Raise Exn.MissingRecordException
      | [item] => Http.Ok item
      | _ :: _ :: _ => Http.Raise Exn.MultipleRecordsException
      end.
Proof.
  intros Hexec Hchain.
  pose proof (drains_chain env client s pages p w1 Hchain) as Hd.
  destruct (drains_next env client _ _ _ _ Hd) as [n1 H1].
  destruct (QuerySpec.all_records p pages) as [|item rest] eqn:Hrec.
  - exists n1. intros fuel Hf. destruct (H1 fuel Hf) as [g' Hn].
    unfold QueryUnique.find_unique, Http.bind. by rewrite Hexec, Hn.
  - destruct (H1 n1 (Nat.le_refl _)) as (g' & w2 & Hn & Hd').
    destruct (drains_next env client _ _ _ _ Hd') as [n2 H2].
    exists (n1 `max` n2)%nat. intros fuel Hf.
    pose proof (next_fuel_le env client n1 fuel _ _ _ _ ltac:(lia) Hn) as Hn1.
    specialize (H2 fuel ltac:(lia)).
    unfold QueryUnique.find_unique, Http.bind. rewrite Hexec, Hn1.
    destruct rest as [|r2 rest].
    + destruct H2 as [g2 ->]. done.
    + destruct H2 as (g2 & w3 & -> & _). done.
Qed.

Section FindUniqueSinglePage.
Import Xml Http Query.

(** [find_unique] after an [execute] that returned a page. *)
Lemma find_unique_on_page float_lt quote find fuel env client self w r w1 :
  execute float_lt quote find env client self w = (Ok (Page r), w1) →
  QueryUnique.find_unique float_lt quote find fuel env client self w
  = (Raise TypeError, w1).
Proof.
  intros H. unfold QueryUnique.find_unique, bind. by rewrite H.
Qed.

End FindUniqueSinglePage.


(** X4 on the three pages of five records: more than one record. *)
Lemma X4_find_unique_witness :
  ∃ n, ∀ fuel, (n ≤ fuel)%nat →
    fst (QueryUnique.find_unique QueryExamples.float_lt QueryExamples.quote
           QueryExamples._find_query_uri fuel QueryExamples.env_pages
           QueryExamples.client (QueryRuns.query_of true 1 (Some 2))
           Http.world0)
    = Http.Raise Exn.MultipleRecordsException.
Proof.
  exact (X4_find_unique QueryExamples.float_lt QueryExamples.quote
           QueryExamples._find_query_uri QueryExamples.env_pages
           QueryExamples.client TaskMonitorExamples.session1
           (QueryRuns.query_of true 1 (Some 2)) Http.world0 _
           QueryExamples.page1 _ eq_refl env_pages_chain).
Defined.

Section FindUniqueRuns.
Import Xml Http Query QueryExamples QueryRuns.

Let unique (env : Env) (q : Query.t) : outcome Element :=
  fst (QueryUnique.find_unique float_lt quote _find_query_uri 5 env client q
         world0).

(** One record in the whole result: it is returned. *)
Example find_unique_single : unique (env_total "1") (query_of true 1 None)
                             = Ok (record "vm").
Proof. reflexivity. Qed.

(** With an explicit page the result of [execute] is no iterator. *)
Example find_unique_single_page_mode :
  unique (env_total "1") (query_of false 1 (Some 25)) = Raise TypeError.
Proof. reflexivity. Qed.

End FindUniqueRuns.


(** ** Streamed download *)

Section DownloadFacts.
Import Xml Http Download.

Lemma append_cons (x : ascii) (a b : string) :
  String x a +:+ b = String x (a +:+ b).
Proof. reflexivity. Qed.

Lemma string_length_app (a b : string) :
  String.length (a +:+ b) = (String.length a + String.length b)%nat.
Proof.
  induction a as [|x a IH]; [done|]. rewrite append_cons. simpl. by rewrite IH.
Qed.

Lemma string_app_assoc (a b c : string) : (a +:+ b) +:+ c = a +:+ (b +:+ c).
Proof.
  induction a as [|x a IH]; [done|]. rewrite !append_cons. by rewrite IH.
Qed.

Lemma string_app_nil_r (a : string) : a +:+ "" = a.
Proof.
  induction a as [|x a IH]; [done|]. rewrite append_cons. by rewrite IH.
Qed.

Lemma write_chunks_app (pre rest : list string) (size : Z)
    (callback : option progress_t) (st : Progress) :
  write_chunks (pre ++ rest) size callback st
  = match write_chunks pre size callback st with
    | (None, st') => write_chunks rest size callback st'
    | stopped => stopped
    end.
Proof.
  revert st. induction pre as [|c pre IH]; intros st; [done|].
  cbn [app write_chunks]. destruct (Py.truthy_str (Some c)); [|apply IH].
  destruct callback as [cb|]; [|apply IH].
  destruct (cb _ size); [done|apply IH].
Qed.

(** The loop while the callback does not raise. *)
Lemma write_chunks_spec (chunks : list string) (size : Z)
    (callback : option progress_t) (st : Progress) :
  (∀ cb n, callback = Some cb →
           n ∈ running_totals (written_chunks chunks) (bytes_written st) →
           cb n size = None) →
  write_chunks chunks size callback st
  = (None,
     {| file := file st +:+ joined chunks;
        calls := calls st ++
                 match callback with
                 | Some _ =>
                     (λ n, (n, size)) <$>
                       running_totals (written_chunks chunks) (bytes_written st)
                 | None => []
                 end;
        bytes_written :=
          bytes_written st + Z.of_nat (String.length (joined chunks)) |}).
Proof.
  revert st. induction chunks as [|c chunks IH]; intros st Hcb.
  - cbn [write_chunks joined foldr String.length written_chunks filter
         list_filter running_totals fmap list_fmap].
    rewrite string_app_nil_r, Z.add_0_r.
    destruct st, callback; cbn; by rewrite app_nil_r.
  - cbn [write_chunks joined foldr]. fold (joined chunks).
    revert Hcb. unfold written_chunks. destruct c as [|x c].
    + rewrite filter_cons_False by (intros H; by apply H). intros Hcb.
      simpl Py.truthy_str. cbv iota. by rewrite IH.
    + rewrite filter_cons_True by done. cbn [running_totals]. intros Hcb.
      simpl Py.truthy_str. cbv iota zeta.
      destruct callback as [cb|] eqn:Ecb.
      * rewrite (Hcb cb _ eq_refl) by (apply elem_of_cons; by left).
        rewrite IH.
        2:{ intros cb' n Hcb' Hn. apply (Hcb cb' n Hcb').
            apply elem_of_cons. by right. }
        cbn [file calls bytes_written].
        rewrite string_app_assoc, string_length_app, <- app_assoc.
        cbn [running_totals fmap list_fmap app].
        f_equal. f_equal. lia.
      * rewrite IH by done. cbn [file calls bytes_written].
        rewrite string_app_assoc, string_length_app. f_equal. f_equal. lia.
Qed.

End DownloadFacts.

(** X5.  [download_from_uri] sends one GET.  An answer other than 200
    raises the exception of its status code before the file is opened.
    On a 200, with a callback that does not raise on the totals it is
    given, the file holds the chunks put end to end, the returned count
    is its length, and the callback was called once per non-empty chunk
    with the bytes written so far and the announced size. *)
Theorem X5_download_from_uri (iter_content : Http.Response → Z → list string)
    (env : Http.Env) (self : Client.t) (s : Http.Session) (uri : option string)
    (chunk_size size : Z) (callback : option Download.progress_t)
    (w : Http.World) (r : Http.Response) :
  Client._session self = Some s →
  Http.server env (Http.trace w) (Download.download_request s uri) = inl r →
  (∀ cb n, callback = Some cb →
     n ∈ Download.running_totals
           (Download.written_chunks (iter_content r chunk_size)) 0 →
     cb n size = None) →
  Download.download_from_uri iter_content env self uri chunk_size size
    callback w
  = (if Http.status_code r =? 200
     then
       let content := Download.joined (iter_content r chunk_size) in
       (Http.Ok (Z.of_nat (String.length content)),
        Some {| Download.file := content;
                Download.calls :=
                  match callback with
                  | Some _ =>
                      (λ n, (n, size)) <$>
                        Download.running_totals
                          (Download.written_chunks (iter_content r chunk_size))
                          0
                  | None => []
                  end;
                Download.bytes_written := Z.of_nat (String.length content) |})
     else
       (Http.Raise (Client._response_code_to_exception (Http.status_code r) None
                 (Http.WholeResponse r)), None),
     UploadSpec.sent (Download.download_request s uri) w).
Proof.
  intros Hs Hr Hcb. unfold Download.download_from_uri, Http.send.
  rewrite Hs, Hr. cbn [Http.status_code].
  destruct (Http.status_code r =? 200); cbn [negb]; [|done].
  by rewrite write_chunks_spec.
Qed.


Lemma X5_download_from_uri_witness :
  fst (DownloadRuns.download (Some DownloadExamples.never_raises))
  = (Http.Ok 9,
     Some {| Download.file := "abcdefghi";
             Download.calls := [(3, 9); (8, 9); (9, 9)];
             Download.bytes_written := 9 |}).
Proof.
  unfold DownloadRuns.download.
  rewrite (X5_download_from_uri DownloadExamples.iter_content
             DownloadRuns.env_ok TaskMonitorExamples.client1
             TaskMonitorExamples.session1 _ 1048576 9
             (Some DownloadExamples.never_raises) Http.world0
             {| Http.status_code := 200; Http.resp_headers := ∅;
                Http.content := None |} eq_refl eq_refl).
  - reflexivity.
  - intros cb n Hcb _. injection Hcb as <-. reflexivity.
Defined.

(** X6.  When the callback raises, the download stops with its
    exception: the file holds the chunks up to and including the one
    just reported, and nothing of what follows. *)
Theorem X6_download_callback_raises
    (iter_content : Http.Response → Z → list string)
    (env : Http.Env) (self : Client.t) (s : Http.Session)
    (uri : option string) (chunk_size size : Z) (cb : Download.progress_t)
    (w : Http.World) (r : Http.Response) (pre rest : list string)
    (chunk : string) (e : Http.exn) :
  Client._session self = Some s →
  Http.server env (Http.trace w) (Download.download_request s uri) = inl r →
  Http.status_code r = 200 →
  iter_content r chunk_size = pre ++ chunk :: rest →
  chunk ≠ "" →
  (∀ n, n ∈ Download.running_totals (Download.written_chunks pre) 0 →
        cb n size = None) →
  cb (Z.of_nat (String.length (Download.joined pre +:+ chunk))) size
  = Some e →
  Download.download_from_uri iter_content env self uri chunk_size size
    (Some cb) w
  = (Http.Raise e,
     Some {| Download.file := Download.joined pre +:+ chunk;
             Download.calls :=
               ((λ n, (n, size)) <$>
                  Download.running_totals (Download.written_chunks pre) 0)
               ++ [(Z.of_nat (String.length (Download.joined pre +:+ chunk)),
                    size)];
             Download.bytes_written :=
               Z.of_nat (String.length (Download.joined pre +:+ chunk)) |},
     UploadSpec.sent (Download.download_request s uri) w).
Proof.
  intros Hs Hr Hsc Hchunks Hne Hpre He.
  unfold Download.download_from_uri, Http.send.
  rewrite Hs, Hr, Hsc, Hchunks. cbn [Z.eqb Pos.eqb negb].
  rewrite write_chunks_app, write_chunks_spec.
  2:{ intros cb' n Hcb'. injection Hcb' as <-. apply Hpre. }
  cbn [Download.file Download.calls Download.bytes_written app
       Download.write_chunks].
  destruct chunk as [|x chunk]; [done|]. simpl Py.truthy_str. cbv iota zeta.
  cbn [Download.file Download.calls Download.bytes_written].
  rewrite string_length_app in He |- *.
  replace (0 + Z.of_nat (String.length (Download.joined pre))
           + Z.of_nat (String.length (String x chunk)))
    with (Z.of_nat (String.length (Download.joined pre)
                    + String.length (String x chunk))) by lia.
  by rewrite He.
Qed.

Lemma X6_download_callback_raises_witness :
  fst (DownloadRuns.download (Some (DownloadRuns.stops_after 5)))
  = (Http.Raise (Http.OtherException "Cancelled"),
     Some {| Download.file := "abcdefgh";
             Download.calls := [(3, 9); (8, 9)];
             Download.bytes_written := 8 |}).
Proof.
  unfold DownloadRuns.download.
  rewrite (X6_download_callback_raises DownloadExamples.iter_content
             DownloadRuns.env_ok TaskMonitorExamples.client1
             TaskMonitorExamples.session1 _ 1048576 9
             (DownloadRuns.stops_after 5) Http.world0
             {| Http.status_code := 200; Http.resp_headers := ∅;
                Http.content := None |} ["abc"; ""] ["i"] "defgh"
             (Http.OtherException "Cancelled")
             eq_refl eq_refl eq_refl eq_refl).
  - reflexivity.
  - discriminate.
  - intros n Hn. apply list_elem_of_singleton in Hn as ->. reflexivity.
  - reflexivity.
Defined.


(** ** The list of server versions *)

Section VersionListFacts.
Import Xml Http Versions VersionsSpec VersionsListSpec.

Lemma collect_active_texts (infos : list Element) (acc l : list string) :
  collect_active infos acc = inr l → l = acc ++ active_texts infos.
Proof.
  unfold active_texts. revert acc.
  induction infos as [|info infos IH]; intros acc; simpl.
  - intros [= <-]. by rewrite app_nil_r.
  - destruct (kept info) eqn:Hk.
    + rewrite filter_cons_True by done.
      unfold text_of at 1. cbn [omap list_omap].
      destruct (version_text info) as [e|v]; [done|].
      intros H. apply IH in H as ->. by rewrite <- app_assoc.
    + rewrite filter_cons_False by (by rewrite Hk). apply IH.
Qed.

Lemma insert_perm (x : StrictVersion * string)
    (l : list (StrictVersion * string)) : insert x l ≡ₚ x :: l.
Proof.
  induction l as [|y l IH]; simpl; [done|].
  destruct (ltb y.1 x.1); [|done]. rewrite IH. apply Permutation_swap.
Qed.

Lemma sort_keyed_perm (l : list (StrictVersion * string)) : sort_keyed l ≡ₚ l.
Proof.
  induction l as [|x l IH]; simpl; [done|]. by rewrite insert_perm, IH.
Qed.

(** What [l.sort(key=StrictVersion)] leaves behind: the same strings in
    numerical order. *)
Lemma sort_versions_spec (active sorted : list string) :
  sort_versions active = Some sorted →
  sorted ≡ₚ active ∧ StronglySorted ascending sorted.
Proof.
  unfold sort_versions. destruct (with_keys active) as [kl|] eqn:Hk; [|done].
  intros [= <-]. apply with_keys_elem in Hk as [Hsnd Hparse]. split.
  - rewrite <- Hsnd. by rewrite sort_keyed_perm.
  - pose proof (sort_keyed_sorted kl) as Hss.
    assert (Hall : Forall (λ ks, parse ks.2 = Some ks.1) (sort_keyed kl)).
    { apply Forall_forall. intros ks Hks. by apply Hparse, sort_keyed_elem. }
    induction Hss as [|ks l Hss IH Hfa]; [constructor|].
    apply Forall_cons in Hall as [Hks Hall]. rewrite fmap_cons.
    constructor; [by apply IH|].
    apply Forall_fmap, Forall_forall. intros ks' Hin. simpl.
    exists ks.1, ks'.1. split; [done|]. split.
    { by apply (proj1 (Forall_forall _ _) Hall). }
    apply (proj1 (Forall_forall _ _) Hfa) in Hin. unfold not_above in Hin.
    intros Hb. apply ltb_below in Hb. congruence.
Qed.

(** The one request and the closing of the session, on every way out. *)
Lemma supported_versions_world (env : Env) (self : Client.t) (w : World) :
  snd (get_supported_versions_list env self w) = probed self w.
Proof.
  unfold get_supported_versions_list, Client._do_request_prim, bind, send,
    probed, close.
  cbn [snd]. fold (versions_request self).
  destruct (server env (trace w) (versions_request self)) as [r|e]; [|done].
  by destruct (read_versions r).
Qed.

Lemma supported_versions_result (env : Env) (self : Client.t) (w : World) :
  fst (get_supported_versions_list env self w)
  = match server env (trace w) (versions_request self) with
    | inl r => match read_versions r with
               | inl e => Raise e
               | inr l => Ok l
               end
    | inr e => Raise (OtherException e)
    end.
Proof.
  unfold get_supported_versions_list, Client._do_request_prim, bind, send.
  fold (versions_request self).
  destruct (server env (trace w) (versions_request self)) as [r|e]; [|done].
  by destruct (read_versions r).
Qed.

Lemma supported_versions_inv (env : Env) (self : Client.t) (w : World)
    (l : list string) :
  fst (get_supported_versions_list env self w) = Ok l →
  ∃ infos, serves_versions env self w infos
           ∧ sort_versions (active_texts infos) = Some l.
Proof.
  rewrite supported_versions_result.
  destruct (server env (trace w) (versions_request self)) as [r|e] eqn:Hr;
    [|done].
  unfold read_versions.
  destruct (status_code r =? 200) eqn:Hsc; [|done]. cbn [negb].
  destruct (content r) as [versions|] eqn:Hc; [|done].
  destruct (child_seq versions "VersionInfo") as [infos|] eqn:Hi; [|done].
  destruct (collect_active infos []) as [e|active] eqn:Ha; [done|].
  apply collect_active_texts in Ha. simpl in Ha. subst active.
  destruct (sort_versions (active_texts infos)) as [sorted|] eqn:Hsort;
    [|done].
  intros [= <-]. exists infos. split; [|done].
  exists r, versions. repeat split; try done. lia.
Qed.

Lemma sorted_last_highest (l : list string) (v : string) :
  StronglySorted ascending l → last l = Some v → highest_in v l.
Proof.
  intros Hss Hlast u ku kv Hu Hpu Hpv.
  destruct (last_Some l v) as [[l' ->] _]; [done|].
  apply elem_of_app in Hu as [Hu|Hu].
  - pose proof (StronglySorted_app_1_elem_of _ _ _ _ _ Hss Hu
                  (list_elem_of_here _ _)) as (ku' & kv' & H1 & H2 & H3).
    congruence.
  - apply list_elem_of_singleton in Hu as ->.
    assert (ku = kv) as -> by congruence.
    intros Hb. apply ltb_below in Hb. by rewrite ltb_irrefl in Hb.
Qed.

End VersionListFacts.

(** X7.  [get_supported_versions_list] sends exactly one request, on a
    session of its own that carries no credentials, and closes that
    session whether it returns or raises.  A status other than 200 gives
    [VcdException].  A returned list holds the version texts of the
    entries the loop keeps, each as often as the server lists it, in
    numerical order. *)
Theorem X7_get_supported_versions_list
    (env : Http.Env) (self : Client.t) (w : Http.World) :
  snd (Versions.get_supported_versions_list env self w)
  = VersionsListSpec.probed self w
  ∧ (∀ r, Http.server env (Http.trace w) (Versions.versions_request self)
          = inl r →
          Http.status_code r ≠ 200 →
          fst (Versions.get_supported_versions_list env self w)
          = Http.Raise
              (Http.VcdException "Unable to get supported API versions."))
  ∧ (∀ l, fst (Versions.get_supported_versions_list env self w) = Http.Ok l →
          ∃ infos, VersionsListSpec.serves_versions env self w infos
                   ∧ l ≡ₚ VersionsListSpec.active_texts infos
                   ∧ StronglySorted VersionsListSpec.ascending l).
Proof.
  split; [apply supported_versions_world|]. split.
  - intros r Hr Hsc. rewrite supported_versions_result, Hr.
    unfold Versions.read_versions.
    by destruct (Z.eqb_spec (Http.status_code r) 200).
  - intros l Hl. apply supported_versions_inv in Hl as (infos & Hserves & Hs).
    exists infos. split; [done|]. by apply sort_versions_spec.
Qed.


Section NegotiationEnds.
Import Xml Http Versions VersionsSpec VersionsListSpec.

Lemma supported_versions_run (env : Env) (self : Client.t) (w : World)
    (l : list string) :
  fst (get_supported_versions_list env self w) = Ok l →
  get_supported_versions_list env self w = (Ok l, probed self w).
Proof.
  intros H. rewrite <- H, <- (supported_versions_world env self w).
  by destruct (get_supported_versions_list env self w).
Qed.

Lemma api_version_set (self : Client.t) (v : option string) :
  Client._api_version (set_api_version self v) = v.
Proof. reflexivity. Qed.

End NegotiationEnds.

(** X8.  A client without an API version of its own negotiates with one
    request.  It takes a version that the server lists (among the kept
    entries) and that [API_CURRENT_VERSIONS] holds, and none that both
    hold is numerically above it; it raises [VcdException] exactly when
    the two have no version in common, with a message that ends in the
    list of the server's versions as Python writes it. *)
Theorem X8_negotiate_api_version
    (env : Http.Env) (self : Client.t) (w : Http.World) (l : list string) :
  Py.truthy_str (Client._api_version self) = false →
  fst (Versions.get_supported_versions_list env self w) = Http.Ok l →
  snd (Versions._negotiate_api_version env self w)
  = VersionsListSpec.probed self w
  ∧ match fst (Versions._negotiate_api_version env self w) with
    | Http.Ok c =>
        ∃ v, c = Versions.set_api_version self (Some v)
             ∧ v ∈ l ∧ v ∈ Versions.API_CURRENT_VERSIONS
             ∧ VersionsListSpec.highest_in v
                 (filter (λ u, u ∈ Versions.API_CURRENT_VERSIONS) l)
    | Http.Raise e =>
        e = Http.VcdException
              ("Unable to find a supported API version in available server versions: "
               +:+ Py.repr_list l)
        ∧ ∀ u, u ∈ l → u ∉ Versions.API_CURRENT_VERSIONS
    | Http.OutOfFuel => False
    end.
Proof.
  intros Hv Hl.
  destruct (supported_versions_inv env self w l Hl) as (infos & _ & Hsort).
  pose proof (sort_versions_spec _ _ Hsort) as [Hperm _].
  pose proof (select_highest_mutual _ _ Hsort) as Hsel.
  unfold Versions._negotiate_api_version, Http.bind.
  rewrite Hv. cbn [negb].
  rewrite (supported_versions_run env self w l Hl).
  destruct (Versions.select l) as [v|] eqn:Esel.
  - destruct Hsel as (Hin & Hcur & Hmax).
    rewrite api_version_set, (current_truthy v Hcur). cbn [negb].
    split; [done|]. cbn [fst]. exists v. split; [done|].
    split; [by rewrite Hperm|]. split; [done|].
    intros u ku kv Hu Hpu Hpv. apply list_elem_of_filter in Hu as [Hucur Hu].
    apply (Hmax u kv ku); [by rewrite <- Hperm|done..].
  - rewrite Hv. cbn [negb]. split; [done|]. cbn [fst]. split; [done|].
    intros u Hu. apply Hsel. by rewrite <- Hperm.
Qed.

(** X9.  [set_highest_supported_version] takes the numerically highest
    version among the entries the server lists and the loop keeps,
    whether or not [API_CURRENT_VERSIONS] holds it; when no entry is
    kept it ends in [IndexError]. *)
Theorem X9_set_highest_supported_version
    (env : Http.Env) (self : Client.t) (w : Http.World) (l : list string) :
  fst (Versions.get_supported_versions_list env self w) = Http.Ok l →
  snd (VersionsHighest.set_highest_supported_version env self w)
  = VersionsListSpec.probed self w
  ∧ match fst (VersionsHighest.set_highest_supported_version env self w) with
    | Http.Ok (c, v) =>
        c = Versions.set_api_version self (Some v)
        ∧ v ∈ l ∧ VersionsListSpec.highest_in v l
    | Http.Raise e => e = Exn.IndexError ∧ l = []
    | Http.OutOfFuel => False
    end.
Proof.
  intros Hl.
  destruct (supported_versions_inv env self w l Hl) as (infos & _ & Hsort).
  pose proof (sort_versions_spec _ _ Hsort) as [_ Hss].
  unfold VersionsHighest.set_highest_supported_version, Http.bind.
  rewrite (supported_versions_run env self w l Hl).
  destruct (last l) as [v|] eqn:Hlast.
  - split; [done|]. cbn [fst]. split; [done|]. split.
    + apply last_Some in Hlast as [l' ->]. rewrite elem_of_app.
      right. apply list_elem_of_here.
    + by apply sorted_last_highest.
  - split; [done|]. cbn [fst]. split; [done|]. by apply last_None.
Qed.


Lemma X8_negotiate_api_version_witness :
  snd (Versions._negotiate_api_version
         (VersionsExamples.env_versions
            [ VersionsExamples.version_info "false" "33.0";
              VersionsExamples.version_info "false" "37.0";
              VersionsExamples.version_info "false" "34.0";
              VersionsExamples.version_info "false" "5.5" ])
         VersionsExamples.fresh_client Http.world0)
  = VersionsListSpec.probed VersionsExamples.fresh_client Http.world0
  ∧ match fst (Versions._negotiate_api_version
                 (VersionsExamples.env_versions
                    [ VersionsExamples.version_info "false" "33.0";
                      VersionsExamples.version_info "false" "37.0";
                      VersionsExamples.version_info "false" "34.0";
                      VersionsExamples.version_info "false" "5.5" ])
                 VersionsExamples.fresh_client Http.world0) with
    | Http.Ok c =>
        ∃ v, c = Versions.set_api_version VersionsExamples.fresh_client (Some v)
             ∧ v ∈ ["5.5"; "33.0"; "34.0"; "37.0"]
             ∧ v ∈ Versions.API_CURRENT_VERSIONS
             ∧ VersionsListSpec.highest_in v
                 (filter (λ u, u ∈ Versions.API_CURRENT_VERSIONS)
                    ["5.5"; "33.0"; "34.0"; "37.0"])
    | Http.Raise e =>
        e = Http.VcdException
              ("Unable to find a supported API version in available server versions: "
               +:+ Py.repr_list ["5.5"; "33.0"; "34.0"; "37.0"])
        ∧ ∀ u, u ∈ ["5.5"; "33.0"; "34.0"; "37.0"]
               → u ∉ Versions.API_CURRENT_VERSIONS
    | Http.OutOfFuel => False
    end.
Proof.
  apply (X8_negotiate_api_version _ VersionsExamples.fresh_client Http.world0
           ["5.5"; "33.0"; "34.0"; "37.0"]); reflexivity.
Defined.

Lemma X9_set_highest_supported_version_witness :
  snd (VersionsHighest.set_highest_supported_version
         (VersionsExamples.env_versions
            [ VersionsExamples.version_info "false" "33.0";
              VersionsExamples.version_info "false" "37.0";
              VersionsExamples.version_info "false" "34.0";
              VersionsExamples.version_info "false" "5.5" ])
         VersionsExamples.fresh_client Http.world0)
  = VersionsListSpec.probed VersionsExamples.fresh_client Http.world0
  ∧ match fst (VersionsHighest.set_highest_supported_version
                 (VersionsExamples.env_versions
                    [ VersionsExamples.version_info "false" "33.0";
                      VersionsExamples.version_info "false" "37.0";
                      VersionsExamples.version_info "false" "34.0";
                      VersionsExamples.version_info "false" "5.5" ])
                 VersionsExamples.fresh_client Http.world0) with
    | Http.Ok (c, v) =>
        c = Versions.set_api_version VersionsExamples.fresh_client (Some v)
        ∧ v ∈ ["5.5"; "33.0"; "34.0"; "37.0"]
        ∧ VersionsListSpec.highest_in v ["5.5"; "33.0"; "34.0"; "37.0"]
    | Http.Raise e => e = Exn.IndexError
                      ∧ ["5.5"; "33.0"; "34.0"; "37.0"] = []
    | Http.OutOfFuel => False
    end.
Proof.
  apply (X9_set_highest_supported_version _ VersionsExamples.fresh_client
           Http.world0 ["5.5"; "33.0"; "34.0"; "37.0"]); reflexivity.
Defined.

Section HighestRuns.
Import Xml Http Versions VersionsExamples VersionsHighest.

(** The highest listed version is taken although pyvcloud does not
    know it. *)
Example highest_is_beyond_current :
  snd <$> match fst (set_highest_supported_version
                       (env_versions [ version_info "false" "33.0";
                                       version_info "false" "37.0";
                                       version_info "false" "34.0" ])
                       fresh_client world0) with
          | Ok cv => Some cv
          | _ => None
          end
  = Some "37.0".
Proof. reflexivity. Qed.

(** A server that lists no version at all. *)
Example highest_of_nothing :
  fst (set_highest_supported_version (env_versions []) fresh_client world0)
  = Raise AttributeError.
Proof. reflexivity. Qed.

End HighestRuns.


(** ** Operations on linked resources *)

Section LinkedFacts.
Import Xml Http LinkedResources.

(** No request ends in [MissingLinkException]. *)
Lemma do_request_no_missing_link (env : Env) (self : Client.t)
    (method : string) (uri : option string) (contents : option Element)
    (media_type : option string) (extra_headers : option (gmap string string))
    (w : World) :
  except_missing_link
    (Client._do_request env self method uri contents media_type extra_headers)
    w
  = Client._do_request env self method uri contents media_type extra_headers w.
Proof.
  unfold except_missing_link, Client._do_request, Client._do_request_prim,
    bind, send, raise, ret.
  destruct (Client._session self) as [s|]; [|done].
  destruct (server env _ _) as [r|e]; [|done].
  by destruct (_ || _).
Qed.

Lemma find_link_cases (resource : Element) (rel : RelationType.t)
    (media_type : option string) :
  Links.find_link resource rel media_type true None
  = match filter (Links.link_matches rel media_type None)
            (Links.link_elements resource) with
    | [] => inl (MissingLinkException (get resource "href") rel media_type)
    | [link] => inr (Some (Links.Link_of link))
    | _ :: _ :: _ =>
        inl (MultipleLinksException (get resource "href") rel media_type)
    end.
Proof.
  unfold Links.find_link. rewrite get_links_filter.
  by destruct (filter _ _) as [|e [|e' l]].
Qed.

Lemma linked_on_link (resource : Element) (rel : RelationType.t)
    (media_type : option string) (op : option string → M (option Element)) :
  (∀ href w, except_missing_link (op href) w = op href w) →
  ∀ w, except_missing_link
         (href <~ link_href resource rel media_type ;> op href) w
       = on_link resource rel media_type op w.
Proof.
  intros Hop w. unfold on_link, link_href. rewrite find_link_cases.
  destruct (filter _ _) as [|e [|e' l]]; [done| |done].
  unfold except_missing_link, bind, ret. cbn [Links.href Links.Link_of].
  specialize (Hop (get e "href") w). unfold except_missing_link in Hop.
  exact Hop.
Qed.

End LinkedFacts.

(** X10.  The operations on a linked resource send nothing unless
    exactly one link of the resource has the relation and the media
    type: with no such link they raise
    [OperationNotSupportedException], with several
    [MultipleLinksException].  With exactly one they are the plain
    operation on the address of that link; the DELETE goes to the
    address followed by [?force=False&recursive=False]. *)
Theorem X10_linked_resource_operations
    (env : Http.Env) (self : Client.t) (resource : Xml.Element)
    (rel : RelationType.t) (media_type : option string)
    (contents : option Xml.Element)
    (extra_headers : option (gmap string string)) (w : Http.World) :
  LinkedResources.get_linked_resource env self resource rel media_type
    extra_headers w
  = LinkedResources.on_link resource rel media_type
      (λ href, Client._do_request env self "GET" href None None extra_headers)
      w
  ∧ LinkedResources.post_linked_resource env self resource rel media_type
      contents extra_headers w
    = LinkedResources.on_link resource rel media_type
        (λ href, Client._do_request env self "POST" href contents media_type
                   extra_headers) w
  ∧ LinkedResources.delete_linked_resource env self resource rel media_type
      extra_headers w
    = LinkedResources.on_link resource rel media_type
        (λ href, Client._do_request env self "DELETE"
                   (Some (default "None" href
                          +:+ "?force=False&recursive=False"))
                   None None extra_headers) w.
Proof.
  unfold LinkedResources.get_linked_resource,
    LinkedResources.post_linked_resource,
    LinkedResources.delete_linked_resource.
  repeat split.
  - apply (linked_on_link resource rel media_type
             (λ href, LinkedResources.get_resource env self href
                        extra_headers)).
    intros. apply do_request_no_missing_link.
  - apply (linked_on_link resource rel media_type
             (λ href, LinkedResources.post_resource env self href contents
                        media_type extra_headers)).
    intros. apply do_request_no_missing_link.
  - apply (linked_on_link resource rel media_type
             (λ href, LinkedResources.delete_resource env self href false
                        false extra_headers)).
    intros. apply do_request_no_missing_link.
Qed.


(** ** Well-known endpoints *)

Section EndpointFacts.
Import Xml Http WellKnownEndpoint SessionEndpoints.

Lemma get_links_member_nil (resource : Element) (rel : RelationType.t) :
  get_links_member resource rel = [].
Proof.
  unfold get_links_member.
  induction (findall resource VCLOUD_NS "Link") as [|l ls IH]; [done|].
  simpl. by destruct (Py.eq_ostr _ _).
Qed.

(** What [find_link] finds for an endpoint. *)
Lemma find_link_endpoint (session : Element) (endpoint : t) :
  find_link session (value endpoint).1 (value endpoint).2
  = match links_of session endpoint with
    | [] => inr None
    | [link] => inr (Some (Links.Link_of link))
    | _ :: _ :: _ =>
        inl (MultipleLinksException (get session "href") (value endpoint).1
               (match (value endpoint).2 with
                | Text s => Some s
                | Member _ => None
                end))
    end.
Proof.
  unfold links_of, find_link.
  destruct (value endpoint) as [rel [s|m]]; cbn [fst snd].
  - unfold Links.find_link. rewrite get_links_filter.
    by destruct (filter _ _) as [|e [|e' l]].
  - by rewrite get_links_member_nil.
Qed.

Lemma lookup_app_fresh (e k : t) (v : option string)
    (smap : list (t * option string)) :
  lookup e smap = None →
  lookup e (smap ++ [(k, v)]) = if bool_decide (k = e) then Some v else None.
Proof.
  unfold lookup. induction smap as [|[k' v'] smap IH]; simpl.
  - intros _. by destruct (bool_decide (k = e)).
  - destruct (bool_decide (k' = e)); [done|]. apply IH.
Qed.

Lemma lookup_app_found (e k : t) (v : option string) (x : option string)
    (smap : list (t * option string)) :
  lookup e smap = Some x → lookup e (smap ++ [(k, v)]) = Some x.
Proof.
  unfold lookup. induction smap as [|[k' v'] smap IH]; simpl; [done|].
  destruct (bool_decide (k' = e)); [done|]. apply IH.
Qed.

(** The loop over any list of distinct endpoints. *)
Lemma endpoints_loop_spec (session : Element) (endpoints : list t) :
  NoDup endpoints →
  ∀ smap0, (∀ e, e ∈ endpoints → lookup e smap0 = None) →
  match endpoints_loop session endpoints smap0 with
  | inr smap =>
      ∀ e, if bool_decide (e ∈ endpoints)
           then match links_of session e with
                | [] => lookup e smap = None
                | [link] => lookup e smap = Some (get link "href")
                | _ :: _ :: _ => False
                end
           else lookup e smap = lookup e smap0
  | inl x =>
      ∃ e rel s, e ∈ endpoints ∧ value e = (rel, Text s)
                 ∧ (1 < length (links_of session e))%nat
                 ∧ x = MultipleLinksException (get session "href") rel (Some s)
  end.
Proof.
  induction 1 as [|k ks Hk Hnd IH]; intros smap0 Hfresh.
  - cbn [endpoints_loop]. intros e.
    case_bool_decide as Hin; [by apply elem_of_nil in Hin|done].
  - cbn [endpoints_loop].
    pose proof (find_link_endpoint session k) as Hfind.
    destruct (value k) as [rel m] eqn:Hval. cbn [fst snd] in Hfind.
    rewrite Hfind.
    destruct (links_of session k) as [|link [|link' rest]] eqn:Hlinks.
    + specialize (IH smap0).
      destruct (endpoints_loop session ks smap0) as [x|smap].
      * destruct IH as (e & rel' & s & He & ?).
        { intros e He. apply Hfresh. by right. }
        exists e, rel', s. split; [by right|done].
      * intros e. specialize (IH ltac:(intros e' He'; apply Hfresh; by right) e).
        destruct (decide (e = k)) as [->|Hne].
        -- rewrite bool_decide_eq_true_2 by left.
           rewrite Hlinks. rewrite bool_decide_eq_false_2 in IH by done.
           rewrite IH. apply Hfresh. left.
        -- destruct (decide (e ∈ ks)) as [Hin|Hin].
           ++ rewrite bool_decide_eq_true_2 by (by right).
              by rewrite bool_decide_eq_true_2 in IH.
           ++ rewrite bool_decide_eq_false_2
                by (by intros [?|?]%elem_of_cons).
              by rewrite bool_decide_eq_false_2 in IH.
    + specialize (IH (smap0 ++ [(k, Links.href (Links.Link_of link))])).
      assert (Hfresh' : ∀ e, e ∈ ks →
                lookup e (smap0 ++ [(k, Links.href (Links.Link_of link))])
                = None).
      { intros e He. rewrite lookup_app_fresh by (apply Hfresh; by right).
        rewrite bool_decide_eq_false_2; [done|]. by intros ->. }
      destruct (endpoints_loop session ks _) as [x|smap].
      * destruct (IH Hfresh') as (e & rel' & s & He & ?).
        exists e, rel', s. split; [by right|done].
      * intros e. specialize (IH Hfresh' e).
        destruct (decide (e = k)) as [->|Hne].
        -- rewrite bool_decide_eq_true_2 by left.
           rewrite Hlinks. rewrite bool_decide_eq_false_2 in IH by done.
           rewrite IH, lookup_app_fresh by (apply Hfresh; left).
           by rewrite bool_decide_eq_true_2.
        -- destruct (decide (e ∈ ks)) as [Hin|Hin].
           ++ rewrite bool_decide_eq_true_2 by (by right).
              by rewrite bool_decide_eq_true_2 in IH.
           ++ rewrite bool_decide_eq_false_2
                by (by intros [?|?]%elem_of_cons).
              rewrite bool_decide_eq_false_2 in IH by done.
              rewrite IH.
              destruct (lookup e smap0) as [x|] eqn:Hl.
              ** by apply lookup_app_found.
              ** rewrite lookup_app_fresh by done.
                 by rewrite bool_decide_eq_false_2.
    + destruct m as [s|m].
      * exists k, rel, s. split; [left|]. split; [done|].
        rewrite Hlinks. split; [simpl; lia|done].
      * unfold links_of in Hlinks. by rewrite Hval in Hlinks.
Qed.

Lemma members_nodup : NoDup members.
Proof. apply (bool_decide_unpack _). by vm_compute. Qed.

Lemma members_all (e : t) : e ∈ members.
Proof. destruct e; apply (bool_decide_unpack _); by vm_compute. Qed.

End EndpointFacts.

(** X11.  [_get_session_endpoints] gives an endpoint a key exactly when
    one link of the session has its relation and media type, with the
    address of that link for value; it raises [MultipleLinksException]
    as soon as an endpoint has several such links.  [OPENAPI] never
    gets a key: its media type is the member [EntityType.JSON], which is
    equal to no attribute value. *)
Theorem X11_get_session_endpoints (session : Xml.Element) :
  match SessionEndpoints._get_session_endpoints session with
  | inr smap =>
      (∀ e, match SessionEndpoints.links_of session e with
            | [] => SessionEndpoints.lookup e smap = None
            | [link] =>
                SessionEndpoints.lookup e smap = Some (Xml.get link "href")
            | _ :: _ :: _ => False
            end)
      ∧ SessionEndpoints.lookup WellKnownEndpoint.OPENAPI smap = None
  | inl x =>
      ∃ e rel s,
        WellKnownEndpoint.value e = (rel, WellKnownEndpoint.Text s)
        ∧ (1 < length (SessionEndpoints.links_of session e))%nat
        ∧ x = Http.MultipleLinksException (Xml.get session "href") rel (Some s)
  end.
Proof.
  unfold SessionEndpoints._get_session_endpoints.
  pose proof (endpoints_loop_spec session WellKnownEndpoint.members
                members_nodup [] (λ _ _, eq_refl)) as H.
  destruct (SessionEndpoints.endpoints_loop session _ []) as [x|smap].
  - destruct H as (e & rel & s & _ & H). by exists e, rel, s.
  - assert (Hall : ∀ e, match SessionEndpoints.links_of session e with
                        | [] => SessionEndpoints.lookup e smap = None
                        | [link] => SessionEndpoints.lookup e smap
                                    = Some (Xml.get link "href")
                        | _ :: _ :: _ => False
                        end).
    { intros e. specialize (H e).
      by rewrite bool_decide_eq_true_2 in H by apply members_all. }
    split; [done|]. apply (Hall WellKnownEndpoint.OPENAPI).
Qed.


Section EndpointRuns.
Import Xml Http WellKnownEndpoint SessionEndpoints SessionEndpointsExamples.

(** The link to the open API is among the links of the session and
    still gets no key. *)
Example openapi_link_is_not_found :
  _get_session_endpoints session_doc
  = inr [(LOGGED_IN_ORG, Some "https://vcd.example/api/org/1")].
Proof. reflexivity. Qed.

End EndpointRuns.

(** ** Organisations *)

Section OrgFacts.
Import Xml Http Orgs OrgsSpec.

(** One GET of a client that is logged in. *)
Lemma get_resource_run (env : Env) (self : Client.t) (s : Session)
    (uri : option string) (w : World) :
  Client._session self = Some s →
  Client.get_resource env self uri w
  = (match server env (trace w) (TaskPolls.poll_request self s uri) with
     | inl r =>
         if Auth.is_success (status_code r)
         then Ok (Client._objectify_response r)
         else Raise (Client._response_code_to_exception (status_code r)
                       (Client._get_response_request_id r)
                       (ObjectifiedBody (Client._objectify_response r)))
     | inr e => Raise (OtherException e)
     end,
     UploadSpec.sent (TaskPolls.poll_request self s uri) w).
Proof.
  intros Hs.
  unfold Client.get_resource, Client._do_request, Client._do_request_prim,
    bind, send, ret, raise.
  rewrite Hs. fold (TaskPolls.poll_request self s uri).
  destruct (server env (trace w) _) as [r|e]; [|done].
  unfold Auth.is_success. by destruct (_ || _).
Qed.

Lemma get_resource_answers (env : Env) (self : Client.t) (s : Session)
    (uri : option string) (w : World) (body : option Element) :
  Client._session self = Some s →
  answers env w (TaskPolls.poll_request self s uri) body →
  Client.get_resource env self uri w
  = (Ok body, UploadSpec.sent (TaskPolls.poll_request self s uri) w).
Proof.
  intros Hs (r & Hr & Hok & Hbody).
  by rewrite (get_resource_run env self s uri w Hs), Hr, Hok, Hbody.
Qed.

Lemma org_elements_entries (doc : option Element) :
  org_elements doc = inr (entries doc).
Proof.
  destruct doc as [d|]; [|done]. unfold org_elements, entries, hasattr,
    child_seq, child, findall.
  induction (children d) as [|c cs IH]; [done|].
  simpl. destruct (has_tag (ns d) "Org" c); [done|]. apply IH.
Qed.

(** The loop of [get_org_by_name] is a search for the first entry of
    that name, when every entry before it has a name. *)
Lemma find_org_first (lower : string → string) (orgs : list Element)
    (org_name : string) :
  Forall (λ org, is_Some (get org "name")) orgs →
  find_org lower orgs org_name
  = inr (List.find (called lower org_name) orgs).
Proof.
  induction 1 as [|org orgs [n Hn] _ IH]; [done|].
  cbn [find_org List.find]. unfold called at 1. rewrite Hn.
  cbn [fmap option_fmap option_map].
  destruct (String.eqb_spec (lower n) (lower org_name)) as [Heq|Hne].
  - rewrite bool_decide_eq_true_2; [done|]. by rewrite Heq.
  - rewrite bool_decide_eq_false_2; [done|]. by intros [= ?].
Qed.

End OrgFacts.

(** X12.  [get_org_by_name] reads the list of organisations with one
    request and then fetches one organisation only: the first entry
    whose name and the name asked for are equal once both are lowered
    by [str.lower], whatever that does to them.  When no entry has such
    a name it raises [EntityNotFoundException] after that one
    request. *)
Theorem X12_get_org_by_name
    (lower : string → string)
    (env : Http.Env) (self : Client.t) (s : Http.Session) (uri : string)
    (org_name : string) (w : Http.World) (doc : option Xml.Element) :
  Client._session self = Some s →
  Orgs._get_wk_endpoint self WellKnownEndpoint.ORG_LIST = inr uri →
  OrgsSpec.answers env w (TaskPolls.poll_request self s (Some uri)) doc →
  Forall (λ org, is_Some (Xml.get org "name")) (OrgsSpec.entries doc) →
  Orgs.get_org_by_name lower env self org_name w
  = match List.find (OrgsSpec.called lower org_name)
            (OrgsSpec.entries doc) with
    | Some org =>
        Client.get_resource env self (Xml.get org "href")
          (UploadSpec.sent (TaskPolls.poll_request self s (Some uri)) w)
    | None =>
        (Http.Raise (Orgs.not_found org_name),
         UploadSpec.sent (TaskPolls.poll_request self s (Some uri)) w)
    end.
Proof.
  intros Hs Huri Hdoc Hnames.
  unfold Orgs.get_org_by_name, Orgs._get_wk_resource, Http.bind.
  rewrite Huri, (get_resource_answers env self s (Some uri) w doc Hs Hdoc).
  rewrite org_elements_entries, (find_org_first lower _ _ Hnames).
  by destruct (List.find _ _).
Qed.

Lemma X12_get_org_by_name_witness :
  fst (Orgs.get_org_by_name Py.lower OrgsExamples.env_orgs
         OrgsExamples.client "acme" Http.world0)
  = Http.Ok (Some (OrgsExamples.org_doc "Acme")).
Proof.
  rewrite (X12_get_org_by_name Py.lower OrgsExamples.env_orgs
             OrgsExamples.client
             TaskMonitorExamples.session1 "https://vcd.example/api/org"
             "acme" Http.world0 (Some OrgsExamples.org_list_doc)
             eq_refl eq_refl).
  - reflexivity.
  - eexists. repeat split; reflexivity.
  - repeat constructor; by eexists.
Defined.


Section OrgListFacts.
Import Xml Http Orgs OrgsSpec.

Lemma answers_same_trace (env : Env) (w w' : World) (req : Request)
    (body : option Element) :
  trace w = trace w' → answers env w req body → answers env w' req body.
Proof. unfold answers. by intros ->. Qed.

Lemma sent_all_cons (req : Request) (reqs : list Request) (w : World) :
  sent_all reqs (UploadSpec.sent req w) = sent_all (req :: reqs) w.
Proof. unfold sent_all, UploadSpec.sent. simpl. by rewrite <- app_assoc. Qed.

(** A GET ends in a value exactly when the server answers with a
    success. *)
Lemma get_resource_cases (env : Env) (self : Client.t) (s : Session)
    (uri : option string) (w : World) :
  Client._session self = Some s →
  snd (Client.get_resource env self uri w)
  = UploadSpec.sent (TaskPolls.poll_request self s uri) w
  ∧ match fst (Client.get_resource env self uri w) with
    | Ok body => answers env w (TaskPolls.poll_request self s uri) body
    | Raise _ =>
        ¬ ∃ body, answers env w (TaskPolls.poll_request self s uri) body
    | OutOfFuel => False
    end.
Proof.
  intros Hs. rewrite (get_resource_run env self s uri w Hs). cbn [fst snd].
  split; [done|]. unfold answers.
  destruct (server env (trace w) _) as [r|e].
  - destruct (Auth.is_success (status_code r)) eqn:Hok.
    + by exists r.
    + intros (body & r' & [= <-] & Hok' & _). congruence.
  - by intros (body & r' & [=] & _).
Qed.

(** The loop of [get_org_list] from any point on. *)
Lemma fetch_orgs_spec (env : Env) (self : Client.t) (s : Session) :
  Client._session self = Some s →
  ∀ (orgs : list Element) (result : list (option Element)) (w : World),
  ∃ k, (k ≤ length orgs)%nat
    ∧ snd (fetch_orgs env self orgs result w)
      = sent_all (org_request self s <$> take k orgs) w
    ∧ match fst (fetch_orgs env self orgs result w) with
      | Ok out =>
          k = length orgs
          ∧ ∃ fetched,
              out = result ++ fetched
              ∧ length fetched = length orgs
              ∧ ∀ i org, orgs !! i = Some org →
                  ∃ body,
                    answers env
                      (sent_all (org_request self s <$> take i orgs) w)
                      (org_request self s org) body
                    ∧ fetched !! i = Some body
      | Raise _ =>
          ∃ j org, k = S j ∧ orgs !! j = Some org
            ∧ ¬ ∃ body,
                  answers env
                    (sent_all (org_request self s <$> take j orgs) w)
                    (org_request self s org) body
      | OutOfFuel => False
      end.
Proof.
  intros Hs orgs. induction orgs as [|org orgs IH]; intros result w.
  - exists 0%nat. split; [done|]. split.
    + unfold sent_all. simpl. rewrite app_nil_r. by destruct w.
    + simpl. split; [done|]. exists []. rewrite app_nil_r.
      split; [done|]. split; [done|].
      intros i org' Hi. by rewrite lookup_nil in Hi.
  - cbn [fetch_orgs]. unfold bind.
    destruct (get_resource_cases env self s (get org "href") w Hs)
      as [Hw Hres].
    destruct (Client.get_resource env self (get org "href") w)
      as [[body|e|] w1]; cbn [fst snd] in Hw, Hres; subst w1; [| |done];
      fold (org_request self s org) in Hres |- *.
    + destruct (IH (result ++ [body])
                  (UploadSpec.sent (org_request self s org) w))
        as (k & Hk & Hsnd & Hfst).
      exists (S k). split; [simpl; lia|]. split.
      { rewrite Hsnd. cbn [take fmap list_fmap]. apply sent_all_cons. }
      destruct (fst (fetch_orgs env self orgs (result ++ [body]) _))
        as [out|e|]; [| |done].
      * destruct Hfst as (-> & fetched & -> & Hlen & Hall).
        split; [done|]. exists (body :: fetched).
        split; [by rewrite <- app_assoc|]. split; [simpl; lia|].
        intros [|i] org' Hi.
        -- injection Hi as <-. exists body. split; [|done].
           eapply answers_same_trace; [|exact Hres].
           unfold sent_all. simpl. by rewrite app_nil_r.
        -- destruct (Hall i org' Hi) as (body' & Hans & Hf).
           exists body'. split; [|done].
           eapply answers_same_trace; [|exact Hans].
           cbn [take fmap list_fmap]. by rewrite sent_all_cons.
      * destruct Hfst as (j & org' & -> & Hj & Hno).
        exists (S j), org'. split; [done|]. split; [done|].
        intros (body' & Hans). apply Hno. exists body'.
        eapply answers_same_trace; [|exact Hans].
        cbn [take fmap list_fmap]. by rewrite sent_all_cons.
    + exists 1%nat. split; [simpl; lia|]. split.
      { by cbn [take fmap list_fmap]. }
      exists 0%nat, org. split; [done|]. split; [done|].
      intros (body & Hans). apply Hres. exists body.
      eapply answers_same_trace; [|exact Hans].
      unfold sent_all. simpl. by rewrite app_nil_r.
Qed.

End OrgListFacts.

(** X13.  [get_org_list] reads the list of organisations and then
    fetches the entries one by one in document order, each once.  When
    it returns, the result has one resource per entry, in the order of
    the entries: the body of the answer to the request for that entry.
    When a fetch fails, the call raises at once: the entries after it
    are not requested and the resources fetched so far are lost. *)
Theorem X13_get_org_list
    (env : Http.Env) (self : Client.t) (s : Http.Session) (uri : string)
    (w : Http.World) (doc : option Xml.Element) :
  Client._session self = Some s →
  Orgs._get_wk_endpoint self WellKnownEndpoint.ORG_LIST = inr uri →
  OrgsSpec.answers env w (TaskPolls.poll_request self s (Some uri)) doc →
  ∃ k, (k ≤ length (OrgsSpec.entries doc))%nat
    ∧ snd (Orgs.get_org_list env self w)
      = OrgsSpec.sent_all
          (TaskPolls.poll_request self s (Some uri)
           :: (OrgsSpec.org_request self s <$> take k (OrgsSpec.entries doc)))
          w
    ∧ match fst (Orgs.get_org_list env self w) with
      | Http.Ok result =>
          k = length (OrgsSpec.entries doc)
          ∧ length result = length (OrgsSpec.entries doc)
          ∧ ∀ i org, OrgsSpec.entries doc !! i = Some org →
              ∃ body,
                OrgsSpec.answers env
                  (OrgsSpec.sent_all
                     (TaskPolls.poll_request self s (Some uri)
                      :: (OrgsSpec.org_request self s
                            <$> take i (OrgsSpec.entries doc))) w)
                  (OrgsSpec.org_request self s org) body
                ∧ result !! i = Some body
      | Http.Raise _ =>
          ∃ j org, k = S j ∧ OrgsSpec.entries doc !! j = Some org
            ∧ ¬ ∃ body,
                  OrgsSpec.answers env
                    (OrgsSpec.sent_all
                       (TaskPolls.poll_request self s (Some uri)
                        :: (OrgsSpec.org_request self s
                              <$> take j (OrgsSpec.entries doc))) w)
                    (OrgsSpec.org_request self s org) body
      | Http.OutOfFuel => False
      end.
Proof.
  intros Hs Huri Hdoc.
  unfold Orgs.get_org_list, Orgs._get_wk_resource, Http.bind.
  rewrite Huri, (get_resource_answers env self s (Some uri) w doc Hs Hdoc).
  rewrite org_elements_entries.
  destruct (fetch_orgs_spec env self s Hs (OrgsSpec.entries doc) []
              (UploadSpec.sent (TaskPolls.poll_request self s (Some uri)) w))
    as (k & Hk & Hsnd & Hfst).
  exists k. split; [done|]. split; [by rewrite Hsnd, sent_all_cons|].
  destruct (fst (Orgs.fetch_orgs env self _ [] _)) as [out|e|]; [| |done].
  - destruct Hfst as (-> & fetched & -> & Hlen & Hall).
    split; [done|]. split; [done|].
    intros i org Hi. destruct (Hall i org Hi) as (body & Hans & Hf).
    exists body. split; [|done]. by rewrite <- sent_all_cons.
  - destruct Hfst as (j & org & -> & Hj & Hno).
    exists j, org. split; [done|]. split; [done|].
    by rewrite <- sent_all_cons.
Qed.


Lemma X13_get_org_list_witness :
  ∃ k, (k ≤ 3)%nat
    ∧ Http.trace (snd (Orgs.get_org_list OrgsExamples.env_orgs
                         OrgsExamples.client Http.world0))
      = TaskPolls.poll_request OrgsExamples.client
          TaskMonitorExamples.session1 (Some "https://vcd.example/api/org")
        :: (OrgsSpec.org_request OrgsExamples.client
              TaskMonitorExamples.session1
              <$> take k (OrgsSpec.entries (Some OrgsExamples.org_list_doc))).
Proof.
  destruct (X13_get_org_list OrgsExamples.env_orgs OrgsExamples.client
              TaskMonitorExamples.session1 "https://vcd.example/api/org"
              Http.world0 (Some OrgsExamples.org_list_doc) eq_refl eq_refl)
    as (k & Hk & Hsnd & _).
  - eexists. repeat split; reflexivity.
  - exists k. split; [exact Hk|]. rewrite Hsnd. reflexivity.
Defined.

Section OrgRuns.
Import Xml Http Orgs OrgsExamples.

(** All three organisations are fetched, in the order of the list. *)
Example org_list_in_order :
  fst (get_org_list env_orgs client world0)
  = Ok [Some (org_doc "System"); Some (org_doc "Acme"); Some (org_doc "ACME")].
Proof. reflexivity. Qed.

(** Two entries differ in case only: the first of them is taken, and
    two requests are sent in all. *)
Example org_by_name_takes_first :
  fst (get_org_by_name Py.lower env_orgs client "ACME" world0)
  = Ok (Some (org_doc "Acme"))
  ∧ length (trace (snd (get_org_by_name Py.lower env_orgs client "ACME"
                          world0)))
    = 2%nat.
Proof. split; reflexivity. Qed.

Example org_by_name_not_found :
  fst (get_org_by_name Py.lower env_orgs client "Initech" world0)
  = Raise (not_found "Initech").
Proof. reflexivity. Qed.

(** Before login there is no map of endpoints to look into. *)
Example org_list_before_login :
  fst (get_org_list env_orgs VersionsExamples.fresh_client world0)
  = Raise TypeError.
Proof. reflexivity. Qed.

End OrgRuns.


(** ** The map of typed queries *)

Section QueryListFacts.
Import Xml Http QueryList.

Lemma fill_lookup (links : list Element) (m : gmap key (option string))
    (k : key) :
  fill links m !! k
  = match last (filter (λ link, key_of link = k) links) with
    | Some link => Some (get link "href")
    | None => m !! k
    end.
Proof.
  unfold fill. revert m. induction links as [|link links IH]; intros m; [done|].
  cbn [fold_left]. rewrite IH.
  destruct (decide (key_of link = k)) as [Hk|Hk].
  - rewrite filter_cons_True by done. rewrite last_cons.
    destruct (last (filter _ links)); [done|].
    by rewrite <- Hk, lookup_insert_eq.
  - rewrite filter_cons_False by done.
    destruct (last (filter _ links)); [done|].
    by rewrite lookup_insert_ne.
Qed.

End QueryListFacts.

(** X14.  The first call of [_get_query_list_map] leaves a map in the
    field whatever happens: the map it returns, or the empty map when it
    raises, since the field is set before the list of queries is asked
    for.  Every later call returns the map of the field without a
    request; a first call that failed is not made up for. *)
Theorem X14_query_list_map_is_set_once
    (env : Http.Env) (self : Client.t) (w : Http.World) :
  ∃ m, snd (fst (QueryList._get_query_list_map env self None w)) = Some m
    ∧ match fst (fst (QueryList._get_query_list_map env self None w)) with
      | Http.Ok m1 => m1 = m
      | Http.Raise _ => m = ∅
      | Http.OutOfFuel => False
      end
    ∧ ∀ env' w',
        QueryList._get_query_list_map env' self (Some m) w'
        = (Http.Ok m, Some m, w').
Proof.
  unfold QueryList._get_query_list_map.
  destruct (QueryList.query_links env self w) as [[links|e|] w1] eqn:Hq.
  - by exists (QueryList.fill links ∅).
  - by exists ∅.
  - exfalso. revert Hq.
    unfold QueryList.query_links, Orgs._get_wk_resource, Http.bind.
    destruct (Orgs._get_wk_endpoint self _) as [e|uri]; [done|].
    unfold Client.get_resource, Client._do_request, Client._do_request_prim,
      Http.bind, Http.send, Http.raise, Http.ret.
    destruct (Client._session self); [|done].
    destruct (Http.server env _ _) as [r|e]; [|done].
    destruct (_ || _); [|done].
    destruct (Client._objectify_response r) as [doc|]; [|done].
    by destruct (Xml.child_seq doc "Link").
Qed.


(** X15.  A typed query finds its address in the list of queries, which
    it asks for with one request when the map is not there yet: it is
    the address of the last link of the list that has the media type of
    the result format and the name of the query type, and [None] when
    the list has no such link. *)
Theorem X15_typed_query_uri
    (env : Http.Env) (self : Client.t) (s : Http.Session) (uri : string)
    (query_type_name : string) (fmt : Query.QueryResultFormat)
    (w : Http.World) (doc : Xml.Element) (links : list Xml.Element) :
  Client._session self = Some s →
  Orgs._get_wk_endpoint self WellKnownEndpoint.QUERY_LIST = inr uri →
  OrgsSpec.answers env w (TaskPolls.poll_request self s (Some uri))
    (Some doc) →
  Xml.child_seq doc "Link" = Some links →
  QueryList._find_query_uri env self None query_type_name fmt w
  = (Http.Ok
       (match last (filter
                      (λ link, QueryList.key_of link
                               = (Some (Query.format_value fmt).1,
                                  Some query_type_name)) links) with
        | Some link => Xml.get link "href"
        | None => None
        end),
     Some (QueryList.fill links ∅),
     UploadSpec.sent (TaskPolls.poll_request self s (Some uri)) w).
Proof.
  intros Hs Huri Hdoc Hlinks.
  unfold QueryList._find_query_uri, QueryList._get_query_list_map,
    QueryList.query_links, Orgs._get_wk_resource, Http.bind.
  destruct (Query.format_value fmt) as [query_media_type x]. cbn [fst].
  rewrite Huri, (get_resource_answers env self s (Some uri) w _ Hs Hdoc).
  rewrite Hlinks. unfold Http.ret. rewrite fill_lookup.
  by destruct (last _).
Qed.

Lemma X15_typed_query_uri_witness :
  fst (fst (QueryList._find_query_uri
              (QueryListExamples.env_queries (λ _, true))
              QueryListExamples.client None "user" Query.RECORDS Http.world0))
  = Http.Ok (Some "https://vcd.example/api/query?type=user&format=records").
Proof.
  rewrite (X15_typed_query_uri (QueryListExamples.env_queries (λ _, true))
             QueryListExamples.client TaskMonitorExamples.session1
             "https://vcd.example/api/query" "user" Query.RECORDS Http.world0
             QueryListExamples.query_list_doc
             (Xml.children QueryListExamples.query_list_doc)
             eq_refl eq_refl).
  - reflexivity.
  - eexists. repeat split; reflexivity.
  - reflexivity.
Defined.

Section QueryListRuns.
Import Xml Http QueryList QueryListExamples.

(** The list of queries is out of reach at the first call only; the
    second call still answers with the empty map, and sends nothing. *)
Example failed_fetch_is_not_repeated :
  let env := env_queries (λ history, negb (bool_decide (history = []))) in
  let '(first, cache, w1) := _get_query_list_map env client None world0 in
  let '(second, _, w2) := _get_query_list_map env client cache w1 in
  (match first with Raise _ => true | _ => false end) = true
  ∧ second = Ok ∅
  ∧ length (trace w2) = 1%nat.
Proof. vm_compute. by repeat split. Qed.

(** With the list in reach the map is filled, and a second call sends
    nothing either. *)
Example filled_map_is_kept :
  let env := env_queries (λ _, true) in
  let '(first, cache, w1) := _get_query_list_map env client None world0 in
  let '(second, _, w2) := _get_query_list_map env client cache w1 in
  first = second
  ∧ (size <$> cache) = Some 2%nat
  ∧ length (trace w2) = 1%nat.
Proof. by repeat split. Qed.

End QueryListRuns.


(** ** Sessions from a token *)

Section LoginFacts.
Import Xml Http Login.

Lemma accept_header_access_token (self : Client.t) (token : option string)
    (accept_type : option string) :
  Client.accept_header (set_access_token self token) accept_type
  = Client.accept_header self accept_type.
Proof. reflexivity. Qed.

(** The body of the [try] block sends the one request and closes
    nothing. *)
Lemma rehydrate_body_world (env : Env) (self : Client.t) (token : string)
    (is_jwt_token : bool) (s : Session) (w : World) :
  snd (rehydrate_body env self token is_jwt_token s w)
  = UploadSpec.sent (session_request self s) w.
Proof.
  unfold rehydrate_body, Client._do_request_prim, send, session_request.
  assert (Hreq : ∀ self',
            self' = (if is_jwt_token then set_access_token self (Some token)
                     else self) →
            Client._api_base_uri self' = Client._api_base_uri self
            ∧ Client.accept_header self' None = Client.accept_header self None).
  { intros self' ->. by destruct is_jwt_token. }
  destruct (Hreq _ eq_refl) as [-> ->].
  destruct (server env (trace w) _) as [r|e]; [|done].
  destruct (negb _); [done|]. destruct (content r) as [doc|]; [|done].
  by destruct (SessionEndpoints._get_session_endpoints doc).
Qed.

End LoginFacts.

(** X16.  After the negotiation of the version, [rehydrate_from_token]
    sends one request, for [/session], on a new session whose only
    header carries the token.  When it returns, that session is open
    and is the session of the client, and the session document is
    returned.  When it raises, the new session has been closed; but if
    the server had answered 200, the closed session has already been
    made the session of the client. *)
Theorem X16_rehydrate_from_token
    (env : Http.Env) (self c0 : Client.t) (token : string)
    (is_jwt_token : bool) (w w0 : Http.World) :
  Versions._negotiate_api_version env self w = (Http.Ok c0, w0) →
  let s := Login.token_session token is_jwt_token in
  let out := Login.rehydrate_from_token env self token is_jwt_token w in
  Http.trace (snd out) = Http.trace w0 ++ [Login.session_request c0 s]
  ∧ match fst (fst (fst out)) with
    | Http.Ok v =>
        Http.closed (snd out) = Http.closed w0
        ∧ Client._session (snd (fst (fst out))) = Some s
        ∧ Client._vcloud_session (snd (fst (fst out))) = v
        ∧ is_Some v
        ∧ is_Some (snd (fst out))
    | Http.Raise _ =>
        Http.closed (snd out) = Http.closed w0 ++ [s]
        ∧ snd (fst out) = None
        ∧ ∀ r, Http.server env (Http.trace w0) (Login.session_request c0 s)
               = inl r →
               Client._session (snd (fst (fst out)))
               = if Http.status_code r =? 200 then Some s
                 else Client._session c0
    | Http.OutOfFuel => False
    end.
Proof.
  intros Hneg s out. subst out. unfold Login.rehydrate_from_token.
  rewrite Hneg. fold s.
  pose proof (rehydrate_body_world env c0 token is_jwt_token s w0) as Hw.
  revert Hw. unfold Login.rehydrate_body, Client._do_request_prim, Http.send.
  assert (Hreq : ∀ self',
            self' = (if is_jwt_token
                     then Login.set_access_token c0 (Some token) else c0) →
            Client._api_base_uri self' = Client._api_base_uri c0
            ∧ Client.accept_header self' None = Client.accept_header c0 None
            ∧ Client._session self' = Client._session c0).
  { intros self' ->. by destruct is_jwt_token. }
  destruct (Hreq _ eq_refl) as (-> & -> & Hsess).
  fold (Login.session_request c0 s).
  destruct (Http.server env (Http.trace w0) (Login.session_request c0 s))
    as [r|e].
  - destruct (Http.status_code r =? 200) eqn:Hsc; cbn [negb].
    + destruct (Http.content r) as [doc|].
      * destruct (SessionEndpoints._get_session_endpoints doc) as [e|eps];
          intros Hw; cbn [fst snd] in *.
        -- split; [done|]. split; [done|]. split; [done|].
           by intros r' [= <-]; rewrite Hsc.
        -- split; [done|]. repeat split; try done; by eexists.
      * intros Hw; cbn [fst snd] in *.
        split; [done|]. split; [done|]. split; [done|].
        by intros r' [= <-]; rewrite Hsc.
    + intros Hw; cbn [fst snd] in *.
      split; [done|]. split; [done|]. split; [done|].
      by intros r' [= <-]; rewrite Hsc.
  - intros Hw; cbn [fst snd] in *.
    split; [done|]. split; [done|]. split; [done|]. by intros r' [=].
Qed.


Lemma X16_rehydrate_from_token_witness :
  Http.trace
    (snd (Login.rehydrate_from_token
            (LoginExamples.env_session SessionEndpointsExamples.session_doc)
            TaskMonitorExamples.client1 "eyJhbGciOi" true Http.world0))
  = [Login.session_request TaskMonitorExamples.client1
       (Login.token_session "eyJhbGciOi" true)].
Proof.
  destruct (X16_rehydrate_from_token
              (LoginExamples.env_session SessionEndpointsExamples.session_doc)
              TaskMonitorExamples.client1 TaskMonitorExamples.client1
              "eyJhbGciOi" true Http.world0 Http.world0 eq_refl) as [H _].
  exact H.
Defined.

Section LoginRuns.
Import Xml Http Login LoginExamples.

(** A session document with one link to the organisation: the client
    is logged in on the new session, which stays open. *)
Example rehydrate_logs_in :
  let '(res, c, endpoints, w) :=
    rehydrate_from_token (env_session SessionEndpointsExamples.session_doc)
      TaskMonitorExamples.client1 "eyJhbGciOi" true world0 in
  res = Ok (Some SessionEndpointsExamples.session_doc)
  ∧ Client._session c = Some (token_session "eyJhbGciOi" true)
  ∧ Client._vcloud_access_token c = Some "eyJhbGciOi"
  ∧ endpoints = Some [(WellKnownEndpoint.LOGGED_IN_ORG,
                       Some "https://vcd.example/api/org/1")]
  ∧ closed w = [].
Proof. by repeat split. Qed.

(** A session document with two links to an organisation: the call
    raises, and the client is left with the session that was just
    closed, as the system administrator. *)
Example rehydrate_leaves_closed_session :
  let '(res, c, endpoints, w) :=
    rehydrate_from_token (env_session ambiguous_session_doc)
      TaskMonitorExamples.client1 "eyJhbGciOi" true world0 in
  res = Raise (MultipleLinksException None RelationType.DOWN
                 (Some "application/vnd.vmware.vcloud.org+xml"))
  ∧ Client._session c = Some (token_session "eyJhbGciOi" true)
  ∧ Client._is_sysadmin c = true
  ∧ endpoints = None
  ∧ closed w = [token_session "eyJhbGciOi" true].
Proof. by repeat split. Qed.

End LoginRuns.


(** ** Links from a query *)

Section QueryLinkFacts.
Import Xml Http Query QuerySpec QueryLinks.

Lemma scan_page_spec (cs : list Element) (npu : option string)
    (acc : list Links.Link) :
  scan_page cs npu acc
  = (next_uri_among cs npu, acc ++ (Links.Link_of <$> records_among cs)).
Proof.
  revert npu acc. induction cs as [|c cs IH]; intros npu acc.
  - simpl. by rewrite app_nil_r.
  - cbn [scan_page]. rewrite next_uri_among_cons. unfold records_among.
    destruct (String.eqb_spec (localname c) "Link") as [Hl|Hl].
    + rewrite filter_cons_False by (by intros ?).
      unfold Py.eq_ostr. change NEXT_PAGE_value with "nextPage".
      destruct (decide (is_next_link c)) as [[_ Hr]|Hn].
      * rewrite bool_decide_eq_true_2 by done. apply IH.
      * rewrite bool_decide_eq_false_2; [apply IH|].
        intros Hr. by apply Hn.
    + rewrite filter_cons_True by done.
      destruct (decide (is_next_link c)) as [[Hl' _]|Hn]; [done|].
      rewrite IH, fmap_cons. by rewrite <- app_assoc.
Qed.

(** The loop over the pages of a result set. *)
Lemma pages_loop_chain (env : Env) (client : Client.t) (s : Session)
    (pages : list (string * Element)) :
  ∀ (u : string) (p : Element) (acc : list Links.Link) (w : World)
    (fuel : nat),
  serves env client s u p →
  chain env client s p pages →
  (S (length pages) ≤ fuel)%nat →
  pages_loop fuel env client (Some u) acc w
  = (Ok (acc ++ (Links.Link_of <$> all_records p pages)),
     after_fetches client s w ((u, p) :: pages)).
Proof.
  induction pages as [|[u' p'] pages IH];
    intros u p acc w fuel Hserve Hchain Hfuel;
    (destruct fuel as [|fuel]; [simpl in Hfuel; lia|]);
    cbn [pages_loop]; unfold bind; rewrite Hserve, scan_page_spec;
    fold (next_page_uri_of p); fold (records p).
  - simpl in Hchain. rewrite Hchain. destruct fuel; simpl;
      unfold all_records; simpl; by rewrite app_nil_r.
  - destruct Hchain as (Hnext & Hserve' & Hchain'). rewrite Hnext.
    rewrite (IH u' p' _ _ fuel Hserve' Hchain') by (simpl in Hfuel; lia).
    unfold all_records. cbn [fmap list_fmap concat fst snd].
    by rewrite !fmap_app, <- !app_assoc.
Qed.

Section WithUnquote.
Variable unquote : string → string.
Variable lower : string → string.

(** The links before the first one of the wanted type are passed
    over. *)
Lemma follow_first_skips (fuel : nat) (env : Env) (client : Client.t)
    (t : string) (before : list Element) (rest : list Links.Link)
    (w : World) :
  Forall (λ link, is_Some (get link "href") ∧ of_type lower t link = false)
    before →
  follow_first unquote lower fuel env client (Some t)
    ((Links.Link_of <$> before) ++ rest) w
  = follow_first unquote lower fuel env client (Some t) rest w.
Proof.
  induction 1 as [|link before [[h Hh] Hno] _ IH]; [done|].
  cbn [fmap list_fmap app follow_first Links.href Links.Link_of].
  unfold of_type in Hno. rewrite Hh in Hno |- *. by rewrite Hno.
Qed.

End WithUnquote.

End QueryLinkFacts.

(** X17.  [get_resource_link_from_query_object] follows one link only:
    the first link of the resource with the relation [down] and the
    given media type whose address, lowered by [str.lower] (whatever
    that does to it), holds [type].  It fetches the
    unquoted address and then every page that a next-page link names,
    and returns the children of all these pages that are not links, in
    order, as links.  The [rel] it is given plays no part. *)
Theorem X17_links_from_query_object
    (unquote lower : string → string) (env : Http.Env) (client : Client.t)
    (s : Http.Session) (resource : Xml.Element) (rel : RelationType.t)
    (media_type : option string) (t href : string)
    (before after : list Xml.Element) (link p : Xml.Element)
    (pages : list (string * Xml.Element)) (w : Http.World) :
  filter (Links.link_matches RelationType.DOWN media_type None)
    (Links.link_elements resource) = before ++ link :: after →
  Forall (λ l, is_Some (Xml.get l "href")
               ∧ QueryLinks.of_type lower t l = false)
    before →
  Xml.get link "href" = Some href →
  QueryLinks.of_type lower t link = true →
  QuerySpec.serves env client s (unquote href) p →
  QuerySpec.chain env client s p pages →
  ∃ n, ∀ fuel, (n ≤ fuel)%nat →
    QueryLinks.get_resource_link_from_query_object unquote lower fuel env
      client resource rel media_type (Some t) w
    = (Http.Ok (Some (Links.Link_of <$> QuerySpec.all_records p pages)),
       QuerySpec.after_fetches client s w ((unquote href, p) :: pages)).
Proof.
  intros Hlinks Hbefore Hhref Htype Hserve Hchain.
  exists (S (length pages)). intros fuel Hfuel.
  unfold QueryLinks.get_resource_link_from_query_object.
  rewrite get_links_filter.
  replace (filter _ (Links.link_elements resource))
    with (before ++ link :: after) by (symmetry; exact Hlinks).
  rewrite fmap_app, fmap_cons.
  rewrite (follow_first_skips unquote lower fuel env client t before _ w
             Hbefore).
  cbn [QueryLinks.follow_first Links.href Links.Link_of]. rewrite Hhref.
  unfold QueryLinks.of_type in Htype. rewrite Hhref in Htype.
  rewrite Htype. cbn [negb]. unfold Http.bind.
  by rewrite (pages_loop_chain env client s pages (unquote href) p [] w fuel
                Hserve Hchain Hfuel).
Qed.


Lemma X17_links_from_query_object_witness :
  ∃ n, ∀ fuel, (n ≤ fuel)%nat →
    QueryLinks.get_resource_link_from_query_object QueryLinksExamples.unquote
      Py.lower fuel QueryExamples.env_pages QueryExamples.client
      QueryLinksExamples.org_doc RelationType.UP
      (Some QueryLinksExamples.records_type) (Some "type=vm") Http.world0
    = (Http.Ok
         (Some (Links.Link_of
                  <$> QuerySpec.all_records QueryExamples.page1
                        [(QueryExamples.page_uri "2", QueryExamples.page2);
                         (QueryExamples.page_uri "3", QueryExamples.page3)])),
       QuerySpec.after_fetches QueryExamples.client
         TaskMonitorExamples.session1 Http.world0
         [(QueryExamples.page_uri "1", QueryExamples.page1);
          (QueryExamples.page_uri "2", QueryExamples.page2);
          (QueryExamples.page_uri "3", QueryExamples.page3)]).
Proof.
  apply (X17_links_from_query_object QueryLinksExamples.unquote Py.lower
           QueryExamples.env_pages QueryExamples.client
           TaskMonitorExamples.session1 QueryLinksExamples.org_doc
           RelationType.UP (Some QueryLinksExamples.records_type) "type=vm"
           (QueryExamples.page_uri "1")
           [QueryLinksExamples.down_link
              "https://vcd.example/api/query?type=user&format=records"]
           [] (QueryLinksExamples.down_link (QueryExamples.page_uri "1"))
           QueryExamples.page1).
  - reflexivity.
  - repeat constructor. by eexists.
  - reflexivity.
  - reflexivity.
  - intros w. reflexivity.
  - exact env_pages_chain.
Defined.

Section QueryLinkRuns.
Import Xml Http QueryLinks QueryLinksExamples.

(** Five records on three pages come back as five links. *)
Example links_of_all_pages :
  fst (get_resource_link_from_query_object unquote Py.lower 4
         QueryExamples.env_pages QueryExamples.client org_doc RelationType.DOWN
         (Some records_type) (Some "type=vm") world0)
  = Ok (Some (Links.Link_of ∘ QueryExamples.record
                <$> ["vm1"; "vm2"; "vm3"; "vm4"; "vm5"])).
Proof. reflexivity. Qed.

(** No link of the wanted type: the result is [None], not the empty
    list, and nothing is sent. *)
Example no_link_of_type :
  get_resource_link_from_query_object unquote Py.lower 4
    QueryExamples.env_pages QueryExamples.client org_doc RelationType.DOWN
    (Some records_type) (Some "type=vapp") world0
  = (Ok None, world0).
Proof. reflexivity. Qed.

(** Called without [type], as the default has it. *)
Example type_left_out :
  fst (get_resource_link_from_query_object unquote Py.lower 4
         QueryExamples.env_pages QueryExamples.client org_doc RelationType.DOWN
         (Some records_type) None world0)
  = Raise TypeError.
Proof. reflexivity. Qed.

End QueryLinkRuns.


(** ** A user of an organisation *)

(** X18.  [get_user_in_org] runs a typed query for the user name, for
    [adminUser] restricted to the organisation when the client is the
    system administrator and for [user] otherwise, and reads every page
    of the result before it decides: no record gives
    [EntityNotFoundException], several give [MultipleRecordsException],
    and exactly one is fetched by its address. *)
Theorem X18_get_user_in_org
    (float_lt : string → string → option bool)
    (quote quote_plus : string → string)
    (env : Http.Env) (self : Client.t) (s : Http.Session)
    (cache cache' : option (gmap QueryList.key (option string)))
    (user_name org_href : string) (query : Query.t) (w w1 : Http.World)
    (p : Xml.Element) (pages : list (string * Xml.Element)) :
  Query.__init__ float_lt quote Query.REFERENCES self None None false
    (if Client._is_sysadmin self
     then Some ("org==" +:+ quote_plus org_href) else None)
    (Some ("name", user_name)) None None None = inr query →
  UserQuery.execute_typed float_lt quote env self cache
    (if Client._is_sysadmin self then UserQuery.ADMIN_USER else UserQuery.USER)
    query w
  = (Http.Ok (Query.Iterator (Query.AtPage (Some p))), cache', w1) →
  QuerySpec.chain env self s p pages →
  ∃ n, ∀ fuel, (n ≤ fuel)%nat →
    UserQuery.get_user_in_org float_lt quote quote_plus fuel env self cache
      user_name org_href w
    = match QuerySpec.all_records p pages with
      | [] =>
          (Http.Raise (UserQuery.user_not_found user_name), cache',
           QuerySpec.after_fetches self s w1 pages)
      | [record] =>
          (fst (Client.get_resource env self (Xml.get record "href")
                  (QuerySpec.after_fetches self s w1 pages)),
           cache',
           snd (Client.get_resource env self (Xml.get record "href")
                  (QuerySpec.after_fetches self s w1 pages)))
      | _ :: _ :: _ =>
          (Http.Raise UserQuery.multiple_users, cache',
           QuerySpec.after_fetches self s w1 pages)
      end.
Proof.
  intros Hinit Hexec Hchain.
  pose proof (drains_chain env self s pages p w1 Hchain) as Hd.
  destruct (drains_run env self _ _ _ _ Hd) as [n Hrun].
  exists n. intros fuel Hfuel.
  unfold UserQuery.get_user_in_org. rewrite Hinit, Hexec, (Hrun fuel Hfuel).
  destruct (QuerySpec.all_records p pages) as [|record [|record' rest]];
    cbn [UserQuery.the_user]; try done.
  by destruct (Client.get_resource env self _ _).
Qed.


Lemma X18_get_user_in_org_witness :
  ∃ n, ∀ fuel, (n ≤ fuel)%nat →
    fst (fst (UserQuery.get_user_in_org QueryExamples.float_lt
                QueryExamples.quote UserQueryExamples.quote_plus fuel
                UserQueryExamples.env_users TaskMonitorExamples.client1
                (Some UserQueryExamples.query_map) "alice"
                "https://vcd.example/api/org/1" Http.world0))
    = Http.Ok (Some UserQueryExamples.user_doc).
Proof.
  destruct (X18_get_user_in_org QueryExamples.float_lt QueryExamples.quote
              UserQueryExamples.quote_plus UserQueryExamples.env_users
              TaskMonitorExamples.client1 TaskMonitorExamples.session1
              (Some UserQueryExamples.query_map)
              (Some UserQueryExamples.query_map) "alice"
              "https://vcd.example/api/org/1"
              {| Query._query_result_format := Query.REFERENCES;
                 Query._page_size := None;
                 Query._include_links := false;
                 Query._query_all_pages := true;
                 Query._page := 1;
                 Query._filter := Some "name==alice";
                 Query._sort_desc := None;
                 Query._sort_asc := None;
                 Query.fields := None |}
              Http.world0
              (QuerySpec.fetched Http.world0
                 (QuerySpec.get_request TaskMonitorExamples.client1
                    TaskMonitorExamples.session1 UserQueryExamples.query_uri))
              UserQueryExamples.users_page []) as [n H].
  - reflexivity.
  - reflexivity.
  - reflexivity.
  - exists n. intros fuel Hfuel. rewrite (H fuel Hfuel). reflexivity.
Defined.
